(** * Lead scoring and qualification engine

    A shallow embedding of [backend/models/lead.py], [backend/models/scoring.py],
    [backend/services/scorer.py], [backend/services/qualifier.py] and the pure
    parts of the handlers of [backend/app.py], followed by the properties of
    the engine that the specification states and by further properties of the
    code.

    Conventions of the embedding.
    - Python [int] values that the code uses as integers are [Z]; Python
      [float] values (and every quantity that mixes the two) are exact
      rationals [Q].  Rounding of binary64 arithmetic is not represented.
    - An [Optional[T]] field is [option T]; the truthiness test [if x:] is
      written out with the [truthy_*] functions below (zero, the empty string
      and the empty list are falsy, exactly like [None]).
    - A raised exception is the [Raise] branch of [result].
    - The single reading of the clock used by one call is the parameter
      [now], a naive instant counted in microseconds as [datetime.now()]
      gives it.  A [datetime] held by a field of a model may be naive or
      aware ([field_datetime]); subtracting an aware one from [now] raises
      [TypeError], as in Python.  The scorers and analysers that subtract a
      date are written as the value they compute once the subtraction has
      succeeded; the raise is [subtract_dates], the first step of
      [score_lead], through which every caller reaches them.
    - Attribute lookup by name ([getattr], [hasattr]) sees the declared
      fields of the models.  Methods and the attributes of built-in values
      are not represented: a rule whose [field] or [value] names one of them
      is outside the embedding.
    - Strings are sequences of ASCII characters. *)

From Stdlib Require Import ZArith QArith Qminmax Qabs Lqa Lia String Ascii List Bool.
From Stdlib Require Import Sorted Permutation.
From stdpp Require Import base option gmap strings list fin_maps.

Set Warnings "-register-all".

(** ** Python values and helpers *)

Module Py.

Inductive exn : Type :=
| TypeError
| AttributeError
| KeyError
| ValueError
| ValidationError.

Inductive result (A : Type) : Type :=
| Ok (a : A)
| Raise (e : exn).
Arguments Ok {A} a.
Arguments Raise {A} e.

Definition bind {A B : Type} (r : result A) (k : A -> result B) : result B :=
  match r with
  | Ok a => k a
  | Raise e => Raise e
  end.

(** A naive [datetime], in microseconds: what [datetime.now()] returns. *)
Definition datetime : Type := Z.

Definition us_per_day : Z := 86400000000.

(** [(a - b).days]: a [timedelta] is normalised so that [days] is the floor. *)
Definition days_between (a b : datetime) : Z := ((a - b) / us_per_day)%Z.

(** A [datetime] as a field of a model holds it.  pydantic parses naive and
    aware values alike, so the field records whether the value carries a
    [tzinfo]; [instant] is its reading in microseconds. *)
Record field_datetime : Type := {
  instant : datetime;
  aware : bool
}.

Definition naive (t : datetime) : field_datetime := {| instant := t; aware := false |}.

(** [(datetime.now() - d).days]: the naive [now] minus an aware [d] raises
    [TypeError: can't subtract offset-naive and offset-aware datetimes]. *)
Definition elapsed_days (now : datetime) (d : field_datetime) : result Z :=
  if aware d then Raise TypeError else Ok (days_between now (instant d)).

(** [d.month], by the usual civil-from-days computation on the proleptic
    Gregorian calendar; instant 0 is 1970-01-01T00:00:00. *)
Definition month_of (d : datetime) : Z :=
  let z := (d / us_per_day + 719468)%Z in
  let era := (z / 146097)%Z in
  let doe := (z - era * 146097)%Z in
  let yoe := ((doe - doe / 1460 + doe / 36524 - doe / 146096) / 365)%Z in
  let doy := (doe - (365 * yoe + yoe / 4 - yoe / 100))%Z in
  let mp := ((5 * doy + 2) / 153)%Z in
  if (mp <? 10)%Z then (mp + 3)%Z else (mp - 9)%Z.

(** *** Numbers *)

Definition Qltb (x y : Q) : bool := negb (Qle_bool y x).
Definition Qgeb (x y : Q) : bool := Qle_bool y x.
Definition Qgtb (x y : Q) : bool := negb (Qle_bool x y).

(** *** Strings *)

Definition lower_ascii (c : ascii) : ascii :=
  let n := nat_of_ascii c in
  if ((65 <=? n) && (n <=? 90))%nat then ascii_of_nat (n + 32) else c.

(** [s.lower()] *)
Fixpoint lower (s : string) : string :=
  match s with
  | EmptyString => EmptyString
  | String c t => String (lower_ascii c) (lower t)
  end.

(** [needle in hay] on two [str] *)
Fixpoint str_in (needle hay : string) {struct hay} : bool :=
  String.prefix needle hay
  || match hay with
     | EmptyString => false
     | String _ t => str_in needle t
     end.

(** [any(k in text for k in keywords)] *)
Definition any_in (keywords : list string) (text : string) : bool :=
  existsb (fun k => str_in k text) keywords.

(** [x in xs] on a list of [str] *)
Definition mem_str (x : string) (xs : list string) : bool :=
  existsb (String.eqb x) xs.

(** [s.split(sep)] for a one-character separator *)
Fixpoint split_from (sep : ascii) (cur : string) (s : string) : list string :=
  match s with
  | EmptyString => [cur]
  | String c t =>
      if Ascii.eqb c sep
      then cur :: split_from sep EmptyString t
      else split_from sep (cur ++ String c EmptyString)%string t
  end.

Definition split (sep : ascii) (s : string) : list string :=
  split_from sep EmptyString s.

(** [sep.join(parts)] *)
Definition join (sep : string) (parts : list string) : string :=
  String.concat sep parts.

Definition dquote : ascii := ascii_of_nat 34.
Definition squote : ascii := ascii_of_nat 39.
Definition backslash : ascii := ascii_of_nat 92.

Fixpoint has_char (c : ascii) (s : string) : bool :=
  match s with
  | EmptyString => false
  | String d t => Ascii.eqb c d || has_char c t
  end.

Definition hex_digit (n : nat) : ascii :=
  if (n <? 10)%nat then ascii_of_nat (48 + n) else ascii_of_nat (87 + n).

Fixpoint repr_body (quote : ascii) (s : string) : string :=
  match s with
  | EmptyString => EmptyString
  | String c t =>
      let n := nat_of_ascii c in
      let rest := repr_body quote t in
      if Ascii.eqb c backslash then String backslash (String backslash rest)
      else if Ascii.eqb c quote then String backslash (String quote rest)
      else if (n =? 10)%nat then String backslash (String "n" rest)
      else if (n =? 13)%nat then String backslash (String "r" rest)
      else if (n =? 9)%nat then String backslash (String "t" rest)
      else if ((n <? 32) || (n =? 127))%nat
           then String backslash
                  (String "x" (String (hex_digit (n / 16)) (String (hex_digit (n mod 16)) rest)))
      else String c rest
  end.

(** [repr(s)] of a [str]: single quotes unless the text has a single quote
    and no double quote. *)
Definition repr_str (s : string) : string :=
  let quote := if has_char squote s && negb (has_char dquote s) then dquote else squote in
  String quote (repr_body quote s ++ String quote EmptyString)%string.

(** [str(xs)] of a list of [str] *)
Definition str_of_list (xs : list string) : string :=
  ("[" ++ join ", " (map repr_str xs) ++ "]")%string.

(** [str(d)] of a [Dict[str, str]], in insertion order *)
Definition str_of_dict (d : list (string * string)) : string :=
  ("{" ++ join ", " (map (fun kv => repr_str (fst kv) ++ ": " ++ repr_str (snd kv)) d) ++ "}")%string.

(** [str(o)] inside an f-string, for an optional [str] *)
Definition fmt_opt_str (o : option string) : string :=
  match o with
  | Some s => s
  | None => "None"
  end.

(** *** Truthiness *)

Definition truthy_int (o : option Z) : bool :=
  match o with
  | Some z => negb (z =? 0)%Z
  | None => false
  end.

Definition truthy_float (o : option Q) : bool :=
  match o with
  | Some q => negb (Qeq_bool q 0%Q)
  | None => false
  end.

Definition truthy_str (o : option string) : bool :=
  match o with
  | Some EmptyString => false
  | Some _ => true
  | None => false
  end.

Definition truthy_list {A : Type} (l : list A) : bool :=
  match l with
  | [] => false
  | _ :: _ => true
  end.

(** *** Dynamically typed values, as the rule matcher sees them

    [VObj cls fields] is an instance of a pydantic model with its declared
    fields; [VDict] is a [dict] with [str] keys.  Members of a [str]-mixin
    [Enum] are their [str] value. *)
Inductive PyVal : Type :=
| VNone
| VBool (b : bool)
| VInt (z : Z)
| VFloat (q : Q)
| VStr (s : string)
| VList (l : list PyVal)
| VDict (d : list (string * PyVal))
| VDatetime (t : field_datetime)
| VObj (cls : string) (fields : list (string * PyVal)).

Definition of_opt {A : Type} (f : A -> PyVal) (o : option A) : PyVal :=
  match o with
  | Some a => f a
  | None => VNone
  end.

Definition VStrs (l : list string) : PyVal := VList (map VStr l).

(** [bool(v)] *)
Definition truthy (v : PyVal) : bool :=
  match v with
  | VNone => false
  | VBool b => b
  | VInt z => negb (z =? 0)%Z
  | VFloat q => negb (Qeq_bool q 0%Q)
  | VStr s => negb (String.eqb s EmptyString)
  | VList l => truthy_list l
  | VDict d => truthy_list d
  | VDatetime _ => true
  | VObj _ _ => true
  end.

(** The value of an [int], [float] or [bool] as a number; these are the
    values for which [isinstance(v, (int, float))] holds ([bool] is a subclass
    of [int]). *)
Definition as_number (v : PyVal) : option Q :=
  match v with
  | VBool b => Some (if b then 1%Q else 0%Q)
  | VInt z => Some (inject_Z z)
  | VFloat q => Some q
  | _ => None
  end.

Fixpoint assoc {A : Type} (k : string) (d : list (string * A)) : option A :=
  match d with
  | [] => None
  | (k', v) :: r => if String.eqb k k' then Some v else assoc k r
  end.

(** [a == b] *)
Fixpoint py_eq (a b : PyVal) {struct a} : bool :=
  let dict_eq (d1 d2 : list (string * PyVal)) :=
    (length d1 =? length d2)%nat
    && (fix all (d : list (string * PyVal)) : bool :=
          match d with
          | [] => true
          | (k, v) :: r =>
              match assoc k d2 with
              | Some v' => py_eq v v'
              | None => false
              end && all r
          end) d1 in
  match a, b with
  | VNone, VNone => true
  | VStr s1, VStr s2 => String.eqb s1 s2
  | VDatetime t1, VDatetime t2 =>
      Bool.eqb (aware t1) (aware t2) && (instant t1 =? instant t2)%Z
  | VList l1, VList l2 =>
      (fix go (xs ys : list PyVal) : bool :=
         match xs, ys with
         | [], [] => true
         | x :: xs', y :: ys' => py_eq x y && go xs' ys'
         | _, _ => false
         end) l1 l2
  | VDict d1, VDict d2 => dict_eq d1 d2
  | VObj c1 f1, VObj c2 f2 => String.eqb c1 c2 && dict_eq f1 f2
  | VBool _, _ | VInt _, _ | VFloat _, _ =>
      match as_number a, as_number b with
      | Some x, Some y => Qeq_bool x y
      | _, _ => false
      end
  | _, _ => false
  end.

(** [hash(v)] succeeds. *)
Definition hashable (v : PyVal) : bool :=
  match v with
  | VList _ | VDict _ | VObj _ _ => false
  | _ => true
  end.

(** [hasattr(v, part)] and [getattr(v, part)] at once: the declared fields
    of a model instance.  Attribute names that are not declared data fields
    (methods, dunder names, attributes of built-in values) are not
    represented and count as absent. *)
Definition py_getattr (v : PyVal) (part : string) : option PyVal :=
  match v with
  | VObj _ fields => assoc part fields
  | _ => None
  end.

End Py.
Import Py.

#[export] Instance result_ret : MRet Py.result := fun _ a => Py.Ok a.
#[export] Instance result_bind : MBind Py.result := fun _ _ k r => Py.bind r k.

(** ** [models/lead.py] *)

Module lead.

Inductive QualificationStatus : Type := HOT | WARM | COLD | UNQUALIFIED.

#[export] Instance QualificationStatus_eq_dec : EqDecision QualificationStatus.
Proof. solve_decision. Defined.

(** [status.value] *)
Definition value (s : QualificationStatus) : string :=
  match s with
  | HOT => "Hot"
  | WARM => "Warm"
  | COLD => "Cold"
  | UNQUALIFIED => "Unqualified"
  end.

(** [QualificationStatus(text)]: lookup by value, [ValueError] otherwise *)
Definition of_value (text : string) : result QualificationStatus :=
  if String.eqb text "Hot" then Ok HOT
  else if String.eqb text "Warm" then Ok WARM
  else if String.eqb text "Cold" then Ok COLD
  else if String.eqb text "Unqualified" then Ok UNQUALIFIED
  else Raise ValueError.

Inductive RevenueRange : Type := STARTUP | SMALL | MEDIUM | LARGE | ENTERPRISE.

Definition revenue_value (r : RevenueRange) : string :=
  match r with
  | STARTUP => "0-1M"
  | SMALL => "1M-10M"
  | MEDIUM => "10M-100M"
  | LARGE => "100M-1B"
  | ENTERPRISE => "1B+"
  end.

Record ContactInfo : Type := {
  name : option string;
  title : option string;
  email : option string;
  linkedin_url : option string;
  phone : option string
}.

Record CompanyMetrics : Type := {
  employee_count : option Z;
  revenue_range : option RevenueRange;
  growth_rate : option Q;             (* Field(None, ge=0, le=100) *)
  funding_amount : option Q;
  funding_stage : option string;
  last_funding_date : option field_datetime
}.

Record TechnologyStack : Type := {
  technologies : list string;
  marketing_tools : list string;
  sales_tools : list string;
  analytics_tools : list string
}.

Record BuyingSignals : Type := {
  job_postings : list string;
  recent_hiring : option Z;
  budget_indicators : list string;
  decision_maker_changes : bool;
  expansion_signals : list string
}.

Record Lead : Type := {
  id : option string;
  company_name : string;
  domain : string;
  industry : option string;
  sub_industry : option string;
  contacts : list ContactInfo;
  metrics : CompanyMetrics;
  tech_stack : TechnologyStack;
  buying_signals : BuyingSignals;
  lead_score : option Q;              (* Field(None, ge=0, le=100) *)
  qualification_status : option QualificationStatus;
  score_breakdown : list (string * Q);
  data_quality_score : option Q;      (* Field(None, ge=0, le=100) *)
  completeness_percentage : option Q; (* Field(None, ge=0, le=100) *)
  last_enriched : option field_datetime;
  data_sources : list string;
  competitor_analysis : list (string * PyVal);
  outreach_recommendations : list string;
  next_actions : list string;
  headquarters : option string;
  locations : list string;
  website_traffic_rank : option Z;
  social_media_presence : list (string * string);
  created_at : field_datetime;
  updated_at : field_datetime
}.

(** The defaults of the model classes. *)
Definition CompanyMetrics_default : CompanyMetrics :=
  {| employee_count := None; revenue_range := None; growth_rate := None;
     funding_amount := None; funding_stage := None; last_funding_date := None |}.

Definition TechnologyStack_default : TechnologyStack :=
  {| technologies := []; marketing_tools := []; sales_tools := []; analytics_tools := [] |}.

Definition BuyingSignals_default : BuyingSignals :=
  {| job_postings := []; recent_hiring := None; budget_indicators := [];
     decision_maker_changes := false; expansion_signals := [] |}.

(** [Lead(company_name=..., domain=...)] with every optional field left out,
    constructed at instant [t]. *)
Definition Lead_minimal (company domain_name : string) (t : datetime) : Lead :=
  {| id := None; company_name := company; domain := domain_name;
     industry := None; sub_industry := None; contacts := [];
     metrics := CompanyMetrics_default; tech_stack := TechnologyStack_default;
     buying_signals := BuyingSignals_default;
     lead_score := None; qualification_status := None; score_breakdown := [];
     data_quality_score := None; completeness_percentage := None;
     last_enriched := None; data_sources := []; competitor_analysis := [];
     outreach_recommendations := []; next_actions := [];
     headquarters := None; locations := [];
     website_traffic_rank := None; social_media_presence := [];
     created_at := naive t; updated_at := naive t |}.

(** The range constraints that pydantic checks when a model is built. *)
Definition in_range (lo hi : Q) (o : option Q) : Prop :=
  match o with
  | Some q => (lo <= q /\ q <= hi)%Q
  | None => True
  end.

Definition CompanyMetrics_valid (m : CompanyMetrics) : Prop :=
  in_range 0 100 (growth_rate m).

Definition Lead_valid (l : Lead) : Prop :=
  CompanyMetrics_valid (metrics l)
  /\ in_range 0 100 (lead_score l)
  /\ in_range 0 100 (data_quality_score l)
  /\ in_range 0 100 (completeness_percentage l).

(** The instance as the dotted-path lookup of the rule matcher sees it. *)
Definition ContactInfo_obj (c : ContactInfo) : PyVal :=
  VObj "ContactInfo"
    [("name", of_opt VStr (name c)); ("title", of_opt VStr (title c));
     ("email", of_opt VStr (email c)); ("linkedin_url", of_opt VStr (linkedin_url c));
     ("phone", of_opt VStr (phone c))].

Definition CompanyMetrics_obj (m : CompanyMetrics) : PyVal :=
  VObj "CompanyMetrics"
    [("employee_count", of_opt VInt (employee_count m));
     ("revenue_range", of_opt (fun r => VStr (revenue_value r)) (revenue_range m));
     ("growth_rate", of_opt VFloat (growth_rate m));
     ("funding_amount", of_opt VFloat (funding_amount m));
     ("funding_stage", of_opt VStr (funding_stage m));
     ("last_funding_date", of_opt VDatetime (last_funding_date m))].

Definition TechnologyStack_obj (t : TechnologyStack) : PyVal :=
  VObj "TechnologyStack"
    [("technologies", VStrs (technologies t));
     ("marketing_tools", VStrs (marketing_tools t));
     ("sales_tools", VStrs (sales_tools t));
     ("analytics_tools", VStrs (analytics_tools t))].

Definition BuyingSignals_obj (b : BuyingSignals) : PyVal :=
  VObj "BuyingSignals"
    [("job_postings", VStrs (job_postings b));
     ("recent_hiring", of_opt VInt (recent_hiring b));
     ("budget_indicators", VStrs (budget_indicators b));
     ("decision_maker_changes", VBool (decision_maker_changes b));
     ("expansion_signals", VStrs (expansion_signals b))].

Definition Lead_obj (l : Lead) : PyVal :=
  VObj "Lead"
    [("id", of_opt VStr (id l));
     ("company_name", VStr (company_name l));
     ("domain", VStr (domain l));
     ("industry", of_opt VStr (industry l));
     ("sub_industry", of_opt VStr (sub_industry l));
     ("contacts", VList (map ContactInfo_obj (contacts l)));
     ("metrics", CompanyMetrics_obj (metrics l));
     ("tech_stack", TechnologyStack_obj (tech_stack l));
     ("buying_signals", BuyingSignals_obj (buying_signals l));
     ("lead_score", of_opt VFloat (lead_score l));
     ("qualification_status", of_opt (fun q => VStr (value q)) (qualification_status l));
     ("score_breakdown", VDict (map (fun kv => (fst kv, VFloat (snd kv))) (score_breakdown l)));
     ("data_quality_score", of_opt VFloat (data_quality_score l));
     ("completeness_percentage", of_opt VFloat (completeness_percentage l));
     ("last_enriched", of_opt VDatetime (last_enriched l));
     ("data_sources", VStrs (data_sources l));
     ("competitor_analysis", VDict (competitor_analysis l));
     ("outreach_recommendations", VStrs (outreach_recommendations l));
     ("next_actions", VStrs (next_actions l));
     ("headquarters", of_opt VStr (headquarters l));
     ("locations", VStrs (locations l));
     ("website_traffic_rank", of_opt VInt (website_traffic_rank l));
     ("social_media_presence",
        VDict (map (fun kv => (fst kv, VStr (snd kv))) (social_media_presence l)));
     ("created_at", VDatetime (created_at l));
     ("updated_at", VDatetime (updated_at l))].

End lead.

(** ** [models/scoring.py] *)

Module scoring.

Inductive ScoreCategory : Type :=
| COMPANY_FIT
| GROWTH_INDICATORS
| TECHNOLOGY_FIT
| ENGAGEMENT_SIGNALS
| TIMING_SIGNALS
| BUYING_SIGNALS.

#[export] Instance ScoreCategory_eq_dec : EqDecision ScoreCategory.
Proof. solve_decision. Defined.

Definition ScoreCategory_code (c : ScoreCategory) : nat :=
  match c with
  | COMPANY_FIT => 0
  | GROWTH_INDICATORS => 1
  | TECHNOLOGY_FIT => 2
  | ENGAGEMENT_SIGNALS => 3
  | TIMING_SIGNALS => 4
  | BUYING_SIGNALS => 5
  end.

Definition ScoreCategory_decode (n : nat) : option ScoreCategory :=
  match n with
  | 0 => Some COMPANY_FIT
  | 1 => Some GROWTH_INDICATORS
  | 2 => Some TECHNOLOGY_FIT
  | 3 => Some ENGAGEMENT_SIGNALS
  | 4 => Some TIMING_SIGNALS
  | 5 => Some BUYING_SIGNALS
  | _ => None
  end.

#[export] Instance ScoreCategory_countable : Countable ScoreCategory.
Proof.
  apply (inj_countable ScoreCategory_code ScoreCategory_decode).
  intros []; reflexivity.
Defined.

Record ScoringWeights : Type := {
  company_fit : Q;          (* Field(0.25, ge=0, le=1) *)
  growth_indicators : Q;    (* Field(0.20, ge=0, le=1) *)
  technology_fit : Q;       (* Field(0.15, ge=0, le=1) *)
  engagement_signals : Q;   (* Field(0.15, ge=0, le=1) *)
  timing_signals : Q;       (* Field(0.15, ge=0, le=1) *)
  buying_signals : Q        (* Field(0.10, ge=0, le=1) *)
}.

Definition ScoringWeights_default : ScoringWeights :=
  {| company_fit := 0.25; growth_indicators := 0.20; technology_fit := 0.15;
     engagement_signals := 0.15; timing_signals := 0.15; buying_signals := 0.10 |}.

Definition unit_interval (q : Q) : Prop := (0 <= q /\ q <= 1)%Q.

(** The field constraints checked when a [ScoringWeights] is built. *)
Definition ScoringWeights_valid (w : ScoringWeights) : Prop :=
  unit_interval (company_fit w) /\ unit_interval (growth_indicators w)
  /\ unit_interval (technology_fit w) /\ unit_interval (engagement_signals w)
  /\ unit_interval (timing_signals w) /\ unit_interval (buying_signals w).

(** [sum([...])] starts from 0 and adds from the left. *)
Definition py_sum (xs : list Q) : Q := fold_left Qplus xs 0%Q.

Definition validate_weights (self : ScoringWeights) : result unit :=
  let total := py_sum [company_fit self; growth_indicators self; technology_fit self;
                       engagement_signals self; timing_signals self; buying_signals self] in
  if Qgtb (Qabs (total - 1.0)) 0.01 then Raise ValueError else Ok tt.

Record IdealCustomerProfile : Type := {
  target_industries : list string;
  company_size_min : option Z;
  company_size_max : option Z;
  revenue_min : option Q;
  revenue_max : option Q;
  target_technologies : list string;
  target_roles : list string;
  geographic_regions : list string;
  funding_stages : list string;
  excluded_industries : list string;
  excluded_technologies : list string
}.

Definition IdealCustomerProfile_default : IdealCustomerProfile :=
  {| target_industries := []; company_size_min := None; company_size_max := None;
     revenue_min := None; revenue_max := None; target_technologies := [];
     target_roles := []; geographic_regions := []; funding_stages := [];
     excluded_industries := []; excluded_technologies := [] |}.

Definition IdealCustomerProfile_obj (p : IdealCustomerProfile) : PyVal :=
  VObj "IdealCustomerProfile"
    [("target_industries", VStrs (target_industries p));
     ("company_size_min", of_opt VInt (company_size_min p));
     ("company_size_max", of_opt VInt (company_size_max p));
     ("revenue_min", of_opt VFloat (revenue_min p));
     ("revenue_max", of_opt VFloat (revenue_max p));
     ("target_technologies", VStrs (target_technologies p));
     ("target_roles", VStrs (target_roles p));
     ("geographic_regions", VStrs (geographic_regions p));
     ("funding_stages", VStrs (funding_stages p));
     ("excluded_industries", VStrs (excluded_industries p));
     ("excluded_technologies", VStrs (excluded_technologies p))].

Record ScoringRule : Type := {
  name : string;
  category : ScoreCategory;
  condition : gmap string PyVal;
  score_impact : Q;                   (* Field(ge=-100, le=100) *)
  weight : Q;                         (* Field(1.0, ge=0, le=1) *)
  description : option string
}.

Record IndustrySpecificRules : Type := {
  rules_industry : string;
  scoring_weights : ScoringWeights;
  specific_rules : list ScoringRule;
  icp_adjustments : list (string * PyVal)
}.

Record QualificationThresholds : Type := {
  hot_threshold : Q;                  (* Field(80, ge=0, le=100) *)
  warm_threshold : Q;                 (* Field(60, ge=0, le=100) *)
  cold_threshold : Q;                 (* Field(40, ge=0, le=100) *)
  min_data_quality : Q                (* Field(50, ge=0, le=100) *)
}.

Definition QualificationThresholds_default : QualificationThresholds :=
  {| hot_threshold := 80; warm_threshold := 60; cold_threshold := 40;
     min_data_quality := 50 |}.

Record ScoringModel : Type := {
  model_name : string;
  version : string;
  weights : ScoringWeights;
  icp : IdealCustomerProfile;
  thresholds : QualificationThresholds;
  global_rules : list ScoringRule;
  industry_rules : list IndustrySpecificRules;
  max_score : Q;
  normalize_scores : bool;
  apply_data_quality_penalty : bool
}.

(** [ScoringModel()] *)
Definition ScoringModel_default : ScoringModel :=
  {| model_name := "Default Lead Scoring Model"; version := "1.0";
     weights := ScoringWeights_default; icp := IdealCustomerProfile_default;
     thresholds := QualificationThresholds_default;
     global_rules := []; industry_rules := [];
     max_score := 100; normalize_scores := true;
     apply_data_quality_penalty := true |}.

Definition set_global_rules (m : ScoringModel) (rules : list ScoringRule) : ScoringModel :=
  {| model_name := model_name m; version := version m; weights := weights m;
     icp := icp m; thresholds := thresholds m; global_rules := rules;
     industry_rules := industry_rules m; max_score := max_score m;
     normalize_scores := normalize_scores m;
     apply_data_quality_penalty := apply_data_quality_penalty m |}.

Definition cond (entries : list (string * PyVal)) : gmap string PyVal :=
  list_to_map entries.

Definition get_default_rules (self : ScoringModel) : list ScoringRule :=
  [ {| name := "Target Industry Match"; category := COMPANY_FIT;
       condition := cond [("field", VStr "industry"); ("operator", VStr "in");
                          ("value", VStr "target_industries")];
       score_impact := 20; weight := 1.0;
       description := Some "Company is in target industry" |};
    {| name := "Ideal Company Size"; category := COMPANY_FIT;
       condition := cond [("field", VStr "employee_count"); ("operator", VStr "between");
                          ("min", VStr "size_min"); ("max", VStr "size_max")];
       score_impact := 15; weight := 1.0;
       description := Some "Company size matches ICP" |};
    {| name := "Recent Funding"; category := GROWTH_INDICATORS;
       condition := cond [("field", VStr "last_funding_date"); ("operator", VStr "within_days");
                          ("value", VInt 180)];
       score_impact := 15; weight := 1.0;
       description := Some "Recently received funding" |};
    {| name := "High Hiring Velocity"; category := GROWTH_INDICATORS;
       condition := cond [("field", VStr "hiring_velocity"); ("operator", VStr "gt");
                          ("value", VInt 5)];
       score_impact := 10; weight := 1.0;
       description := Some "Actively hiring (growth signal)" |};
    {| name := "Technology Stack Match"; category := TECHNOLOGY_FIT;
       condition := cond [("field", VStr "tech_stack"); ("operator", VStr "intersects");
                          ("value", VStr "target_technologies")];
       score_impact := 12; weight := 1.0;
       description := Some "Uses complementary technologies" |};
    {| name := "Decision Maker Job Postings"; category := BUYING_SIGNALS;
       condition := cond [("field", VStr "job_postings"); ("operator", VStr "contains_roles");
                          ("value", VStr "target_roles")];
       score_impact := 25; weight := 1.0;
       description := Some "Hiring for relevant decision-making roles" |};
    {| name := "Competitor Technology"; category := TIMING_SIGNALS;
       condition := cond [("field", VStr "tech_stack"); ("operator", VStr "contains_competitor");
                          ("value", VBool true)];
       score_impact := 8; weight := 1.0;
       description := Some "Currently uses competitor solution" |};
    {| name := "Website Traffic Growth"; category := ENGAGEMENT_SIGNALS;
       condition := cond [("field", VStr "website_traffic_trend"); ("operator", VStr "eq");
                          ("value", VStr "up")];
       score_impact := 5; weight := 1.0;
       description := Some "Growing web presence" |} ].

(** The engine's output.  The textual fields of the class ([explanations],
    [improvement_suggestions], [next_actions], [outreach_timing],
    [outreach_approach]) are formatted messages that no numeric field reads
    back; they are left out. *)
Record LeadScore : Type := {
  total_score : Q;                    (* Field(ge=0, le=100) *)
  category_scores : gmap ScoreCategory Q;
  qualification_status : string;
  confidence : Q;                     (* Field(ge=0, le=1) *)
  data_quality_impact : Q;
  applied_rules : list string
}.

(** [LeadScore(...)]: pydantic rejects a field outside its declared range. *)
Definition LeadScore_new (total : Q) (scores : gmap ScoreCategory Q) (status : string)
    (conf impact : Q) (rules : list string) : result LeadScore :=
  if Qle_bool 0 total && Qle_bool total 100 && Qle_bool 0 conf && Qle_bool conf 1
  then Ok {| total_score := total; category_scores := scores;
             qualification_status := status; confidence := conf;
             data_quality_impact := impact; applied_rules := rules |}
  else Raise ValidationError.

End scoring.

(** ** [services/scorer.py] *)

Module scorer.
Import lead scoring.
#[local] Open Scope Q_scope.

Record LeadScoringEngine : Type := {
  model : ScoringModel;
  industry_multipliers : list (string * Q);
  target_tech_stack : list string;
  competitor_technologies : list string
}.

(** [LeadScoringEngine(scoring_model)]: the default model when none is given,
    the default rules when the model has none.  Nothing else is checked. *)
Definition LeadScoringEngine_init (scoring_model : option ScoringModel) : LeadScoringEngine :=
  let m := match scoring_model with
           | Some m => m
           | None => ScoringModel_default
           end in
  let m := if negb (truthy_list (global_rules m))
           then set_global_rules m (get_default_rules m)
           else m in
  {| model := m;
     industry_multipliers :=
       [("technology", 1.2); ("software", 1.2); ("saas", 1.3); ("fintech", 1.1);
        ("healthcare", 1.0); ("e-commerce", 1.1); ("marketing", 0.9);
        ("consulting", 0.8); ("manufacturing", 0.7); ("retail", 0.8)]%Q;
     target_tech_stack :=
       ["python"; "react"; "node.js"; "aws"; "postgresql";
        "redis"; "docker"; "kubernetes"; "api"; "microservices"];
     competitor_technologies :=
       ["salesforce"; "hubspot"; "marketo"; "pardot";
        "mailchimp"; "constant-contact"; "pipedrive"] |}.

Definition len {A : Type} (l : list A) : Z := Z.of_nat (length l).

Definition _score_company_size (self : LeadScoringEngine) (employee_count : Z) : Q :=
  let default_points : Q :=
    if ((50 <=? employee_count) && (employee_count <=? 500))%Z then 8
    else if ((20 <=? employee_count) && (employee_count <=? 1000))%Z then 6
    else if ((10 <=? employee_count) && (employee_count <=? 2000))%Z then 4
    else 2 in
  match company_size_min (icp (model self)), company_size_max (icp (model self)) with
  | Some size_min, Some size_max =>
      if (negb (size_min =? 0) && negb (size_max =? 0))%Z then
        if ((size_min <=? employee_count) && (employee_count <=? size_max))%Z then 8
        else if (employee_count <? size_min)%Z then
          let ratio := inject_Z employee_count / inject_Z size_min in
          8 * ratio
        else 6
      else default_points
  | _, _ => default_points
  end.

Definition _score_geographic_fit (self : LeadScoringEngine) (location : string) : Q :=
  let location_lower := lower location in
  if any_in ["san francisco"; "new york"; "seattle"; "boston"; "austin"] location_lower then 4
  else if any_in ["usa"; "us"; "united states"; "canada"] location_lower then 3
  else if any_in ["uk"; "australia"; "ireland"; "new zealand"] location_lower then 2
  else 1.

Definition _score_company_fit (self : LeadScoringEngine) (ld : Lead) : Q :=
  let score : Q := 0 in
  (* Industry fit *)
  let score :=
    match industry ld with
    | Some ind =>
        if truthy_str (Some ind) then
          let industry_lower := lower ind in
          let industry_points :=
            if existsb (fun target => str_in target industry_lower)
                 (target_industries (icp (model self)))
            then 8
            else match assoc industry_lower (industry_multipliers self) with
                 | Some multiplier => 6 * multiplier
                 | None => 3
                 end in
          score + industry_points
        else score
    | None => score
    end in
  (* Company size fit *)
  let score :=
    match employee_count (metrics ld) with
    | Some n => if truthy_int (Some n) then score + _score_company_size self n else score
    | None => score
    end in
  (* Revenue range fit *)
  let score :=
    match revenue_range (metrics ld) with
    | Some _ => score + 5
    | None => score
    end in
  (* Geographic fit *)
  let score :=
    match headquarters ld with
    | Some hq => if truthy_str (Some hq) then score + _score_geographic_fit self hq else score
    | None => score
    end in
  score.

Definition _score_growth_indicators (self : LeadScoringEngine) (now : datetime) (ld : Lead) : Q :=
  let score : Q := 0 in
  (* Recent funding *)
  let score :=
    match last_funding_date (metrics ld) with
    | Some d =>
        let days_since_funding := days_between now (instant d) in
        let funding_points :=
          if (days_since_funding <=? 90)%Z then 6
          else if (days_since_funding <=? 180)%Z then 4
          else if (days_since_funding <=? 365)%Z then 2
          else 0 in
        score + funding_points
    | None => score
    end in
  (* Hiring velocity *)
  let score :=
    match recent_hiring (lead.buying_signals ld) with
    | Some hiring_rate =>
        if truthy_int (Some hiring_rate) then
          let hiring_points :=
            if (10 <=? hiring_rate)%Z then 6
            else if (5 <=? hiring_rate)%Z then 4
            else if (2 <=? hiring_rate)%Z then 2
            else 0 in
          score + hiring_points
        else score
    | None => score
    end in
  (* Job postings *)
  let score :=
    if truthy_list (job_postings (lead.buying_signals ld)) then
      let job_count := len (job_postings (lead.buying_signals ld)) in
      let job_points := Z.min 4 job_count in
      score + inject_Z job_points
    else score in
  (* Growth rate *)
  let score :=
    match growth_rate (metrics ld) with
    | Some rate =>
        if truthy_float (Some rate) then
          let growth_points :=
            if Qgeb rate 50 then 4
            else if Qgeb rate 25 then 3
            else if Qgeb rate 10 then 2
            else 1 in
          score + growth_points
        else score
    | None => score
    end in
  score.

Definition _score_technology_fit (self : LeadScoringEngine) (ld : Lead) : Q :=
  let score : Q := 0 in
  let all_technologies :=
    technologies (tech_stack ld) ++ marketing_tools (tech_stack ld)
    ++ sales_tools (tech_stack ld) ++ analytics_tools (tech_stack ld) in
  if negb (truthy_list all_technologies) then 0
  else
    (* Technology compatibility *)
    let compatible_techs :=
      filter (fun tech => mem_str (lower tech) (target_tech_stack self) = true) all_technologies in
    let score :=
      if truthy_list compatible_techs
      then score + inject_Z (Z.min 8 (len compatible_techs * 2))
      else score in
    (* Competitor technology usage *)
    let competitor_techs :=
      filter (fun tech => mem_str (lower tech) (competitor_technologies self) = true)
        all_technologies in
    let score :=
      if truthy_list competitor_techs
      then score + inject_Z (Z.min 5 (len competitor_techs * 3))
      else score in
    (* Modern tech stack *)
    let modern_indicators := ["api"; "cloud"; "microservices"; "docker"; "kubernetes"; "saas"] in
    let modern_techs :=
      filter (fun tech => any_in modern_indicators (lower tech) = true) all_technologies in
    let score := if truthy_list modern_techs then score + 2 else score in
    score.

Definition _score_engagement_signals (self : LeadScoringEngine) (now : datetime) (ld : Lead) : Q :=
  let score : Q := 0 in
  (* Website traffic rank *)
  let score :=
    match website_traffic_rank ld with
    | Some rank =>
        if truthy_int (Some rank) then
          let traffic_points :=
            if (rank <=? 100000)%Z then 5
            else if (rank <=? 500000)%Z then 3
            else if (rank <=? 1000000)%Z then 2
            else 1 in
          score + traffic_points
        else score
    | None => score
    end in
  (* Social media presence *)
  let score :=
    if truthy_list (social_media_presence ld)
    then score + inject_Z (Z.min 5 (len (social_media_presence ld) * 2))
    else score in
  (* Content/thought leadership *)
  let thought_leadership_indicators := ["blog"; "content"; "webinar"; "podcast"; "speaking"] in
  let score :=
    if any_in thought_leadership_indicators (lower (str_of_dict (social_media_presence ld)))
    then score + 3
    else score in
  (* Data recency *)
  let score :=
    match last_enriched ld with
    | Some d => if (days_between now (instant d) <=? 30)%Z then score + 2 else score
    | None => score
    end in
  score.

Definition _score_timing_signals (self : LeadScoringEngine) (now : datetime) (ld : Lead) : Q :=
  let score : Q := 0 in
  (* Recent company changes *)
  let score := if decision_maker_changes (lead.buying_signals ld) then score + 6 else score in
  (* Expansion signals *)
  let score :=
    if truthy_list (expansion_signals (lead.buying_signals ld)) then
      let expansion_count := len (expansion_signals (lead.buying_signals ld)) in
      score + inject_Z (Z.min 4 (expansion_count * 2))
    else score in
  (* Funding/growth timing *)
  let score :=
    match last_funding_date (metrics ld) with
    | Some d =>
        let days_since_funding := days_between now (instant d) in
        if ((30 <=? days_since_funding) && (days_since_funding <=? 180))%Z
        then score + 3
        else score
    | None => score
    end in
  (* Technology adoption signals *)
  let modern_adoption_signals := ["migration"; "upgrade"; "implementation"; "new system"] in
  let score :=
    if any_in modern_adoption_signals
         (lower (str_of_list (expansion_signals (lead.buying_signals ld))))
    then score + 2
    else score in
  score.

Definition _score_buying_signals (self : LeadScoringEngine) (ld : Lead) : Q :=
  let score : Q := 0 in
  (* Budget indicators *)
  let score :=
    if truthy_list (budget_indicators (lead.buying_signals ld)) then
      let budget_count := len (budget_indicators (lead.buying_signals ld)) in
      score + inject_Z (Z.min 4 (budget_count * 2))
    else score in
  (* Relevant job postings *)
  let score :=
    if truthy_list (job_postings (lead.buying_signals ld)) then
      let relevant_roles :=
        ["marketing"; "growth"; "digital"; "automation"; "operations"; "technology"] in
      let relevant_postings :=
        filter (fun job => any_in relevant_roles (lower job) = true)
          (job_postings (lead.buying_signals ld)) in
      if truthy_list relevant_postings
      then score + inject_Z (Z.min 4 (len relevant_postings * 2))
      else score
    else score in
  (* Pain point indicators *)
  let pain_point_keywords := ["inefficient"; "manual"; "time-consuming"; "outdated"; "challenge"] in
  let company_text :=
    (company_name ld ++ " " ++ fmt_opt_str (industry ld) ++ " "
     ++ join " " (expansion_signals (lead.buying_signals ld)))%string in
  let score :=
    if any_in pain_point_keywords (lower company_text) then score + 2 else score in
  score.

(** [getattr(self.model.icp, value, [])]: the attribute name must be a [str].
    A name that is no declared field of the profile gives the default [[]];
    the names of the methods that the profile inherits are not represented. *)
Definition icp_getattr (self : LeadScoringEngine) (value : PyVal) : result PyVal :=
  match value with
  | VStr attr =>
      Ok (default (VList []) (py_getattr (IdealCustomerProfile_obj (icp (model self))) attr))
  | _ => Raise TypeError
  end.

(** [x in container] *)
Definition py_in (x container : PyVal) : result bool :=
  match container with
  | VList items => Ok (existsb (fun item => py_eq item x) items)
  | VDict d => if hashable x then Ok (existsb (fun kv => py_eq (VStr (fst kv)) x) d)
               else Raise TypeError
  | VStr s => match x with
              | VStr needle => Ok (str_in needle s)
              | _ => Raise TypeError
              end
  | VObj _ _ => Ok false
  | _ => Raise TypeError
  end.

Fixpoint chars (s : string) : list PyVal :=
  match s with
  | EmptyString => []
  | String c t => VStr (String c EmptyString) :: chars t
  end.

(** [set(v)], as the list of its members *)
Definition py_set (v : PyVal) : result (list PyVal) :=
  match v with
  | VList items => if forallb hashable items then Ok items else Raise TypeError
  | VDict d => Ok (map (fun kv => VStr (fst kv)) d)
  | VStr s => Ok (chars s)
  | VObj _ fields => if forallb (fun kv => hashable (snd kv)) fields then Ok [] else Raise TypeError
  | _ => Raise TypeError
  end.

Definition is_none (v : PyVal) : bool :=
  match v with
  | VNone => true
  | _ => false
  end.

Fixpoint walk_parts (value : PyVal) (parts : list string) : PyVal :=
  match parts with
  | [] => value
  | part :: rest =>
      match py_getattr value part with
      | Some v => walk_parts v rest
      | None => VNone
      end
  end.

(** Dotted-path lookup.  Whatever goes wrong ([field] has no [split]) is
    caught by the bare [except] and gives [None]. *)
Definition _get_field_value (self : LeadScoringEngine) (ld : Lead) (field : PyVal) : PyVal :=
  match field with
  | VStr path => walk_parts (Lead_obj ld) (split "." path)
  | _ => VNone
  end.

Definition _rule_matches (self : LeadScoringEngine) (now : datetime) (ld : Lead)
    (rule : ScoringRule) : result bool :=
  let condition := scoring.condition rule in
  let field := default VNone (condition !! "field"%string) in
  let operator := default VNone (condition !! "operator"%string) in
  let value := default VNone (condition !! "value"%string) in
  if negb (truthy field) then Ok false
  else
    let field_value := _get_field_value self ld field in
    if is_none field_value then Ok false
    else if py_eq operator (VStr "eq") then Ok (py_eq field_value value)
    else if py_eq operator (VStr "gt") then
      match as_number field_value with
      | Some x => match as_number value with
                  | Some y => Ok (Qgtb x y)
                  | None => Raise TypeError
                  end
      | None => Ok false
      end
    else if py_eq operator (VStr "lt") then
      match as_number field_value with
      | Some x => match as_number value with
                  | Some y => Ok (Qltb x y)
                  | None => Raise TypeError
                  end
      | None => Ok false
      end
    else if py_eq operator (VStr "in") then
      target_list ← icp_getattr self value;
      py_in field_value target_list
    else if py_eq operator (VStr "contains") then
      match field_value with
      | VStr text => match value with
                     | VStr v => Ok (str_in (lower v) (lower text))
                     | _ => Raise AttributeError
                     end
      | _ => Ok false
      end
    else if py_eq operator (VStr "intersects") then
      match field_value with
      | VList _ =>
          target_list ← icp_getattr self value;
          mine ← py_set field_value;
          theirs ← py_set target_list;
          Ok (existsb (fun x => existsb (fun y => py_eq x y) theirs) mine)
      | _ => Ok false
      end
    else if py_eq operator (VStr "within_days") then
      match field_value with
      | VDatetime d =>
          days_diff ← elapsed_days now d;
          match as_number value with
          | Some v => Ok (Qle_bool (inject_Z days_diff) v)
          | None => Raise TypeError
          end
      | _ => Ok false
      end
    else Ok false.

(** The loop of [_apply_scoring_rules]: the running adjustment and the
    names appended to [applied_rules]. *)
Fixpoint apply_rules_from (self : LeadScoringEngine) (now : datetime) (ld : Lead)
    (rules : list ScoringRule) (total_adjustment : Q) (applied_rules : list string)
    : result (Q * list string) :=
  match rules with
  | [] => Ok (total_adjustment, applied_rules)
  | rule :: rest =>
      matched ← _rule_matches self now ld rule;
      if matched : bool
      then apply_rules_from self now ld rest
             (total_adjustment + score_impact rule * weight rule)
             (applied_rules ++ [name rule])
      else apply_rules_from self now ld rest total_adjustment applied_rules
  end.

Definition _apply_scoring_rules (self : LeadScoringEngine) (now : datetime) (ld : Lead)
    (applied_rules : list string) : result (Q * list string) :=
  apply_rules_from self now ld (global_rules (model self)) 0 applied_rules.

(** [category_scores.get(category, 0)] *)
Definition get (category_scores : gmap ScoreCategory Q) (c : ScoreCategory) : Q :=
  default 0 (category_scores !! c).

Definition _calculate_weighted_score (self : LeadScoringEngine)
    (category_scores : gmap ScoreCategory Q) (rule_adjustments : Q) : Q :=
  let weights := scoring.weights (model self) in
  let weighted_sum :=
    get category_scores COMPANY_FIT * company_fit weights
    + get category_scores GROWTH_INDICATORS * growth_indicators weights
    + get category_scores TECHNOLOGY_FIT * technology_fit weights
    + get category_scores ENGAGEMENT_SIGNALS * engagement_signals weights
    + get category_scores TIMING_SIGNALS * timing_signals weights
    + get category_scores BUYING_SIGNALS * scoring.buying_signals weights in
  weighted_sum + rule_adjustments.

Definition _determine_qualification (self : LeadScoringEngine) (score : Q) : QualificationStatus :=
  let thresholds := scoring.thresholds (model self) in
  if Qgeb score (hot_threshold thresholds) then HOT
  else if Qgeb score (warm_threshold thresholds) then WARM
  else if Qgeb score (cold_threshold thresholds) then COLD
  else UNQUALIFIED.

Definition _calculate_confidence (self : LeadScoringEngine) (ld : Lead) : Q :=
  let quality := data_quality_score ld in
  let completeness := completeness_percentage ld in
  if truthy_float quality && truthy_float completeness
  then (default 0 quality * 0.6 + default 0 completeness * 0.4) / 100
  else if truthy_float quality then default 0 quality / 100
  else if truthy_float completeness then default 0 completeness / 100
  else 0.5.

(** The six category scores, in the order [score_lead] stores them. *)
Definition score_categories (self : LeadScoringEngine) (now : datetime) (ld : Lead)
    : gmap ScoreCategory Q :=
  <[BUYING_SIGNALS := _score_buying_signals self ld]>
  (<[TIMING_SIGNALS := _score_timing_signals self now ld]>
  (<[ENGAGEMENT_SIGNALS := _score_engagement_signals self now ld]>
  (<[TECHNOLOGY_FIT := _score_technology_fit self ld]>
  (<[GROWTH_INDICATORS := _score_growth_indicators self now ld]>
  (<[COMPANY_FIT := _score_company_fit self ld]> ∅))))).

(** The data-quality step of [score_lead]: the total after the penalty and
    the penalty itself ([data_quality_impact]). *)
Definition apply_quality_penalty (self : LeadScoringEngine) (ld : Lead) (total_score : Q)
    : Q * Q :=
  match data_quality_score ld with
  | Some dq =>
      if apply_data_quality_penalty (model self) && truthy_float (Some dq) then
        let quality_factor := dq / 100 in
        let data_quality_impact := total_score * (1 - quality_factor) * 0.2 in
        (Qmax 0 (total_score - data_quality_impact), data_quality_impact)
      else (total_score, 0)
  | None => (total_score, 0)
  end.

(** The subtractions that the category scorers make on the way:
    [datetime.now() - lead.metrics.last_funding_date] in
    [_score_growth_indicators] and [_score_timing_signals] and
    [datetime.now() - lead.last_enriched] in [_score_engagement_signals], each
    under the presence of its field alone.  An aware value raises there; the
    scorers above give the scores when nothing is raised. *)
Definition subtract_dates (now : datetime) (ld : Lead) : result unit :=
  _ ← match last_funding_date (metrics ld) with
      | Some d => elapsed_days now d
      | None => Ok 0%Z
      end;
  _ ← match last_enriched ld with
      | Some d => elapsed_days now d
      | None => Ok 0%Z
      end;
  Ok tt.

Definition score_lead (self : LeadScoringEngine) (now : datetime) (ld : Lead)
    : result LeadScore :=
  _ ← subtract_dates now ld;
  let category_scores := score_categories self now ld in
  ra ← _apply_scoring_rules self now ld [];
  let rule_adjustments := fst ra in
  let applied_rules := snd ra in
  let total_score := _calculate_weighted_score self category_scores rule_adjustments in
  let penalised := apply_quality_penalty self ld total_score in
  let total_score := fst penalised in
  let data_quality_impact := snd penalised in
  let qualification_status := _determine_qualification self total_score in
  let confidence := _calculate_confidence self ld in
  LeadScore_new (Qmin 100 (Qmax 0 total_score)) category_scores
    (value qualification_status) confidence data_quality_impact applied_rules.

(** [_generate_next_actions]: the recommended actions of a tier. *)
Definition _generate_next_actions (self : LeadScoringEngine) (ld : Lead)
    (qualification : QualificationStatus) : list string :=
  match qualification with
  | HOT =>
      ["Schedule immediate outreach call"; "Research key decision makers";
       "Prepare personalized demo"]%string
  | WARM =>
      ["Send personalized email with value proposition"; "Share relevant case studies";
       "Schedule discovery call"]%string
  | COLD =>
      ["Add to nurture campaign"; "Share educational content";
       "Monitor for trigger events"]%string
  | UNQUALIFIED =>
      ["Gather more company information"; "Reassess fit criteria";
       "Consider alternative contact approach"]%string
  end.

(** [_suggest_outreach_strategy]: timing and approach from the score alone. *)
Definition _suggest_outreach_strategy (self : LeadScoringEngine) (ld : Lead) (score : Q)
    : string * string :=
  let timing :=
    if Qgeb score 80 then "Immediate"%string
    else if Qgeb score 60 then "Within 48 hours"%string
    else if Qgeb score 40 then "This week"%string
    else "When additional data available"%string in
  let approach :=
    if Qgeb score 80 then "Direct phone call or personalized video"%string
    else if Qgeb score 60 then "Personalized email with specific value proposition"%string
    else if Qgeb score 40 then "Email sequence with educational content"%string
    else "General nurture campaign"%string in
  (timing, approach).

End scorer.

(** ** [services/qualifier.py] *)

Module qualifier.
Import lead scoring scorer.
#[local] Open Scope Q_scope.

(** The messages collected in [intent_signals]: each constructor is one
    f-string template of the source with the values it interpolates. *)
Inductive IntentSignal : Type :=
| HiringHighIntentRole (posting : string)
| HiringRelevantRole (posting : string)
| HiringDecisionMaker (posting : string)
| TechnologyFocusedRole (posting : string)
| UsesCompetitorTechnology (tech : string)
| UsesOutdatedTechnology (tech : string)
| LimitedTechnologyStack
| HighHiringVelocity (recent_hires : Z)
| ExpansionSignal (signal : string)
| HighGrowthRate (rate : Q)
| RecentFundingBudget
| FundingWithinSixMonths
| SignificantFunding (amount : Q).

Record BuyerIntentAnalyzer : Type := {
  intent_keywords : gmap string (list string);
  negative_signals : list string
}.

Definition BuyerIntentAnalyzer_init : BuyerIntentAnalyzer :=
  {| intent_keywords :=
       list_to_map
         [("high_intent"%string,
           ["looking for"; "need help with"; "shopping for"; "evaluating";
            "comparing"; "budget approved"; "ready to purchase"; "urgent";
            "implementation"; "switch from"; "replace"; "upgrade"]%string);
          ("medium_intent"%string,
           ["interested in"; "considering"; "exploring options";
            "research"; "learning about"; "demo"; "trial";
            "improve"; "optimize"; "streamline"]%string);
          ("timing_indicators"%string,
           ["this quarter"; "next month"; "asap"; "immediately";
            "by end of year"; "Q1"; "Q2"; "Q3"; "Q4"]%string)];
     negative_signals :=
       ["satisfied with current"; "not looking"; "happy with";
        "just implemented"; "recently purchased"; "under contract"]%string |}.

(** The value of a sub-analysis: [{'score': ..., 'signals': ...}]. *)
Record Intent : Type := {
  score : Z;
  signals : list IntentSignal
}.

Definition high_intent_roles : list string :=
  ["vp marketing"; "marketing director"; "growth lead"; "head of growth"].
Definition medium_intent_roles : list string :=
  ["marketing manager"; "digital marketing"; "marketing analyst"].
Definition decision_maker_roles : list string :=
  ["cmo"; "ceo"; "vp"; "director"; "head of"].
Definition tech_keywords : list string :=
  ["automation"; "analytics"; "crm"; "marketing ops"; "martech"].

(** One turn of the loop over [job_postings]. *)
Definition job_posting_step (acc : Z * list IntentSignal) (posting : string)
    : Z * list IntentSignal :=
  let posting_lower := lower posting in
  let acc :=
    if any_in high_intent_roles posting_lower
    then (fst acc + 5, snd acc ++ [HiringHighIntentRole posting])%Z
    else if any_in medium_intent_roles posting_lower
    then (fst acc + 3, snd acc ++ [HiringRelevantRole posting])%Z
    else acc in
  let acc :=
    if any_in decision_maker_roles posting_lower
    then (fst acc + 2, snd acc ++ [HiringDecisionMaker posting])%Z
    else acc in
  let acc :=
    if any_in tech_keywords posting_lower
    then (fst acc + 4, snd acc ++ [TechnologyFocusedRole posting])%Z
    else acc in
  acc.

Definition _analyze_job_posting_intent (self : BuyerIntentAnalyzer) (job_postings : list string)
    : Intent :=
  let acc := fold_left job_posting_step job_postings (0%Z, []) in
  {| score := Z.min (fst acc) 10; signals := snd acc |}.

Definition _analyze_technology_intent (self : BuyerIntentAnalyzer) (ld : Lead) : Intent :=
  let all_tech :=
    technologies (tech_stack ld) ++ marketing_tools (tech_stack ld)
    ++ sales_tools (tech_stack ld) in
  let competitors := ["hubspot"; "salesforce"; "marketo"; "pardot"; "mailchimp"]%string in
  let acc :=
    fold_left
      (fun (acc : Z * list IntentSignal) tech =>
         if mem_str (lower tech) competitors
         then (fst acc + 3, snd acc ++ [UsesCompetitorTechnology tech])%Z
         else acc)
      all_tech (0%Z, []) in
  let outdated_tech := ["legacy"; "on-premise"; "excel"; "manual"; "spreadsheet"]%string in
  let acc :=
    fold_left
      (fun (acc : Z * list IntentSignal) tech =>
         if any_in outdated_tech (lower tech)
         then (fst acc + 2, snd acc ++ [UsesOutdatedTechnology tech])%Z
         else acc)
      all_tech acc in
  let acc :=
    if (len all_tech <? 3)%Z
    then (fst acc + 2, snd acc ++ [LimitedTechnologyStack])%Z
    else acc in
  {| score := Z.min (fst acc) 8; signals := snd acc |}.

Definition _analyze_growth_intent (self : BuyerIntentAnalyzer) (ld : Lead) : Intent :=
  let acc : Z * list IntentSignal := (0%Z, []) in
  let acc :=
    match recent_hiring (lead.buying_signals ld) with
    | Some n =>
        if (truthy_int (Some n) && (5 <=? n))%Z
        then (fst acc + 3, snd acc ++ [HighHiringVelocity n])%Z
        else acc
    | None => acc
    end in
  let expansion_keywords := ["expansion"; "new market"; "scaling"; "growth"; "international"]%string in
  let acc :=
    fold_left
      (fun (acc : Z * list IntentSignal) signal =>
         if any_in expansion_keywords (lower signal)
         then (fst acc + 2, snd acc ++ [ExpansionSignal signal])%Z
         else acc)
      (expansion_signals (lead.buying_signals ld)) acc in
  let acc :=
    match growth_rate (metrics ld) with
    | Some rate =>
        if truthy_float (Some rate) && Qgeb rate 25
        then (fst acc + 2, snd acc ++ [HighGrowthRate rate])%Z
        else acc
    | None => acc
    end in
  {| score := Z.min (fst acc) 6; signals := snd acc |}.

Definition _analyze_funding_intent (self : BuyerIntentAnalyzer) (now : datetime) (ld : Lead)
    : Intent :=
  let acc : Z * list IntentSignal := (0%Z, []) in
  let acc :=
    match last_funding_date (metrics ld) with
    | Some d =>
        let days_since_funding := days_between now (instant d) in
        if (days_since_funding <=? 90)%Z
        then (fst acc + 4, snd acc ++ [RecentFundingBudget])%Z
        else if (days_since_funding <=? 180)%Z
        then (fst acc + 2, snd acc ++ [FundingWithinSixMonths])%Z
        else acc
    | None => acc
    end in
  let acc :=
    match funding_amount (metrics ld) with
    | Some amount =>
        if truthy_float (Some amount) && Qgeb amount 10000000
        then (fst acc + 2, snd acc ++ [SignificantFunding amount])%Z
        else acc
    | None => acc
    end in
  {| score := Z.min (fst acc) 5; signals := snd acc |}.

Definition _identify_urgency_indicators (self : BuyerIntentAnalyzer) (now : datetime)
    (ld : Lead) : list string :=
  let urgency_signals : list string := [] in
  let urgency_signals :=
    if decision_maker_changes (lead.buying_signals ld)
    then urgency_signals ++ ["Recent leadership changes"%string]
    else urgency_signals in
  let urgency_signals :=
    match recent_hiring (lead.buying_signals ld) with
    | Some n =>
        if (truthy_int (Some n) && (10 <=? n))%Z
        then urgency_signals ++ ["Rapid scaling/hiring"%string]
        else urgency_signals
    | None => urgency_signals
    end in
  let urgency_signals :=
    match last_funding_date (metrics ld) with
    | Some d =>
        let days_since := days_between now (instant d) in
        if ((30 <=? days_since) && (days_since <=? 90))%Z
        then urgency_signals ++ ["Post-funding growth pressure"%string]
        else urgency_signals
    | None => urgency_signals
    end in
  urgency_signals.

Definition committee_add (key posting : string) (m : gmap string (list string))
    : gmap string (list string) :=
  <[key := default [] (m !! key) ++ [posting]]> m.

Definition _identify_buying_committee (self : BuyerIntentAnalyzer) (ld : Lead)
    : gmap string (list string) :=
  let decision_roles := ["ceo"; "cmo"; "vp marketing"; "head of growth"]%string in
  let influencer_roles := ["marketing manager"; "operations"; "analyst"]%string in
  let technical_roles := ["cto"; "engineering"; "it"; "developer"]%string in
  fold_left
    (fun committee_signals posting =>
       let posting_lower := lower posting in
       let committee_signals :=
         if any_in decision_roles posting_lower
         then committee_add "decision_makers" posting committee_signals
         else committee_signals in
       let committee_signals :=
         if any_in influencer_roles posting_lower
         then committee_add "influencers" posting committee_signals
         else committee_signals in
       let committee_signals :=
         if any_in technical_roles posting_lower
         then committee_add "technical_evaluators" posting committee_signals
         else committee_signals in
       committee_signals)
    (job_postings (lead.buying_signals ld)) ∅.

Record IntentAnalysis : Type := {
  intent_score : Z;
  intent_level : string;
  intent_signals : list IntentSignal;
  urgency_indicators : list string;
  buying_committee_signals : gmap string (list string)
}.

Definition analyze_intent (self : BuyerIntentAnalyzer) (now : datetime) (ld : Lead)
    : IntentAnalysis :=
  let intent_score := 0%Z in
  let intent_signals : list IntentSignal := [] in
  let '(intent_score, intent_signals) :=
    if truthy_list (job_postings (lead.buying_signals ld)) then
      let job_intent := _analyze_job_posting_intent self (job_postings (lead.buying_signals ld)) in
      ((intent_score + score job_intent)%Z, intent_signals ++ signals job_intent)
    else (intent_score, intent_signals) in
  let tech_intent := _analyze_technology_intent self ld in
  let intent_score := (intent_score + score tech_intent)%Z in
  let intent_signals := intent_signals ++ signals tech_intent in
  let growth_intent := _analyze_growth_intent self ld in
  let intent_score := (intent_score + score growth_intent)%Z in
  let intent_signals := intent_signals ++ signals growth_intent in
  let funding_intent := _analyze_funding_intent self now ld in
  let intent_score := (intent_score + score funding_intent)%Z in
  let intent_signals := intent_signals ++ signals funding_intent in
  let intent_level :=
    if (15 <=? intent_score)%Z then "High"%string
    else if (8 <=? intent_score)%Z then "Medium"%string
    else if (3 <=? intent_score)%Z then "Low"%string
    else "Minimal"%string in
  {| intent_score := intent_score;
     intent_level := intent_level;
     intent_signals := intent_signals;
     urgency_indicators := _identify_urgency_indicators self now ld;
     buying_committee_signals := _identify_buying_committee self ld |}.

Record LeadQualificationEngine : Type := {
  scorer : LeadScoringEngine;
  intent_analyzer : BuyerIntentAnalyzer;
  qualification_weights : gmap string Q
}.

(** [LeadQualificationEngine()] *)
Definition LeadQualificationEngine_init : LeadQualificationEngine :=
  {| scorer := LeadScoringEngine_init None;
     intent_analyzer := BuyerIntentAnalyzer_init;
     qualification_weights :=
       list_to_map [("lead_score"%string, 0.4); ("intent_score"%string, 0.3);
                    ("data_quality"%string, 0.2); ("timing_score"%string, 0.1)] |}.

Definition _calculate_timing_score (self : LeadQualificationEngine) (now : datetime) (ld : Lead)
    : Z :=
  let timing_score := 0%Z in
  (* Recent funding timing *)
  let timing_score :=
    match last_funding_date (metrics ld) with
    | Some d =>
        let days_since := days_between now (instant d) in
        if ((30 <=? days_since) && (days_since <=? 120))%Z then (timing_score + 8)%Z
        else if ((120 <=? days_since) && (days_since <=? 180))%Z then (timing_score + 5)%Z
        else if (days_since <=? 30)%Z then (timing_score + 3)%Z
        else timing_score
    | None => timing_score
    end in
  (* Hiring velocity timing *)
  let timing_score :=
    match recent_hiring (lead.buying_signals ld) with
    | Some n =>
        if truthy_int (Some n) then
          if (5 <=? n)%Z then (timing_score + 6)%Z
          else if (2 <=? n)%Z then (timing_score + 3)%Z
          else timing_score
        else timing_score
    | None => timing_score
    end in
  (* Decision maker changes *)
  let timing_score :=
    if decision_maker_changes (lead.buying_signals ld) then (timing_score + 5)%Z
    else timing_score in
  (* Quarter timing *)
  let current_month := month_of now in
  let timing_score :=
    if existsb (Z.eqb current_month) [1; 4; 7; 10]%Z then (timing_score + 2)%Z
    else timing_score in
  Z.min timing_score 20.

Definition _determine_final_qualification (self : LeadQualificationEngine)
    (lead_score : LeadScore) (intent_analysis : IntentAnalysis) (timing_score : Z) (ld : Lead)
    : result QualificationStatus :=
  (* Base qualification from lead score *)
  base_qualification ← of_value (scoring.qualification_status lead_score);
  let intent_level := intent_level intent_analysis in
  let base_is (status : QualificationStatus) := bool_decide (base_qualification = status) in
  (* Upgrade qualification based on high intent *)
  if String.eqb intent_level "High" && base_is WARM then Ok HOT
  else if String.eqb intent_level "High" && base_is COLD then Ok WARM
  else if String.eqb intent_level "Medium" && base_is COLD then Ok WARM
  (* Timing-based adjustments *)
  else if (15 <=? timing_score)%Z && base_is WARM then Ok HOT
  (* Data quality considerations *)
  else
    match data_quality_score ld with
    | Some dq =>
        if truthy_float (Some dq) && Qltb dq 40 then
          if base_is HOT then Ok WARM
          else if base_is WARM then Ok COLD
          else Ok base_qualification
        else Ok base_qualification
    | None => Ok base_qualification
    end.

(** [weights[key]] *)
Definition getitem (weights : gmap string Q) (key : string) : result Q :=
  match weights !! key with
  | Some w => Ok w
  | None => Raise KeyError
  end.

Definition _calculate_priority_score (self : LeadQualificationEngine)
    (lead_score : Q) (intent_score : Q) (timing_score : Q) (data_quality : Q) : result Q :=
  let weights := qualification_weights self in
  let n_lead_score := lead_score / 100 in
  let n_intent_score := Qmin (intent_score / 20) 1 in
  let n_timing_score := timing_score / 20 in
  let n_data_quality := data_quality / 100 in
  w_lead ← getitem weights "lead_score";
  w_intent ← getitem weights "intent_score";
  w_quality ← getitem weights "data_quality";
  w_timing ← getitem weights "timing_score";
  let priority :=
    n_lead_score * w_lead + n_intent_score * w_intent
    + n_data_quality * w_quality + n_timing_score * w_timing in
  Ok (priority * 100).

Definition _calculate_next_review_date (self : LeadQualificationEngine) (now : datetime)
    (qualification : QualificationStatus) : datetime :=
  let base_date := now in
  match qualification with
  | HOT => (base_date + 3 * us_per_day)%Z
  | WARM => (base_date + 7 * us_per_day)%Z
  | COLD => (base_date + 30 * us_per_day)%Z
  | UNQUALIFIED => (base_date + 90 * us_per_day)%Z
  end.

(** [lead.data_quality_score or 50] *)
Definition quality_or_50 (ld : Lead) : Q :=
  if truthy_float (data_quality_score ld) then default 0 (data_quality_score ld) else 50.

(** The result bundle of [qualify_lead].  Its message tables ([action_plan],
    [qualification_reasons], [outreach_strategy]) are formatted text keyed by
    the final tier and are left out. *)
Record Qualification : Type := {
  lead_score : LeadScore;
  intent_analysis : IntentAnalysis;
  timing_score : Z;
  final_qualification : QualificationStatus;
  priority_score : Q;
  next_review_date : datetime
}.

Definition qualify_lead (self : LeadQualificationEngine) (now : datetime) (ld : Lead)
    : result Qualification :=
  lead_score ← score_lead (scorer self) now ld;
  let intent_analysis := analyze_intent (intent_analyzer self) now ld in
  let timing_score := _calculate_timing_score self now ld in
  final_qualification ←
    _determine_final_qualification self lead_score intent_analysis timing_score ld;
  priority_score ←
    _calculate_priority_score self (total_score lead_score)
      (inject_Z (intent_score intent_analysis)) (inject_Z timing_score) (quality_or_50 ld);
  Ok {| lead_score := lead_score;
        intent_analysis := intent_analysis;
        timing_score := timing_score;
        final_qualification := final_qualification;
        priority_score := priority_score;
        next_review_date := _calculate_next_review_date self now final_qualification |}.

End qualifier.

(** ** [app.py]: the pure parts of the request handlers

    The handlers keep the leads in a module-level dict; the functions below
    take its values, in insertion order, as a list. *)

Module app.
Import lead scoring scorer qualifier.
#[local] Open Scope Q_scope.

(** The update of a lead with its scores in [enrich_lead]:
    [lead.lead_score = lead_score.total_score],
    [lead.qualification_status = QualificationStatus(lead_score.qualification_status)],
    [lead.score_breakdown = dict(lead_score.category_scores)].  The categories
    are listed in the order in which [score_lead] stores them. *)
Definition category_value (c : ScoreCategory) : string :=
  match c with
  | COMPANY_FIT => "company_fit"
  | GROWTH_INDICATORS => "growth_indicators"
  | TECHNOLOGY_FIT => "technology_fit"
  | ENGAGEMENT_SIGNALS => "engagement_signals"
  | TIMING_SIGNALS => "timing_signals"
  | BUYING_SIGNALS => "buying_signals"
  end.

Definition categories : list ScoreCategory :=
  [COMPANY_FIT; GROWTH_INDICATORS; TECHNOLOGY_FIT; ENGAGEMENT_SIGNALS;
   TIMING_SIGNALS; BUYING_SIGNALS].

Definition breakdown (category_scores : gmap ScoreCategory Q) : list (string * Q) :=
  omap (fun c => match category_scores !! c with
                 | Some v => Some (category_value c, v)
                 | None => None
                 end) categories.

Definition write_scores (ld : Lead) (lead_score : LeadScore) : result Lead :=
  status ← of_value (scoring.qualification_status lead_score);
  Ok {| id := id ld; company_name := company_name ld; domain := domain ld;
        industry := industry ld; sub_industry := sub_industry ld; contacts := contacts ld;
        metrics := metrics ld; tech_stack := tech_stack ld;
        lead.buying_signals := lead.buying_signals ld;
        lead.lead_score := Some (total_score lead_score);
        lead.qualification_status := Some status;
        score_breakdown := breakdown (category_scores lead_score);
        data_quality_score := data_quality_score ld;
        completeness_percentage := completeness_percentage ld;
        last_enriched := last_enriched ld; data_sources := data_sources ld;
        competitor_analysis := competitor_analysis ld;
        outreach_recommendations := outreach_recommendations ld;
        lead.next_actions := lead.next_actions ld;
        headquarters := headquarters ld; locations := locations ld;
        website_traffic_rank := website_traffic_rank ld;
        social_media_presence := social_media_presence ld;
        created_at := created_at ld; updated_at := updated_at ld |}.

(** Scoring, qualifying and updating, as [enrich_lead] does after the
    enrichment: the updated lead and the two results. *)
Definition score_and_store (scoring_engine : LeadScoringEngine)
    (qualification_engine : LeadQualificationEngine) (now : datetime) (ld : Lead)
    : result (Lead * LeadScore * Qualification) :=
  lead_score ← score_lead scoring_engine now ld;
  qualification_result ← qualify_lead qualification_engine now ld;
  stored ← write_scores ld lead_score;
  Ok (stored, lead_score, qualification_result).

(** [x.lead_score or 0], the sort key of [get_leads] *)
Definition score_or_0 (ld : Lead) : Q :=
  if truthy_float (lead.lead_score ld) then default 0 (lead.lead_score ld) else 0.

(** [leads.sort(key=..., reverse=True)]: the stable sort by descending key.
    Leads are inserted from the last to the first, each one in front of the
    first lead whose key is not greater. *)
Fixpoint insert_desc (x : Lead) (sorted : list Lead) : list Lead :=
  match sorted with
  | [] => [x]
  | y :: rest =>
      if Qltb (score_or_0 x) (score_or_0 y)
      then y :: insert_desc x rest
      else x :: y :: rest
  end.

Definition sort_desc (leads : list Lead) : list Lead :=
  fold_right insert_desc [] leads.

Definition keep_score_min (score_min : option Q) (leads : list Lead) : list Lead :=
  match score_min with
  | Some bound =>
      filter (fun ld => (truthy_float (lead.lead_score ld)
                         && Qgeb (default 0 (lead.lead_score ld)) bound) = true) leads
  | None => leads
  end.

Definition keep_score_max (score_max : option Q) (leads : list Lead) : list Lead :=
  match score_max with
  | Some bound =>
      filter (fun ld => (truthy_float (lead.lead_score ld)
                         && Qle_bool (default 0 (lead.lead_score ld)) bound) = true) leads
  | None => leads
  end.

Definition keep_qualification (qualification : option string) (leads : list Lead)
    : list Lead :=
  if truthy_str qualification then
    filter (fun ld => match lead.qualification_status ld with
                      | Some status => String.eqb (value status) (default "" qualification)
                      | None => false
                      end = true) leads
  else leads.

Definition keep_industry (industry_filter : option string) (leads : list Lead) : list Lead :=
  if truthy_str industry_filter then
    filter (fun ld => (truthy_str (industry ld)
                       && str_in (lower (default "" industry_filter))
                            (lower (default "" (industry ld)))) = true) leads
  else leads.

(** The filters and the sort of [get_leads]. *)
Definition filtered_leads (leads : list Lead) (score_min score_max : option Q)
    (qualification industry_filter : option string) : list Lead :=
  sort_desc
    (keep_industry industry_filter
       (keep_qualification qualification
          (keep_score_max score_max (keep_score_min score_min leads)))).

(** [get_leads]: the page [filtered_leads[offset:offset + limit]] and
    [total_count]. *)
Definition get_leads (leads : list Lead) (score_min score_max : option Q)
    (qualification industry_filter : option string) (limit offset : nat)
    : list Lead * nat :=
  let found := filtered_leads leads score_min score_max qualification industry_filter in
  (firstn limit (skipn offset found), length found).

(** [_calculate_score_distribution] *)
Definition bucket (score : Q) : string :=
  if Qle_bool score 20 then "0-20"
  else if Qle_bool score 40 then "21-40"
  else if Qle_bool score 60 then "41-60"
  else if Qle_bool score 80 then "61-80"
  else "81-100".

Definition empty_distribution : gmap string Z :=
  list_to_map [("0-20"%string, 0%Z); ("21-40"%string, 0%Z); ("41-60"%string, 0%Z);
               ("61-80"%string, 0%Z); ("81-100"%string, 0%Z)].

(** [distribution[key] += 1] *)
Definition increment (distribution : gmap string Z) (key : string) : result (gmap string Z) :=
  match distribution !! key with
  | Some n => Ok (<[key := (n + 1)%Z]> distribution)
  | None => Raise KeyError
  end.

Fixpoint count_scores (scores : list Q) (distribution : gmap string Z)
    : result (gmap string Z) :=
  match scores with
  | [] => Ok distribution
  | score :: rest =>
      distribution ← increment distribution (bucket score);
      count_scores rest distribution
  end.

Definition truthy_scores (leads : list Lead) : list Q :=
  omap (fun ld => if truthy_float (lead.lead_score ld) then lead.lead_score ld else None) leads.

Definition _calculate_score_distribution (leads : list Lead) : result (gmap string Z) :=
  let scores := truthy_scores leads in
  if negb (truthy_list scores) then Ok empty_distribution
  else count_scores scores empty_distribution.

(** [_generate_meeting_suggestions]: each suggestion with its [type],
    [duration] and [agenda]. *)
Definition _generate_meeting_suggestions (ld : Lead) : list (string * string * string) :=
  match lead.qualification_status ld with
  | Some HOT =>
      [("demo", "30 minutes",
        "Personalized product demonstration focused on scaling challenges")]%string
  | Some WARM =>
      [("discovery", "20 minutes",
        "Understanding current processes and pain points")]%string
  | _ => []
  end.

End app.

(** * Definitions used by the statements *)

Import lead scoring scorer qualifier app.
#[local] Open Scope Q_scope.

(** What [score_lead] returns once the rules have been applied. *)
Definition scored (self : LeadScoringEngine) (now : datetime) (ld : Lead)
    (ra : Q * list string) : LeadScore :=
  let total := _calculate_weighted_score self (score_categories self now ld) (fst ra) in
  let penalised := apply_quality_penalty self ld total in
  {| total_score := Qmin 100 (Qmax 0 (fst penalised));
     category_scores := score_categories self now ld;
     scoring.qualification_status := value (_determine_qualification self (fst penalised));
     confidence := _calculate_confidence self ld;
     data_quality_impact := snd penalised;
     applied_rules := snd ra |}.

(** No datetime that the engines subtract from [datetime.now()] carries a
    [tzinfo]: each is absent or naive. *)
Definition naive_dates (ld : Lead) : Prop :=
  match last_funding_date (metrics ld) with
  | Some d => aware d = false
  | None => True
  end
  /\ match last_enriched ld with
     | Some d => aware d = false
     | None => True
     end.

(** The weighted total of [score_lead] before the data-quality step. *)
Definition pre_penalty_total (self : LeadScoringEngine) (now : datetime) (ld : Lead)
    : result Q :=
  _ ← subtract_dates now ld;
  ra ← _apply_scoring_rules self now ld [];
  Ok (_calculate_weighted_score self (score_categories self now ld) (fst ra)).

(** The operators that [_rule_matches] knows. *)
Definition known_operators : list string :=
  ["eq"; "gt"; "lt"; "in"; "contains"; "intersects"; "within_days"]%string.

Definition known_operator (operator : PyVal) : bool :=
  existsb (fun op => py_eq operator (VStr op)) known_operators.

Definition rule_field (rule : ScoringRule) : PyVal :=
  default VNone (condition rule !! "field"%string).

Definition rule_operator (rule : ScoringRule) : PyVal :=
  default VNone (condition rule !! "operator"%string).

(** The same lead with another [metrics.growth_rate]. *)
Definition with_growth_rate (rate : option Q) (ld : Lead) : Lead :=
  {| id := id ld; company_name := company_name ld; domain := domain ld;
     industry := industry ld; sub_industry := sub_industry ld; contacts := contacts ld;
     metrics :=
       {| employee_count := employee_count (metrics ld);
          revenue_range := revenue_range (metrics ld);
          growth_rate := rate;
          funding_amount := funding_amount (metrics ld);
          funding_stage := funding_stage (metrics ld);
          last_funding_date := last_funding_date (metrics ld) |};
     tech_stack := tech_stack ld;
     lead.buying_signals := lead.buying_signals ld;
     lead.lead_score := lead.lead_score ld;
     lead.qualification_status := lead.qualification_status ld;
     score_breakdown := score_breakdown ld;
     data_quality_score := data_quality_score ld;
     completeness_percentage := completeness_percentage ld;
     last_enriched := last_enriched ld; data_sources := data_sources ld;
     competitor_analysis := competitor_analysis ld;
     outreach_recommendations := outreach_recommendations ld;
     lead.next_actions := lead.next_actions ld;
     headquarters := headquarters ld; locations := locations ld;
     website_traffic_rank := website_traffic_rank ld;
     social_media_presence := social_media_presence ld;
     created_at := created_at ld; updated_at := updated_at ld |}.

(** What one job posting adds to the score of [_analyze_job_posting_intent]:
    the high-intent and medium-intent tiers exclude each other, the
    decision-maker and technology tiers add on top. *)
Definition posting_points (posting : string) : Z :=
  let posting_lower := lower posting in
  ((if any_in high_intent_roles posting_lower then 5
    else if any_in medium_intent_roles posting_lower then 3
    else 0)
   + (if any_in decision_maker_roles posting_lower then 2 else 0)
   + (if any_in tech_keywords posting_lower then 4 else 0))%Z.

(** The reading in which all four tiers add up independently. *)
Definition additive_points (posting : string) : Z :=
  let posting_lower := lower posting in
  ((if any_in high_intent_roles posting_lower then 5 else 0)
   + (if any_in medium_intent_roles posting_lower then 3 else 0)
   + (if any_in decision_maker_roles posting_lower then 2 else 0)
   + (if any_in tech_keywords posting_lower then 4 else 0))%Z.

Definition sum_points (points : string -> Z) (postings : list string) : Z :=
  fold_right Z.add 0%Z (map points postings).

(** *** Sample data *)

Definition day (n : Z) : datetime := (n * us_per_day)%Z.

(** 2024-10-04 *)
Definition sample_now : datetime := day 20000.

(** A lead named after the one of [test_system.py], with the given data
    quality, job postings and marketing tools and nothing else. *)
Definition sample_lead (quality : option Q) (postings tools : list string) : Lead :=
  {| id := None; company_name := "Example Tech Corp"; domain := "example-tech.com";
     industry := Some "Technology"%string; sub_industry := None; contacts := [];
     metrics := CompanyMetrics_default;
     tech_stack := {| technologies := []; marketing_tools := tools;
                      sales_tools := []; analytics_tools := [] |};
     lead.buying_signals :=
       {| job_postings := postings; recent_hiring := None; budget_indicators := [];
          decision_maker_changes := false; expansion_signals := [] |};
     lead.lead_score := None; lead.qualification_status := None; score_breakdown := [];
     data_quality_score := quality; completeness_percentage := None;
     last_enriched := None; data_sources := []; competitor_analysis := [];
     outreach_recommendations := []; lead.next_actions := [];
     headquarters := None; locations := [];
     website_traffic_rank := None; social_media_presence := [];
     created_at := naive sample_now; updated_at := naive sample_now |}.

(** A rule that fires on the industry of [sample_lead]. *)
Definition industry_rule (impact : Q) : ScoringRule :=
  {| scoring.name := "Technology industry"; category := COMPANY_FIT;
     condition := cond [("field", VStr "industry"); ("operator", VStr "eq");
                        ("value", VStr "Technology")]%string;
     score_impact := impact; weight := 1.0; description := None |}.

(** A rule on the missing path [metrics.headcount] with the unknown operator
    [between]. *)
Definition headcount_rule : ScoringRule :=
  {| scoring.name := "Headcount"; category := COMPANY_FIT;
     condition := cond [("field", VStr "metrics.headcount"); ("operator", VStr "between");
                        ("value", VInt 10)]%string;
     score_impact := 15; weight := 1.0; description := None |}.

(** A rule that asks whether the company name contains the number 5. *)
Definition name_contains_rule : ScoringRule :=
  {| scoring.name := "Name contains"; category := COMPANY_FIT;
     condition := cond [("field", VStr "company_name"); ("operator", VStr "contains");
                        ("value", VInt 5)]%string;
     score_impact := 5; weight := 1.0; description := None |}.

(** [LeadScoringEngine(ScoringModel(global_rules=[industry_rule(impact)]))] *)
Definition industry_engine (impact : Q) : LeadScoringEngine :=
  LeadScoringEngine_init (Some (set_global_rules ScoringModel_default [industry_rule impact])).

(** The qualification engine after [engine.scorer] has been replaced by an
    engine with the industry rule. *)
Definition industry_qualifier (impact : Q) : LeadQualificationEngine :=
  {| qualifier.scorer := industry_engine impact;
     intent_analyzer := BuyerIntentAnalyzer_init;
     qualification_weights := qualification_weights LeadQualificationEngine_init |}.

(** A model with the thresholds 80/60/0 whose one rule takes 50 points off
    the industry of [sample_lead], and its engine. *)
Definition zero_cold_model : ScoringModel :=
  {| model_name := "Zero Cold"; version := "1.0";
     weights := ScoringWeights_default; icp := IdealCustomerProfile_default;
     thresholds := {| hot_threshold := 80; warm_threshold := 60; cold_threshold := 0;
                      min_data_quality := 50 |};
     global_rules := [industry_rule (-50)]; industry_rules := [];
     max_score := 100; normalize_scores := true;
     apply_data_quality_penalty := true |}.

Definition zero_cold_engine : LeadScoringEngine :=
  LeadScoringEngine_init (Some zero_cold_model).

(** [Lead(company_name=..., domain=..., metrics=CompanyMetrics(
    last_funding_date=d))] with an aware [d], 50 days before [sample_now]:
    every other optional field is left out. *)
Definition aware_funding_lead : Lead :=
  {| id := None; company_name := "Example Tech Corp"; domain := "example-tech.com";
     industry := None; sub_industry := None; contacts := [];
     metrics := {| employee_count := None; revenue_range := None; growth_rate := None;
                   funding_amount := None; funding_stage := None;
                   last_funding_date := Some {| instant := day 19950; aware := true |} |};
     tech_stack := TechnologyStack_default;
     lead.buying_signals := BuyingSignals_default;
     lead.lead_score := None; lead.qualification_status := None; score_breakdown := [];
     data_quality_score := None; completeness_percentage := None;
     last_enriched := None; data_sources := []; competitor_analysis := [];
     outreach_recommendations := []; lead.next_actions := [];
     headquarters := None; locations := [];
     website_traffic_rank := None; social_media_presence := [];
     created_at := naive sample_now; updated_at := naive sample_now |}.

(** The same lead with the naive date. *)
Definition naive_funding_lead : Lead :=
  {| id := None; company_name := "Example Tech Corp"; domain := "example-tech.com";
     industry := None; sub_industry := None; contacts := [];
     metrics := {| employee_count := None; revenue_range := None; growth_rate := None;
                   funding_amount := None; funding_stage := None;
                   last_funding_date := Some (naive (day 19950)) |};
     tech_stack := TechnologyStack_default;
     lead.buying_signals := BuyingSignals_default;
     lead.lead_score := None; lead.qualification_status := None; score_breakdown := [];
     data_quality_score := None; completeness_percentage := None;
     last_enriched := None; data_sources := []; competitor_analysis := [];
     outreach_recommendations := []; lead.next_actions := [];
     headquarters := None; locations := [];
     website_traffic_rank := None; social_media_presence := [];
     created_at := naive sample_now; updated_at := naive sample_now |}.

(** A lead with data quality 30 whose posting and tool give a High intent. *)
Definition eager_lead : Lead :=
  sample_lead (Some 30) ["VP Marketing Automation"%string] ["HubSpot"%string].

(** Six weights inside their declared range that sum to 6. *)
Definition heavy_weights : ScoringWeights :=
  {| company_fit := 1.0; growth_indicators := 1.0; technology_fit := 1.0;
     engagement_signals := 1.0; timing_signals := 1.0; scoring.buying_signals := 1.0 |}.

Definition heavy_model : ScoringModel :=
  {| model_name := "Heavy"; version := "1.0";
     weights := heavy_weights; icp := IdealCustomerProfile_default;
     thresholds := QualificationThresholds_default;
     global_rules := []; industry_rules := [];
     max_score := 100; normalize_scores := true;
     apply_data_quality_penalty := true |}.

(** ** Definitions used by the further properties *)

(** The sizes a model and a lead can sensibly hold: a lower size bound of the
    ICP is positive and an employee count is not negative.  Neither model
    declares the constraint. *)
Definition sane_sizes (m : ScoringModel) (ld : Lead) : Prop :=
  match company_size_min (icp m) with
  | Some size_min => (0 < size_min)%Z
  | None => True
  end
  /\ match employee_count (metrics ld) with
     | Some n => (0 <= n)%Z
     | None => True
     end.

(** The rules that match a lead, in the order of the rule list. *)
Definition fires (self : LeadScoringEngine) (now : datetime) (ld : Lead)
    (rule : ScoringRule) : bool :=
  match _rule_matches self now ld rule with
  | Ok true => true
  | _ => false
  end.

Definition matched_rules (self : LeadScoringEngine) (now : datetime) (ld : Lead)
    (rules : list ScoringRule) : list ScoringRule :=
  List.filter (fires self now ld) rules.

Definition add_impact (adjustment : Q) (rule : ScoringRule) : Q :=
  adjustment + score_impact rule * weight rule.

(** The rule returns, with either answer. *)
Definition rule_returns (self : LeadScoringEngine) (now : datetime) (ld : Lead)
    (rule : ScoringRule) : Prop :=
  exists matches, _rule_matches self now ld rule = Ok matches.

(** [lead.industry in icp.target_industries]: exact and case-sensitive. *)
Definition industry_targeted (m : ScoringModel) (ld : Lead) : bool :=
  match industry ld with
  | Some text => existsb (fun target => String.eqb target text) (target_industries (icp m))
  | None => false
  end.

(** The timing and the approach that [_suggest_outreach_strategy] gives to
    the scores of a tier when the tiers are cut at 80, 60 and 40. *)
Definition strategy_of_tier (tier : QualificationStatus) : string * string :=
  match tier with
  | HOT => ("Immediate", "Direct phone call or personalized video")
  | WARM => ("Within 48 hours", "Personalized email with specific value proposition")
  | COLD => ("This week", "Email sequence with educational content")
  | UNQUALIFIED => ("When additional data available", "General nurture campaign")
  end%string.

Definition rank (tier : QualificationStatus) : Z :=
  match tier with
  | UNQUALIFIED => 0
  | COLD => 1
  | WARM => 2
  | HOT => 3
  end.

(** The keys of the buying committee with the role words of each. *)
Definition committee_roles : list (string * list string) :=
  [("decision_makers", ["ceo"; "cmo"; "vp marketing"; "head of growth"]);
   ("influencers", ["marketing manager"; "operations"; "analyst"]);
   ("technical_evaluators", ["cto"; "engineering"; "it"; "developer"])]%string.

Definition postings_for (roles : list string) (postings : list string) : list string :=
  List.filter (fun posting => any_in roles (lower posting)) postings.

(** A committee entry after some postings were added to it: untouched when
    there is none. *)
Definition extended (before : option (list string)) (added : list string)
    : option (list string) :=
  match added with
  | [] => before
  | _ :: _ => Some (default [] before ++ added)
  end.

(** The order of [get_leads]: the score, or 0 without one, descending. *)
Definition by_score_desc (a b : Lead) : Prop := score_or_0 b <= score_or_0 a.

Definition same_score (k : Q) (ld : Lead) : bool := Qeq_bool (score_or_0 ld) k.

(** The leads that pass the filters of [get_leads], in their stored order. *)
Definition kept_leads (leads : list Lead) (score_min score_max : option Q)
    (qualification industry_filter : option string) : list Lead :=
  keep_industry industry_filter
    (keep_qualification qualification
       (keep_score_max score_max (keep_score_min score_min leads))).

Definition bucket_keys : list string :=
  ["0-20"; "21-40"; "41-60"; "61-80"; "81-100"]%string.

(** How many of the scores fall into the bucket of a key. *)
Definition bucket_count (key : string) (scores : list Q) : Z :=
  len (List.filter (fun score => String.eqb (bucket score) key) scores).

(** *** More sample data *)

(** A model that targets the industry of [sample_lead] and companies of 50
    to 500 employees, with the default weights, thresholds and rules. *)
Definition targeting_model : ScoringModel :=
  {| model_name := "Targeting"; version := "1.0";
     weights := ScoringWeights_default;
     icp := {| target_industries := ["Technology"%string];
               company_size_min := Some 50%Z; company_size_max := Some 500%Z;
               revenue_min := None; revenue_max := None; target_technologies := [];
               target_roles := []; geographic_regions := []; funding_stages := [];
               excluded_industries := []; excluded_technologies := [] |};
     thresholds := QualificationThresholds_default;
     global_rules := []; industry_rules := [];
     max_score := 100; normalize_scores := true;
     apply_data_quality_penalty := true |}.

(** [sample_lead] with an employee count. *)
Definition sized_lead (n : Z) : Lead :=
  {| id := None; company_name := "Example Tech Corp"; domain := "example-tech.com";
     industry := Some "Technology"%string; sub_industry := None; contacts := [];
     metrics := {| employee_count := Some n; revenue_range := None; growth_rate := None;
                   funding_amount := None; funding_stage := None;
                   last_funding_date := None |};
     tech_stack := TechnologyStack_default;
     lead.buying_signals := BuyingSignals_default;
     lead.lead_score := None; lead.qualification_status := None; score_breakdown := [];
     data_quality_score := None; completeness_percentage := None;
     last_enriched := None; data_sources := []; competitor_analysis := [];
     outreach_recommendations := []; lead.next_actions := [];
     headquarters := None; locations := [];
     website_traffic_rank := None; social_media_presence := [];
     created_at := naive sample_now; updated_at := naive sample_now |}.

(** An engine with three rules of its own: two on the industry of
    [sample_lead] around one that never matches. *)
Definition three_rule_engine : LeadScoringEngine :=
  LeadScoringEngine_init
    (Some (set_global_rules ScoringModel_default
             [industry_rule 5; headcount_rule; industry_rule 7])).

(** [sample_lead] as stored with a score. *)
Definition stored_lead (score : option Q) : Lead :=
  {| id := None; company_name := "Example Tech Corp"; domain := "example-tech.com";
     industry := Some "Technology"%string; sub_industry := None; contacts := [];
     metrics := CompanyMetrics_default;
     tech_stack := TechnologyStack_default;
     lead.buying_signals := BuyingSignals_default;
     lead.lead_score := score; lead.qualification_status := Some UNQUALIFIED;
     score_breakdown := [];
     data_quality_score := None; completeness_percentage := None;
     last_enriched := None; data_sources := []; competitor_analysis := [];
     outreach_recommendations := []; lead.next_actions := [];
     headquarters := None; locations := [];
     website_traffic_rank := None; social_media_presence := [];
     created_at := naive sample_now; updated_at := naive sample_now |}.

Definition stored_leads : list Lead :=
  [stored_lead None; stored_lead (Some 0); stored_lead (Some 55); stored_lead (Some 72);
   stored_lead (Some 20)].

(** * Properties *)

(** ** Comparisons and clamping *)

Lemma Qgeb_true (x y : Q) : Qgeb x y = true <-> y <= x.
Proof. unfold Qgeb. apply Qle_bool_iff. Qed.

Lemma Qgeb_false (x y : Q) : Qgeb x y = false <-> x < y.
Proof.
  unfold Qgeb. split.
  - intros H. apply Qnot_le_lt. intros Hle. apply Qle_bool_iff in Hle. congruence.
  - intros H. destruct (Qle_bool y x) eqn:E; [|reflexivity].
    apply Qle_bool_iff in E. exfalso. exact (Qlt_not_le _ _ H E).
Qed.

Lemma Qltb_true (x y : Q) : Qltb x y = true <-> x < y.
Proof.
  unfold Qltb. rewrite negb_true_iff. apply Qgeb_false.
Qed.

Lemma truthy_float_Some (q : Q) : truthy_float (Some q) = true <-> ~ q == 0.
Proof.
  unfold truthy_float. rewrite negb_true_iff. split.
  - intros H Heq. apply Qeq_bool_iff in Heq. congruence.
  - intros H. destruct (Qeq_bool q 0) eqn:E; [|reflexivity].
    apply Qeq_bool_iff in E. contradiction.
Qed.

Lemma truthy_float_zero (q : Q) : truthy_float (Some q) = false <-> q == 0.
Proof.
  unfold truthy_float. rewrite negb_false_iff. apply Qeq_bool_iff.
Qed.

(** Division by the constants of the source, as a product. *)
Ltac qnorm :=
  unfold Qdiv in *;
  change (/ 100) with (1 # 100) in *;
  change (/ 20) with (1 # 20) in *.

(** [min(100, max(0, x))] lies in the closed interval from 0 to 100. *)
Lemma clamp_bounds (x : Q) : 0 <= Qmin 100 (Qmax 0 x) /\ Qmin 100 (Qmax 0 x) <= 100.
Proof.
  split.
  - apply Q.min_glb; [lra | apply Q.le_max_l].
  - apply Q.le_min_l.
Qed.

(** A clamped value that reaches a positive bound was already there. *)
Lemma clamp_reaches (x b : Q) : 0 < b -> b <= Qmin 100 (Qmax 0 x) -> b <= x.
Proof.
  intros Hb H.
  assert (Hmax : b <= Qmax 0 x).
  { eapply Qle_trans; [exact H | apply Q.le_min_r]. }
  destruct (Q.max_spec 0 x) as [[_ E] | [_ E]]; rewrite E in Hmax; lra.
Qed.

Lemma clamp_ge_iff (x b : Q) : 0 < b -> b <= 100 -> (b <= Qmin 100 (Qmax 0 x) <-> b <= x).
Proof.
  intros Hb H100. split.
  - apply clamp_reaches. exact Hb.
  - intros Hx. apply Q.min_glb; [exact H100|].
    eapply Qle_trans; [exact Hx | apply Q.le_max_r].
Qed.

(** ** The scoring engine returns *)

Lemma confidence_unit_interval (self : LeadScoringEngine) (ld : Lead) :
  Lead_valid ld -> 0 <= _calculate_confidence self ld /\ _calculate_confidence self ld <= 1.
Proof.
  intros (_ & _ & Hq & Hc). unfold _calculate_confidence.
  destruct (data_quality_score ld) as [dq|], (completeness_percentage ld) as [cp|];
    cbn [in_range] in Hq, Hc;
    repeat match goal with
           | |- context [truthy_float ?o] => destruct (truthy_float o)
           end;
    cbn [andb from_option]; unfold Datatypes.id; qnorm; lra.
Qed.

Lemma subtract_dates_naive (now : datetime) (ld : Lead) :
  naive_dates ld -> subtract_dates now ld = Ok tt.
Proof.
  intros [Hfunding Henriched]. unfold subtract_dates, elapsed_days.
  destruct (last_funding_date (metrics ld)) as [d|]; [rewrite Hfunding|];
    (destruct (last_enriched ld) as [e|]; [rewrite Henriched|]); reflexivity.
Qed.

Lemma subtract_dates_aware (now : datetime) (ld : Lead) :
  ~ naive_dates ld -> subtract_dates now ld = Raise TypeError.
Proof.
  intros Hnot. unfold subtract_dates, elapsed_days.
  destruct (last_funding_date (metrics ld)) as [d|] eqn:Hd;
    [destruct (aware d) eqn:Had; [reflexivity|]|];
    (destruct (last_enriched ld) as [e|] eqn:He;
     [destruct (aware e) eqn:Hae; [reflexivity|]|]);
    exfalso; apply Hnot; unfold naive_dates; rewrite Hd, He; tauto.
Qed.

Lemma naive_dates_dec (ld : Lead) : naive_dates ld \/ ~ naive_dates ld.
Proof.
  unfold naive_dates.
  destruct (last_funding_date (metrics ld)) as [d|]; [destruct (aware d)|];
    (destruct (last_enriched ld) as [e|]; [destruct (aware e)|]);
    first [left; split; first [reflexivity | exact I]
          | right; intros [H1 H2]; discriminate].
Qed.

Lemma score_lead_naive (self : LeadScoringEngine) (now : datetime) (ld : Lead)
    (r : LeadScore) :
  score_lead self now ld = Ok r -> naive_dates ld.
Proof.
  intros H. destruct (naive_dates_dec ld) as [Hn|Hn]; [exact Hn|].
  unfold score_lead in H. rewrite (subtract_dates_aware now ld Hn) in H. discriminate.
Qed.

Lemma score_lead_inv (self : LeadScoringEngine) (now : datetime) (ld : Lead) (r : LeadScore) :
  score_lead self now ld = Ok r ->
  exists ra, _apply_scoring_rules self now ld [] = Ok ra /\ r = scored self now ld ra.
Proof.
  intros H. pose proof (score_lead_naive _ _ _ _ H) as Hn. revert H.
  unfold score_lead. rewrite (subtract_dates_naive now ld Hn).
  unfold mbind, result_bind, Py.bind.
  destruct (_apply_scoring_rules self now ld []) as [ra|e]; [|discriminate].
  unfold LeadScore_new. intros H. exists ra. split; [reflexivity|].
  match type of H with (if ?c then _ else _) = _ => destruct c end;
    [|discriminate].
  injection H as <-. reflexivity.
Qed.

Lemma score_lead_returns (self : LeadScoringEngine) (now : datetime) (ld : Lead)
    (ra : Q * list string) :
  Lead_valid ld ->
  naive_dates ld ->
  _apply_scoring_rules self now ld [] = Ok ra ->
  score_lead self now ld = Ok (scored self now ld ra).
Proof.
  intros Hv Hn Hra. unfold score_lead. rewrite (subtract_dates_naive now ld Hn).
  unfold mbind, result_bind, Py.bind. rewrite Hra.
  unfold LeadScore_new.
  pose proof (clamp_bounds
    (fst (apply_quality_penalty self ld
       (_calculate_weighted_score self (score_categories self now ld) (fst ra))))) as [H0 H100].
  pose proof (confidence_unit_interval self ld Hv) as [Hc0 Hc1].
  apply Qle_bool_iff in H0, H100, Hc0, Hc1.
  rewrite H0, H100, Hc0, Hc1. reflexivity.
Qed.

Lemma scored_total_bounds (self : LeadScoringEngine) (now : datetime) (ld : Lead)
    (ra : Q * list string) :
  0 <= total_score (scored self now ld ra) /\ total_score (scored self now ld ra) <= 100.
Proof. apply clamp_bounds. Qed.

(** ** Base tier from the thresholds *)

Lemma determine_qualification_spec (self : LeadScoringEngine) (score : Q) :
  let th := thresholds (model self) in
  (hot_threshold th <= score -> _determine_qualification self score = HOT)
  /\ (score < hot_threshold th -> warm_threshold th <= score ->
      _determine_qualification self score = WARM)
  /\ (score < hot_threshold th -> score < warm_threshold th -> cold_threshold th <= score ->
      _determine_qualification self score = COLD)
  /\ (score < hot_threshold th -> score < warm_threshold th -> score < cold_threshold th ->
      _determine_qualification self score = UNQUALIFIED).
Proof.
  cbv zeta. unfold _determine_qualification.
  repeat split; intros;
    repeat match goal with
           | H : _ <= _ |- _ => apply Qgeb_true in H; rewrite H
           | H : _ < _ |- _ => apply Qgeb_false in H; rewrite H
           end; reflexivity.
Qed.

(** Thresholds 80/60/0 and a lead whose score before the clamp is -48.2:
    the returned [total_score] is 0, which is at least the Cold threshold and
    below the Warm one, and the base tier is Unqualified, not Cold. *)
Lemma zero_threshold_tier_below_total :
  exists r : LeadScore,
    score_lead zero_cold_engine sample_now (sample_lead None [] []) = Ok r
    /\ thresholds (model zero_cold_engine)
       = {| hot_threshold := 80; warm_threshold := 60; cold_threshold := 0;
            min_data_quality := 50 |}
    /\ total_score r == 0
    /\ total_score r < hot_threshold (thresholds (model zero_cold_engine))
    /\ total_score r < warm_threshold (thresholds (model zero_cold_engine))
    /\ cold_threshold (thresholds (model zero_cold_engine)) <= total_score r
    /\ scoring.qualification_status r = "Unqualified"%string
    /\ scoring.qualification_status r <> "Cold"%string.
Proof.
  eexists. split; [vm_compute; reflexivity|]. split; [reflexivity|].
  split; [vm_compute; reflexivity|]. split; [vm_compute; reflexivity|].
  split; [vm_compute; reflexivity|]. split; [vm_compute; discriminate|].
  split; [reflexivity | discriminate].
Qed.

(** C5, as the code has it.  The base tier stored in the result of
    [score_lead] is the outcome of comparing the score (after the quality
    penalty, before the final clamp) with the thresholds, highest first, each
    bound inclusive: at or above [hot_threshold] it is Hot, else at or above
    [warm_threshold] Warm, else at or above [cold_threshold] Cold, else
    Unqualified.  When the three thresholds are greater than 0 (and at most
    100, as the model declares them) the same comparison holds of the
    returned [total_score]: the clamp crosses no such threshold.  With the
    default thresholds 80/60/40 a returned [total_score] of at least 80 has
    base tier Hot. *)
Theorem base_tier_by_thresholds (self : LeadScoringEngine) (now : datetime) (ld : Lead)
    (r : LeadScore) :
  score_lead self now ld = Ok r ->
  (exists score : Q,
     total_score r = Qmin 100 (Qmax 0 score)
     /\ scoring.qualification_status r = value (_determine_qualification self score)
     /\ (let th := thresholds (model self) in
         (hot_threshold th <= score -> scoring.qualification_status r = "Hot"%string)
         /\ (score < hot_threshold th -> warm_threshold th <= score ->
             scoring.qualification_status r = "Warm"%string)
         /\ (score < hot_threshold th -> score < warm_threshold th ->
             cold_threshold th <= score ->
             scoring.qualification_status r = "Cold"%string)
         /\ (score < hot_threshold th -> score < warm_threshold th ->
             score < cold_threshold th ->
             scoring.qualification_status r = "Unqualified"%string)))
  /\ (let th := thresholds (model self) in
      0 < hot_threshold th /\ hot_threshold th <= 100 ->
      0 < warm_threshold th /\ warm_threshold th <= 100 ->
      0 < cold_threshold th /\ cold_threshold th <= 100 ->
      (hot_threshold th <= total_score r -> scoring.qualification_status r = "Hot"%string)
      /\ (total_score r < hot_threshold th -> warm_threshold th <= total_score r ->
          scoring.qualification_status r = "Warm"%string)
      /\ (total_score r < hot_threshold th -> total_score r < warm_threshold th ->
          cold_threshold th <= total_score r ->
          scoring.qualification_status r = "Cold"%string)
      /\ (total_score r < hot_threshold th -> total_score r < warm_threshold th ->
          total_score r < cold_threshold th ->
          scoring.qualification_status r = "Unqualified"%string))
  /\ (thresholds (model self) = QualificationThresholds_default ->
      80 <= total_score r -> scoring.qualification_status r = "Hot"%string).
Proof.
  intros H. apply score_lead_inv in H as (ra & _ & ->).
  set (total := _calculate_weighted_score self (score_categories self now ld) (fst ra)).
  pose proof (determine_qualification_spec self (fst (apply_quality_penalty self ld total)))
    as (Hhot & Hwarm & Hcold & Hun).
  cbv zeta in *. cbn [scored total_score scoring.qualification_status]. fold total.
  split; [|split].
  - exists (fst (apply_quality_penalty self ld total)).
    split; [reflexivity|]. split; [reflexivity|].
    repeat split; intros.
    + rewrite Hhot by assumption. reflexivity.
    + rewrite Hwarm by assumption. reflexivity.
    + rewrite Hcold by assumption. reflexivity.
    + rewrite Hun by assumption. reflexivity.
  - intros [Hh0 Hh100] [Hw0 Hw100] [Hc0 Hc100].
    pose proof (clamp_ge_iff (fst (apply_quality_penalty self ld total)) _ Hh0 Hh100) as Eh.
    pose proof (clamp_ge_iff (fst (apply_quality_penalty self ld total)) _ Hw0 Hw100) as Ew.
    pose proof (clamp_ge_iff (fst (apply_quality_penalty self ld total)) _ Hc0 Hc100) as Ec.
    assert (Below : forall b : Q,
               (b <= Qmin 100 (Qmax 0 (fst (apply_quality_penalty self ld total)))
                <-> b <= fst (apply_quality_penalty self ld total)) ->
               Qmin 100 (Qmax 0 (fst (apply_quality_penalty self ld total))) < b ->
               fst (apply_quality_penalty self ld total) < b).
    { intros b E Hlt.
      destruct (Qlt_le_dec (fst (apply_quality_penalty self ld total)) b) as [Hb|Hb];
        [exact Hb|]. apply E in Hb. lra. }
    repeat split; intros.
    + rewrite Hhot; [reflexivity|]. apply Eh. assumption.
    + rewrite Hwarm; [reflexivity| |]; [apply Below | apply Ew]; assumption.
    + rewrite Hcold; [reflexivity| | |]; [apply Below | apply Below | apply Ec]; assumption.
    + rewrite Hun; [reflexivity| | |]; apply Below; assumption.
  - intros Hth H80. rewrite Hhot; [reflexivity|].
    rewrite Hth. cbn [hot_threshold QualificationThresholds_default].
    apply clamp_reaches; [lra | exact H80].
Qed.

Lemma base_tier_by_thresholds_witness :
  exists r : LeadScore,
    score_lead (industry_engine 90) sample_now (sample_lead None [] []) = Ok r
    /\ 80 <= total_score r
    /\ scoring.qualification_status r = "Hot"%string.
Proof.
  eexists. split; [vm_compute; reflexivity|]. split; [vm_compute; discriminate|].
  destruct (base_tier_by_thresholds (industry_engine 90) sample_now (sample_lead None [] []) _
              eq_refl) as (_ & _ & Hdefault).
  apply Hdefault; [reflexivity | vm_compute; discriminate].
Defined.

(** ** Monotonicity of the weighted total *)

Lemma get_insert_eq (cs : gmap ScoreCategory Q) (c : ScoreCategory) (v : Q) :
  get (<[c := v]> cs) c = v.
Proof. unfold get. rewrite lookup_insert_eq. reflexivity. Qed.

Lemma get_insert_ne (cs : gmap ScoreCategory Q) (c d : ScoreCategory) (v : Q) :
  c <> d -> get (<[c := v]> cs) d = get cs d.
Proof. intros H. unfold get. rewrite lookup_insert_ne by exact H. reflexivity. Qed.

(** C6. For a fixed configuration (weights within their declared range) and
    fixed rule adjustments, raising the score of one category and leaving the
    other five as they are never lowers the weighted total that
    [_calculate_weighted_score] computes before the quality penalty. *)
Theorem weighted_score_monotone (self : LeadScoringEngine)
    (category_scores : gmap ScoreCategory Q) (c : ScoreCategory) (v v' rule_adjustments : Q) :
  ScoringWeights_valid (weights (model self)) ->
  v <= v' ->
  _calculate_weighted_score self (<[c := v]> category_scores) rule_adjustments
  <= _calculate_weighted_score self (<[c := v']> category_scores) rule_adjustments.
Proof.
  intros ([H1 _] & [H2 _] & [H3 _] & [H4 _] & [H5 _] & [H6 _]) Hv.
  unfold _calculate_weighted_score.
  destruct c;
    rewrite !get_insert_eq, !get_insert_ne by discriminate;
    apply Qplus_le_l;
    repeat first [ apply Qplus_le_l | apply Qplus_le_r ];
    apply Qmult_le_compat_r; assumption.
Qed.

Lemma weighted_score_monotone_witness :
  _calculate_weighted_score (LeadScoringEngine_init None) (<[TECHNOLOGY_FIT := 3]> ∅) 0
  <= _calculate_weighted_score (LeadScoringEngine_init None) (<[TECHNOLOGY_FIT := 13]> ∅) 0.
Proof.
  apply (weighted_score_monotone (LeadScoringEngine_init None) ∅ TECHNOLOGY_FIT 3 13 0).
  - vm_compute. repeat split; discriminate.
  - vm_compute. discriminate.
Defined.

(** ** The rule matcher *)

Lemma rule_matches_unresolvable (self : LeadScoringEngine) (now : datetime) (ld : Lead)
    (rule : ScoringRule) :
  _get_field_value self ld (rule_field rule) = VNone ->
  _rule_matches self now ld rule = Ok false.
Proof.
  unfold rule_field, _rule_matches. intros H.
  destruct (truthy _); cbn [negb]; [|reflexivity].
  rewrite H. reflexivity.
Qed.

Lemma rule_matches_unknown_operator (self : LeadScoringEngine) (now : datetime) (ld : Lead)
    (rule : ScoringRule) :
  known_operator (rule_operator rule) = false ->
  _rule_matches self now ld rule = Ok false.
Proof.
  unfold known_operator, known_operators, rule_operator. cbn [existsb].
  intros H. repeat (apply orb_false_elim in H as [? H]).
  unfold _rule_matches.
  destruct (truthy _); cbn [negb]; [|reflexivity].
  destruct (is_none _); [reflexivity|].
  repeat match goal with
         | E : py_eq _ _ = false |- _ => rewrite E; clear E
         end.
  reflexivity.
Qed.

Lemma apply_rules_skip (self : LeadScoringEngine) (now : datetime) (ld : Lead)
    (rule : ScoringRule) (pre post : list ScoringRule) :
  _rule_matches self now ld rule = Ok false ->
  forall (adjustment : Q) (applied : list string),
    apply_rules_from self now ld (pre ++ rule :: post) adjustment applied
    = apply_rules_from self now ld (pre ++ post) adjustment applied.
Proof.
  intros Hrule. induction pre as [|first pre IH]; intros adjustment applied.
  - cbn [app apply_rules_from]. rewrite Hrule. reflexivity.
  - cbn [app apply_rules_from].
    destruct (_rule_matches self now ld first) as [[|]|e]; cbn; [apply IH | apply IH | reflexivity].
Qed.

(** C4. A rule whose field path does not resolve on the lead, or whose
    operator is none of the seven the matcher knows, is reported as not
    matching and nothing is raised; in the rule loop it adds no adjustment
    and no name to [applied_rules]: the loop yields what it yields without
    that rule. *)
Theorem unresolvable_rule_never_matches (self : LeadScoringEngine) (now : datetime) (ld : Lead)
    (rule : ScoringRule) :
  _get_field_value self ld (rule_field rule) = VNone
  \/ known_operator (rule_operator rule) = false ->
  _rule_matches self now ld rule = Ok false
  /\ forall (pre post : list ScoringRule) (adjustment : Q) (applied : list string),
       apply_rules_from self now ld (pre ++ rule :: post) adjustment applied
       = apply_rules_from self now ld (pre ++ post) adjustment applied.
Proof.
  intros H.
  assert (Hrule : _rule_matches self now ld rule = Ok false).
  { destruct H as [H|H].
    - apply rule_matches_unresolvable. exact H.
    - apply rule_matches_unknown_operator. exact H. }
  split; [exact Hrule|]. intros pre post. apply apply_rules_skip. exact Hrule.
Qed.

Lemma unresolvable_rule_never_matches_witness :
  _rule_matches (LeadScoringEngine_init None) sample_now (sample_lead None [] []) headcount_rule = Ok false
  /\ apply_rules_from (LeadScoringEngine_init None) sample_now (sample_lead None [] [])
       ([industry_rule 5] ++ headcount_rule :: [industry_rule 7]) 0 []
     = Ok (0 + 5 * 1.0 + 7 * 1.0,
           ["Technology industry"; "Technology industry"]%string).
Proof.
  destruct (unresolvable_rule_never_matches (LeadScoringEngine_init None) sample_now
              (sample_lead None [] []) headcount_rule) as [Hrule Hskip].
  - left. vm_compute. reflexivity.
  - split; [exact Hrule|]. rewrite Hskip. vm_compute. reflexivity.
Defined.

(** ** Job postings in the intent analysis *)

Lemma job_posting_step_points (acc : Z * list IntentSignal) (posting : string) :
  fst (job_posting_step acc posting) = (fst acc + posting_points posting)%Z.
Proof.
  unfold job_posting_step, posting_points. cbv zeta.
  destruct (any_in high_intent_roles (lower posting));
    destruct (any_in medium_intent_roles (lower posting));
    destruct (any_in decision_maker_roles (lower posting));
    destruct (any_in tech_keywords (lower posting));
    cbn [fst snd]; lia.
Qed.

Lemma job_posting_loop_points (postings : list string) (acc : Z * list IntentSignal) :
  fst (fold_left job_posting_step postings acc)
  = (fst acc + sum_points posting_points postings)%Z.
Proof.
  revert acc. induction postings as [|posting postings IH]; intros acc.
  - cbn. lia.
  - cbn [fold_left]. rewrite IH, job_posting_step_points.
    unfold sum_points. cbn [map fold_right]. lia.
Qed.

(** C8, as the code has it.  The score of the job-posting analysis is the
    sum over the postings of [posting_points], capped at 10: a posting that
    matches a high-intent title adds 5 and is not looked up among the
    medium-intent titles, a posting that matches only a medium-intent title
    adds 3; decision-maker titles (+2) and technology keywords (+4) add on
    top of either.  A posting that matches both a high-intent and a
    medium-intent title gets 5 from those two tiers. *)
Theorem job_posting_intent_score (self : BuyerIntentAnalyzer) (postings : list string) :
  score (_analyze_job_posting_intent self postings)
  = Z.min (sum_points posting_points postings) 10.
Proof.
  unfold _analyze_job_posting_intent. cbn [score].
  rewrite job_posting_loop_points. cbn [fst]. f_equal.
Qed.

(** One posting with a high-intent title ("growth lead") and a
    medium-intent title ("marketing manager"), no decision-maker title and
    no technology keyword: the analysis gives 5, the additive reading 8. *)
Lemma job_posting_tiers_exclusive :
  let posting := "Growth Lead / Marketing Manager"%string in
  any_in high_intent_roles (lower posting) = true
  /\ any_in medium_intent_roles (lower posting) = true
  /\ score (_analyze_job_posting_intent BuyerIntentAnalyzer_init [posting]) = 5%Z
  /\ Z.min (sum_points additive_points [posting]) 10 = 8%Z
  /\ score (_analyze_job_posting_intent BuyerIntentAnalyzer_init [posting])
     <> Z.min (sum_points additive_points [posting]) 10.
Proof. vm_compute. repeat split; discriminate. Qed.

(** ** The growth-rate part of the growth score *)

(** A lead whose only growth input is a growth rate of 0.0: the category
    score is 0, not 1. *)
Lemma zero_growth_rate_adds_nothing :
  let ld := with_growth_rate (Some 0) (Lead_minimal "Flat Inc" "flat.example" sample_now) in
  growth_rate (metrics ld) = Some 0
  /\ in_range 0 100 (growth_rate (metrics ld))
  /\ _score_growth_indicators (LeadScoringEngine_init None) sample_now
       (with_growth_rate None ld) == 0
  /\ _score_growth_indicators (LeadScoringEngine_init None) sample_now ld == 0
  /\ ~ _score_growth_indicators (LeadScoringEngine_init None) sample_now ld == 1.
Proof.
  cbv zeta. split; [reflexivity|]. split; [cbn; lra|].
  split; [reflexivity|]. split; [reflexivity|]. vm_compute. discriminate.
Qed.

(** C9, as the code has it.  The growth rate adds to the Growth Indicators
    score 4 points from 50 up, 3 from 25, 2 from 10 and 1 below 10, when it
    is present and not zero; a growth rate of 0.0 is falsy and adds nothing,
    like an absent one. *)
Theorem growth_rate_points (self : LeadScoringEngine) (now : datetime) (ld : Lead) (rate : Q) :
  growth_rate (metrics ld) = Some rate ->
  let points :=
    _score_growth_indicators self now ld
    - _score_growth_indicators self now (with_growth_rate None ld) in
  (rate == 0 -> points == 0)
  /\ (~ rate == 0 ->
      (50 <= rate -> points == 4)
      /\ (25 <= rate -> rate < 50 -> points == 3)
      /\ (10 <= rate -> rate < 25 -> points == 2)
      /\ (rate < 10 -> points == 1)).
Proof.
  intros Hrate. cbv zeta. unfold _score_growth_indicators.
  cbn [with_growth_rate metrics lead.buying_signals growth_rate last_funding_date
       recent_hiring job_postings].
  rewrite Hrate.
  match goal with
  | |- context [if truthy_float (Some rate) then ?x + _ else _] => generalize x
  end.
  intros base. split.
  - intros H0. apply truthy_float_zero in H0. rewrite H0. ring.
  - intros Hnz. apply truthy_float_Some in Hnz. rewrite Hnz.
    assert (Hge : forall b, b <= rate -> Qgeb rate b = true)
      by (intros b Hb; apply Qgeb_true; exact Hb).
    assert (Hlt : forall b, rate < b -> Qgeb rate b = false)
      by (intros b Hb; apply Qgeb_false; exact Hb).
    repeat split.
    + intros H50. rewrite (Hge 50 H50). ring.
    + intros H25 H50. rewrite (Hlt 50 H50), (Hge 25 H25). ring.
    + intros H10 H25. rewrite (Hlt 50), (Hlt 25 H25), (Hge 10 H10) by lra. ring.
    + intros H10. rewrite (Hlt 50), (Hlt 25), (Hlt 10 H10) by lra. ring.
Qed.

Lemma growth_rate_points_witness :
  let ld := with_growth_rate (Some 35) (Lead_minimal "Example Tech Corp" "example-tech.com"
                                          sample_now) in
  _score_growth_indicators (LeadScoringEngine_init None) sample_now ld
  - _score_growth_indicators (LeadScoringEngine_init None) sample_now (with_growth_rate None ld) == 3.
Proof.
  cbv zeta.
  destruct (growth_rate_points (LeadScoringEngine_init None) sample_now
              (with_growth_rate (Some 35)
                 (Lead_minimal "Example Tech Corp" "example-tech.com" sample_now)) 35 eq_refl)
    as [_ Hnz].
  destruct Hnz as (_ & H25 & _ & _); [vm_compute; discriminate|].
  apply H25; vm_compute; [discriminate | reflexivity].
Defined.

(** ** Totality on partially populated leads *)

(** No default rule fires under the default model, and none raises. *)
Lemma default_rules_never_fire (now : datetime) (ld : Lead) :
  _apply_scoring_rules (LeadScoringEngine_init None) now ld [] = Ok (0, []).
Proof.
  destruct ld as [? ? ? ind ? ? ? ? ? ? ? ? ? ? ? ? ? ? ? ? ? ? ? ? ?].
  destruct ind; vm_compute; reflexivity.
Qed.

Lemma of_value_value (q : QualificationStatus) : of_value (value q) = Ok q.
Proof. destruct q; reflexivity. Qed.

Lemma determine_final_qualification_returns (self : LeadQualificationEngine)
    (ls : LeadScore) (ia : IntentAnalysis) (t : Z) (ld : Lead) (base : QualificationStatus) :
  scoring.qualification_status ls = value base ->
  exists q, _determine_final_qualification self ls ia t ld = Ok q.
Proof.
  intros Hbase. unfold _determine_final_qualification.
  rewrite Hbase, of_value_value. cbn [mbind result_bind Py.bind].
  repeat match goal with
         | |- context [if ?c then _ else _] => destruct c
         | |- context [match ?o with Some _ => _ | None => _ end] => destruct o
         end; eexists; reflexivity.
Qed.

(** What [qualify_lead] returns, step by step. *)
Lemma qualify_lead_inv (self : LeadQualificationEngine) (now : datetime) (ld : Lead)
    (q : Qualification) :
  qualify_lead self now ld = Ok q ->
  exists ls final priority,
    score_lead (qualifier.scorer self) now ld = Ok ls
    /\ _determine_final_qualification self ls (analyze_intent (intent_analyzer self) now ld)
         (_calculate_timing_score self now ld) ld = Ok final
    /\ _calculate_priority_score self (total_score ls)
         (inject_Z (intent_score (analyze_intent (intent_analyzer self) now ld)))
         (inject_Z (_calculate_timing_score self now ld)) (quality_or_50 ld) = Ok priority
    /\ q = {| qualifier.lead_score := ls;
              intent_analysis := analyze_intent (intent_analyzer self) now ld;
              timing_score := _calculate_timing_score self now ld;
              final_qualification := final;
              priority_score := priority;
              next_review_date := _calculate_next_review_date self now final |}.
Proof.
  unfold qualify_lead.
  destruct (score_lead (qualifier.scorer self) now ld) as [ls|e] eqn:Hls;
    cbn [mbind result_bind Py.bind]; [|discriminate].
  destruct (_determine_final_qualification self ls
              (analyze_intent (intent_analyzer self) now ld)
              (_calculate_timing_score self now ld) ld) as [final|e] eqn:Hfinal;
    cbn [mbind result_bind Py.bind]; [|discriminate].
  destruct (_calculate_priority_score self (total_score ls)
              (inject_Z (intent_score (analyze_intent (intent_analyzer self) now ld)))
              (inject_Z (_calculate_timing_score self now ld)) (quality_or_50 ld))
    as [priority|e] eqn:Hpriority; cbn [mbind result_bind Py.bind]; [|discriminate].
  intros H. injection H as <-. exists ls, final, priority.
  split; [reflexivity|]. split; [exact Hfinal|]. split; [exact Hpriority | reflexivity].
Qed.

Lemma qualify_lead_returns (self : LeadQualificationEngine) (now : datetime) (ld : Lead)
    (ls : LeadScore) (final : QualificationStatus) (priority : Q) :
  score_lead (qualifier.scorer self) now ld = Ok ls ->
  _determine_final_qualification self ls (analyze_intent (intent_analyzer self) now ld)
    (_calculate_timing_score self now ld) ld = Ok final ->
  _calculate_priority_score self (total_score ls)
    (inject_Z (intent_score (analyze_intent (intent_analyzer self) now ld)))
    (inject_Z (_calculate_timing_score self now ld)) (quality_or_50 ld) = Ok priority ->
  qualify_lead self now ld
  = Ok {| qualifier.lead_score := ls;
          intent_analysis := analyze_intent (intent_analyzer self) now ld;
          timing_score := _calculate_timing_score self now ld;
          final_qualification := final;
          priority_score := priority;
          next_review_date := _calculate_next_review_date self now final |}.
Proof.
  intros Hls Hfinal Hpriority. unfold qualify_lead.
  rewrite Hls. cbn [mbind result_bind Py.bind].
  rewrite Hfinal. cbn [mbind result_bind Py.bind].
  rewrite Hpriority. reflexivity.
Qed.

(** The matcher does raise on other rules: [contains] with a value that has
    no [lower]. *)
Example rule_matcher_can_raise :
  _rule_matches (LeadScoringEngine_init None) sample_now (sample_lead None [] [])
    name_contains_rule
  = Raise AttributeError.
Proof. reflexivity. Qed.

(** ** Priority score *)

Lemma priority_score_weights (self : LeadQualificationEngine) (l i t d : Q) :
  qualification_weights self = qualification_weights LeadQualificationEngine_init ->
  _calculate_priority_score self l i t d
  = Ok ((l / 100 * 0.4 + Qmin (i / 20) 1 * 0.3 + d / 100 * 0.2 + t / 20 * 0.1) * 100).
Proof.
  intros Hw. unfold _calculate_priority_score. rewrite Hw. reflexivity.
Qed.

(** C10. For a lead without a data quality score the qualification engine
    computes the priority from 50 in its place: every result that
    [qualify_lead] returns for such a lead, with the four qualification
    weights of the constructor, has the priority
    [(total_score/100 * 0.4 + min(intent_score/20, 1) * 0.3 + 50/100 * 0.2
      + timing_score/20 * 0.1) * 100],
    that is the three other terms plus a fixed 10 points. *)
Theorem priority_without_quality_score (self : LeadQualificationEngine) (now : datetime)
    (ld : Lead) (q : Qualification) :
  qualification_weights self = qualification_weights LeadQualificationEngine_init ->
  data_quality_score ld = None ->
  qualify_lead self now ld = Ok q ->
  priority_score q
  = (total_score (qualifier.lead_score q) / 100 * 0.4
     + Qmin (inject_Z (intent_score (intent_analysis q)) / 20) 1 * 0.3
     + 50 / 100 * 0.2
     + inject_Z (timing_score q) / 20 * 0.1) * 100
  /\ priority_score q
     == (total_score (qualifier.lead_score q) / 100 * 0.4
         + Qmin (inject_Z (intent_score (intent_analysis q)) / 20) 1 * 0.3
         + inject_Z (timing_score q) / 20 * 0.1) * 100
        + 10.
Proof.
  intros Hw Hnone Hq.
  apply qualify_lead_inv in Hq as (ls & final & priority & _ & _ & Hp & ->).
  cbn [priority_score qualifier.lead_score intent_analysis timing_score].
  rewrite (priority_score_weights self _ _ _ _ Hw) in Hp. injection Hp as <-.
  unfold quality_or_50. rewrite Hnone. cbn [truthy_float].
  split; [reflexivity | field].
Qed.

Lemma priority_without_quality_score_witness :
  exists q,
    qualify_lead LeadQualificationEngine_init sample_now (sample_lead None [] []) = Ok q
    /\ priority_score q == 14.72.
Proof.
  destruct (qualify_lead LeadQualificationEngine_init sample_now (sample_lead None [] []))
    as [q|e] eqn:Hq; [|vm_compute in Hq; discriminate].
  exists q. split; [reflexivity|].
  destruct (priority_without_quality_score LeadQualificationEngine_init sample_now
              (sample_lead None [] []) q eq_refl eq_refl Hq) as [_ ->].
  vm_compute in Hq. injection Hq as <-. reflexivity.
Defined.

(** ** Results on partially populated leads *)

Lemma existsb_py_eq_str (text : string) (items : list string) :
  existsb (fun item => py_eq item (VStr text)) (map VStr items)
  = existsb (fun target => String.eqb target text) items.
Proof.
  induction items as [|item items IH]; [reflexivity|].
  cbn [map existsb]. rewrite IH. reflexivity.
Qed.

Lemma apply_rules_cons (self : LeadScoringEngine) (now : datetime) (ld : Lead)
    (rule : ScoringRule) (rest : list ScoringRule) (adjustment : Q) (applied : list string)
    (b : bool) :
  _rule_matches self now ld rule = Ok b ->
  apply_rules_from self now ld (rule :: rest) adjustment applied
  = if b then apply_rules_from self now ld rest
                (adjustment + score_impact rule * weight rule) (applied ++ [scoring.name rule])
    else apply_rules_from self now ld rest adjustment applied.
Proof. intros Hb. cbn [apply_rules_from]. rewrite Hb. reflexivity. Qed.

Lemma apply_rules_none_match (self : LeadScoringEngine) (now : datetime) (ld : Lead)
    (rules : list ScoringRule) (adjustment : Q) (applied : list string) :
  Forall (fun rule => _rule_matches self now ld rule = Ok false) rules ->
  apply_rules_from self now ld rules adjustment applied = Ok (adjustment, applied).
Proof.
  induction 1 as [|rule rules Hrule _ IH]; [reflexivity|].
  rewrite (apply_rules_cons _ _ _ _ _ _ _ false Hrule). exact IH.
Qed.

Lemma target_industry_rule_matches (m : ScoringModel) (now : datetime) (ld : Lead) :
  global_rules m = [] ->
  _rule_matches (LeadScoringEngine_init (Some m)) now ld (hd headcount_rule (get_default_rules m))
  = Ok (industry_targeted m ld).
Proof.
  intros Hrules. unfold industry_targeted, LeadScoringEngine_init. rewrite Hrules.
  destruct ld as [? ? ? ind ? ? ? ? ? ? ? ? ? ? ? ? ? ? ? ? ? ? ? ? ?].
  cbn [industry]. destruct ind as [text|].
  - rewrite <- existsb_py_eq_str. vm_compute. reflexivity.
  - vm_compute. reflexivity.
Qed.

Lemma other_default_rules_never_match (m : ScoringModel) (now : datetime) (ld : Lead) :
  global_rules m = [] ->
  Forall (fun rule => _rule_matches (LeadScoringEngine_init (Some m)) now ld rule = Ok false)
    (tl (get_default_rules m)).
Proof.
  intros Hrules. unfold LeadScoringEngine_init. rewrite Hrules.
  destruct ld as [? ? ? ind ? ? ? ? ? ? ? ? ? ? ? ? ? ? ? ? ? ? ? ? ?].
  repeat (constructor; [destruct ind; vm_compute; reflexivity|]). constructor.
Qed.

(** The default rules on any model that brings no rules of its own. *)
Lemma default_rules_result (m : ScoringModel) (now : datetime) (ld : Lead) :
  global_rules m = [] ->
  _apply_scoring_rules (LeadScoringEngine_init (Some m)) now ld []
  = if industry_targeted m ld
    then Ok (0 + 20 * 1.0, ["Target Industry Match"%string])
    else Ok (0, []).
Proof.
  intros Hrules.
  assert (Hmodel : global_rules (model (LeadScoringEngine_init (Some m)))
                   = get_default_rules m).
  { unfold LeadScoringEngine_init. rewrite Hrules. reflexivity. }
  unfold _apply_scoring_rules. rewrite Hmodel.
  change (get_default_rules m)
    with (hd headcount_rule (get_default_rules m) :: tl (get_default_rules m)).
  rewrite (apply_rules_cons _ _ _ _ _ _ _ _ (target_industry_rule_matches m now ld Hrules)).
  pose proof (other_default_rules_never_match m now ld Hrules) as Hrest.
  destruct (industry_targeted m ld); apply apply_rules_none_match; exact Hrest.
Qed.

Lemma score_lead_aware_raises (self : LeadScoringEngine) (now : datetime) (ld : Lead) :
  ~ naive_dates ld -> score_lead self now ld = Raise TypeError.
Proof.
  intros Hn. unfold score_lead. rewrite (subtract_dates_aware now ld Hn). reflexivity.
Qed.

Lemma score_lead_default_rules_returns (m : ScoringModel) (now : datetime) (ld : Lead) :
  global_rules m = [] ->
  Lead_valid ld ->
  naive_dates ld ->
  exists ra, score_lead (LeadScoringEngine_init (Some m)) now ld
             = Ok (scored (LeadScoringEngine_init (Some m)) now ld ra).
Proof.
  intros Hrules Hv Hn.
  pose proof (default_rules_result m now ld Hrules) as Hra.
  destruct (industry_targeted m ld);
    eexists; exact (score_lead_returns _ _ _ _ Hv Hn Hra).
Qed.

(** Once the scorer has returned, the rest of [qualify_lead] returns too:
    the base tier is the value of a tier and the four weights are there. *)
Lemma qualify_lead_after_score (self : LeadQualificationEngine) (now : datetime) (ld : Lead)
    (ls : LeadScore) :
  qualification_weights self = qualification_weights LeadQualificationEngine_init ->
  score_lead (qualifier.scorer self) now ld = Ok ls ->
  exists q, qualify_lead self now ld = Ok q /\ qualifier.lead_score q = ls.
Proof.
  intros Hw Hls.
  pose proof Hls as Hinv. apply score_lead_inv in Hinv as (ra & _ & Hscored).
  assert (Hbase : exists base, scoring.qualification_status ls = value base).
  { rewrite Hscored. eexists. reflexivity. }
  destruct Hbase as [base Hbase].
  destruct (determine_final_qualification_returns self ls
              (analyze_intent (intent_analyzer self) now ld)
              (_calculate_timing_score self now ld) ld base Hbase) as [final Hfinal].
  eexists. split.
  - exact (qualify_lead_returns self now ld ls final _ Hls Hfinal
             (priority_score_weights self _ _ _ _ Hw)).
  - reflexivity.
Qed.

(** A lead with nothing but a name, a domain and an aware funding date makes
    [LeadScoringEngine()] and [LeadQualificationEngine()] raise; and a rule
    of the model's own can raise on a lead with nothing but a name and a
    domain. *)
Lemma aware_funding_date_raises :
  (Lead_valid aware_funding_lead
   /\ last_funding_date (metrics aware_funding_lead)
      = Some {| instant := day 19950; aware := true |}
   /\ score_lead (LeadScoringEngine_init None) sample_now aware_funding_lead
      = Raise TypeError
   /\ qualify_lead LeadQualificationEngine_init sample_now aware_funding_lead
      = Raise TypeError)
  /\ score_lead
       (LeadScoringEngine_init (Some (set_global_rules ScoringModel_default
                                        [name_contains_rule])))
       sample_now (Lead_minimal "Example Tech Corp" "example-tech.com" sample_now)
     = Raise AttributeError.
Proof.
  split; [|vm_compute; reflexivity].
  split; [vm_compute; tauto|]. split; [reflexivity|].
  split; vm_compute; reflexivity.
Qed.

(** C2, as the code has it.  Take an engine that runs the default rules (its
    model brings no rules of its own; weights, profile, thresholds and flags
    are free) and a qualification engine on top of it with the four weights
    of the constructor.  Whatever optional fields a lead leaves out (every
    lead that passes the range checks of its model), [score_lead] and
    [qualify_lead] return a result with a [total_score] between 0 and 100
    when the dates that the lead holds ([metrics.last_funding_date],
    [last_enriched]) are naive, and both raise [TypeError] when one of them
    is aware.  Whatever the engine, a [total_score] that [score_lead] returns
    lies between 0 and 100. *)
Theorem scoring_total_on_partial_leads (self : LeadQualificationEngine) (m : ScoringModel)
    (now : datetime) (ld : Lead) :
  global_rules m = [] ->
  qualifier.scorer self = LeadScoringEngine_init (Some m) ->
  qualification_weights self = qualification_weights LeadQualificationEngine_init ->
  Lead_valid ld ->
  (naive_dates ld ->
   (exists r,
      score_lead (LeadScoringEngine_init (Some m)) now ld = Ok r
      /\ 0 <= total_score r /\ total_score r <= 100)
   /\ (exists q,
         qualify_lead self now ld = Ok q
         /\ 0 <= total_score (qualifier.lead_score q)
         /\ total_score (qualifier.lead_score q) <= 100))
  /\ (~ naive_dates ld ->
      score_lead (LeadScoringEngine_init (Some m)) now ld = Raise TypeError
      /\ qualify_lead self now ld = Raise TypeError)
  /\ (forall (engine : LeadScoringEngine) (r : LeadScore),
        score_lead engine now ld = Ok r -> 0 <= total_score r /\ total_score r <= 100).
Proof.
  intros Hrules Hscorer Hw Hv. split; [|split].
  - intros Hn.
    destruct (score_lead_default_rules_returns m now ld Hrules Hv Hn) as [ra Hls].
    split.
    + eexists. split; [exact Hls | apply scored_total_bounds].
    + rewrite <- Hscorer in Hls.
      destruct (qualify_lead_after_score self now ld _ Hw Hls) as (q & Hq & Heq).
      exists q. split; [exact Hq|]. rewrite Heq. apply scored_total_bounds.
  - intros Hn. split; [apply score_lead_aware_raises; exact Hn|].
    unfold qualify_lead. rewrite (score_lead_aware_raises _ now ld Hn). reflexivity.
  - intros engine r Hr. apply score_lead_inv in Hr as (ra & _ & ->).
    apply scored_total_bounds.
Qed.

Lemma scoring_total_on_partial_leads_witness :
  (exists r,
     score_lead (LeadScoringEngine_init (Some ScoringModel_default)) sample_now
       naive_funding_lead = Ok r
     /\ 0 <= total_score r /\ total_score r <= 100)
  /\ (exists q,
        qualify_lead LeadQualificationEngine_init sample_now naive_funding_lead = Ok q
        /\ 0 <= total_score (qualifier.lead_score q)
        /\ total_score (qualifier.lead_score q) <= 100).
Proof.
  refine (proj1 (scoring_total_on_partial_leads LeadQualificationEngine_init
                   ScoringModel_default sample_now naive_funding_lead
                   eq_refl eq_refl eq_refl _) _).
  - vm_compute. tauto.
  - split; [reflexivity | exact I].
Defined.

(** ** The default engine stays below the Cold threshold *)

Lemma inject_min_bounds (k n : Z) :
  (0 <= k)%Z -> (0 <= n)%Z -> 0 <= inject_Z (Z.min k n) /\ inject_Z (Z.min k n) <= inject_Z k.
Proof.
  intros Hk Hn. split.
  - change 0 with (inject_Z 0). rewrite <- Zle_Qle. lia.
  - rewrite <- Zle_Qle. lia.
Qed.

Ltac bound_mins :=
  repeat match goal with
         | |- context [inject_Z (Z.min ?k ?e)] =>
             let H := fresh "Hmin" in
             pose proof (inject_min_bounds k e ltac:(lia) ltac:(unfold len; lia)) as H;
             change (inject_Z k) with (k # 1) in H;
             revert H; generalize (inject_Z (Z.min k e)); intros ? H
         end.

Ltac split_branches :=
  repeat first
    [ match goal with
      | |- context [if ?c then _ else _] => destruct c
      end
    | match goal with
      | |- context [match ?o with Some _ => _ | None => _ end] => destruct o
      end ].

Lemma company_fit_bounds (ld : Lead) :
  0 <= _score_company_fit (LeadScoringEngine_init None) ld
  /\ _score_company_fit (LeadScoringEngine_init None) ld <= 25.
Proof.
  unfold _score_company_fit, _score_company_size, _score_geographic_fit.
  cbn [LeadScoringEngine_init model icp ScoringModel_default IdealCustomerProfile_default
       global_rules truthy_list negb set_global_rules company_size_min company_size_max
       target_industries existsb industry_multipliers assoc].
  cbv zeta. split_branches; lra.
Qed.

Lemma growth_indicators_bounds (now : datetime) (ld : Lead) :
  0 <= _score_growth_indicators (LeadScoringEngine_init None) now ld
  /\ _score_growth_indicators (LeadScoringEngine_init None) now ld <= 20.
Proof.
  unfold _score_growth_indicators. cbv zeta. bound_mins. split_branches; lra.
Qed.

Lemma technology_fit_bounds (ld : Lead) :
  0 <= _score_technology_fit (LeadScoringEngine_init None) ld
  /\ _score_technology_fit (LeadScoringEngine_init None) ld <= 15.
Proof.
  unfold _score_technology_fit. cbv zeta. bound_mins.
  repeat match goal with
         | |- context [if ?c then _ else _] => destruct c
         end; lra.
Qed.

Lemma engagement_signals_bounds (now : datetime) (ld : Lead) :
  0 <= _score_engagement_signals (LeadScoringEngine_init None) now ld
  /\ _score_engagement_signals (LeadScoringEngine_init None) now ld <= 15.
Proof.
  unfold _score_engagement_signals. cbv zeta. bound_mins. split_branches; lra.
Qed.

Lemma timing_signals_bounds (now : datetime) (ld : Lead) :
  0 <= _score_timing_signals (LeadScoringEngine_init None) now ld
  /\ _score_timing_signals (LeadScoringEngine_init None) now ld <= 15.
Proof.
  unfold _score_timing_signals. cbv zeta. bound_mins. split_branches; lra.
Qed.

Lemma buying_signals_bounds (ld : Lead) :
  0 <= _score_buying_signals (LeadScoringEngine_init None) ld
  /\ _score_buying_signals (LeadScoringEngine_init None) ld <= 10.
Proof.
  unfold _score_buying_signals. cbv zeta. bound_mins.
  repeat match goal with
         | |- context [if ?c then _ else _] => destruct c
         end; lra.
Qed.

Lemma score_categories_get (self : LeadScoringEngine) (now : datetime) (ld : Lead) :
  get (score_categories self now ld) COMPANY_FIT = _score_company_fit self ld
  /\ get (score_categories self now ld) GROWTH_INDICATORS = _score_growth_indicators self now ld
  /\ get (score_categories self now ld) TECHNOLOGY_FIT = _score_technology_fit self ld
  /\ get (score_categories self now ld) ENGAGEMENT_SIGNALS
     = _score_engagement_signals self now ld
  /\ get (score_categories self now ld) TIMING_SIGNALS = _score_timing_signals self now ld
  /\ get (score_categories self now ld) BUYING_SIGNALS = _score_buying_signals self ld.
Proof.
  unfold score_categories.
  repeat split; repeat (rewrite get_insert_ne by discriminate); apply get_insert_eq.
Qed.

(** With the default model the weighted total is at most
    25 * 0.25 + 20 * 0.20 + 15 * 0.15 * 3 + 10 * 0.10 = 18 and no default rule
    fires, so the base tier is always Unqualified. *)
Lemma default_engine_below_cold (now : datetime) (ld : Lead) (r : LeadScore) :
  in_range 0 100 (data_quality_score ld) ->
  score_lead (LeadScoringEngine_init None) now ld = Ok r ->
  total_score r <= 18
  /\ scoring.qualification_status r = "Unqualified"%string.
Proof.
  intros Hq Hr.
  apply score_lead_inv in Hr as (ra & Hra & ->).
  rewrite default_rules_never_fire in Hra. injection Hra as <-.
  unfold scored. cbn [total_score scoring.qualification_status fst snd].
  set (total := _calculate_weighted_score _ _ 0).
  assert (Htotal : 0 <= total /\ total <= 18).
  { subst total. unfold _calculate_weighted_score.
    destruct (score_categories_get (LeadScoringEngine_init None) now ld)
      as (-> & -> & -> & -> & -> & ->).
    pose proof (company_fit_bounds ld). pose proof (growth_indicators_bounds now ld).
    pose proof (technology_fit_bounds ld). pose proof (engagement_signals_bounds now ld).
    pose proof (timing_signals_bounds now ld). pose proof (buying_signals_bounds ld).
    cbn [LeadScoringEngine_init model weights ScoringModel_default global_rules truthy_list
         negb set_global_rules ScoringWeights_default company_fit growth_indicators
         technology_fit engagement_signals timing_signals scoring.buying_signals].
    lra. }
  assert (Hpen : 0 <= fst (apply_quality_penalty (LeadScoringEngine_init None) ld total)
                 /\ fst (apply_quality_penalty (LeadScoringEngine_init None) ld total) <= 18).
  { unfold apply_quality_penalty.
    destruct (data_quality_score ld) as [dq|]; cbn [in_range] in Hq; [|exact Htotal].
    destruct (_ && _); cbn [fst]; [|exact Htotal].
    split; [apply Q.le_max_l|]. apply Q.max_lub; [lra|]. qnorm. nra. }
  destruct Hpen as [Hp0 Hp18]. split.
  - eapply Qle_trans; [apply Q.le_min_r|]. apply Q.max_lub; [lra | exact Hp18].
  - destruct (determine_qualification_spec (LeadScoringEngine_init None)
                (fst (apply_quality_penalty (LeadScoringEngine_init None) ld total)))
      as (_ & _ & _ & Hun).
    rewrite Hun; [reflexivity | | | ];
      cbn [LeadScoringEngine_init model thresholds ScoringModel_default global_rules
           truthy_list negb set_global_rules QualificationThresholds_default
           hot_threshold warm_threshold cold_threshold]; lra.
Qed.

Lemma final_qualification_unqualified (self : LeadQualificationEngine) (ls : LeadScore)
    (ia : IntentAnalysis) (t : Z) (ld : Lead) :
  scoring.qualification_status ls = "Unqualified"%string ->
  _determine_final_qualification self ls ia t ld = Ok UNQUALIFIED.
Proof.
  intros Hbase. unfold _determine_final_qualification. rewrite Hbase.
  destruct (String.eqb (intent_level ia) "High"), (String.eqb (intent_level ia) "Medium"),
    (15 <=? t)%Z, (data_quality_score ld) as [dq|];
    try destruct (truthy_float (Some dq) && Qltb dq 40); reflexivity.
Qed.

(** Hence [LeadQualificationEngine()] qualifies as Unqualified every lead
    that it qualifies at all: no reconciliation rule starts from that
    tier. *)
Lemma default_qualification_is_unqualified (now : datetime) (ld : Lead)
    (q : Qualification) :
  in_range 0 100 (data_quality_score ld) ->
  qualify_lead LeadQualificationEngine_init now ld = Ok q ->
  final_qualification q = UNQUALIFIED.
Proof.
  intros Hrange Hq.
  apply qualify_lead_inv in Hq as (ls & final & priority & Hls & Hfinal & _ & ->).
  change (qualifier.scorer LeadQualificationEngine_init) with (LeadScoringEngine_init None)
    in Hls.
  destruct (default_engine_below_cold now ld ls Hrange Hls) as [_ Hbase].
  rewrite (final_qualification_unqualified _ ls _ _ ld Hbase) in Hfinal.
  injection Hfinal as <-. reflexivity.
Qed.

(** ** Reconciliation of the final tier *)

(** A lead whose base tier is Warm, whose intent level is High and whose
    data quality score is 30: the final tier is Hot, not Warm. *)
Lemma warm_high_poor_quality_is_hot :
  exists q,
    qualify_lead (industry_qualifier 70) sample_now eager_lead = Ok q
    /\ scoring.qualification_status (qualifier.lead_score q) = "Warm"%string
    /\ intent_level (intent_analysis q) = "High"%string
    /\ data_quality_score eager_lead = Some 30
    /\ final_qualification q = HOT
    /\ final_qualification q <> WARM.
Proof.
  eexists. split; [vm_compute; reflexivity|].
  repeat split; discriminate.
Qed.

(** The reconciliation of a Warm base tier, branch by branch. *)
Lemma final_qualification_of_warm (self : LeadQualificationEngine) (ls : LeadScore)
    (ia : IntentAnalysis) (t : Z) (ld : Lead) :
  scoring.qualification_status ls = "Warm"%string ->
  _determine_final_qualification self ls ia t ld
  = Ok (if String.eqb (intent_level ia) "High" then HOT
        else if (15 <=? t)%Z then HOT
        else match data_quality_score ld with
             | Some dq => if truthy_float (Some dq) && Qltb dq 40 then COLD else WARM
             | None => WARM
             end).
Proof.
  intros Hbase. unfold _determine_final_qualification. rewrite Hbase.
  destruct (String.eqb (intent_level ia) "High"), (String.eqb (intent_level ia) "Medium"),
    (15 <=? t)%Z, (data_quality_score ld) as [dq|];
    try destruct (truthy_float (Some dq) && Qltb dq 40); reflexivity.
Qed.

(** C1, as the code has it.  When the base tier from [score_lead] is Warm
    and the intent level is High, the final qualification of [qualify_lead]
    is Hot whatever the data quality score is (30 included): the upgrade
    returns at once and the data-quality rule is not consulted in that call.
    A timing score of 15 or more gives Hot in the same way.  The data-quality
    rule takes a Warm base tier down to Cold when, and only when, no upgrade
    applied: intent level not High, timing score below 15, and a data quality
    score below 40 that is not zero.  In every other case the final
    qualification stays Warm. *)
Theorem warm_high_intent_is_hot (self : LeadQualificationEngine) (now : datetime) (ld : Lead)
    (q : Qualification) :
  qualify_lead self now ld = Ok q ->
  scoring.qualification_status (qualifier.lead_score q) = "Warm"%string ->
  (intent_level (intent_analysis q) = "High"%string -> final_qualification q = HOT)
  /\ (intent_level (intent_analysis q) <> "High"%string ->
      (timing_score q < 15)%Z ->
      forall dq, data_quality_score ld = Some dq -> ~ dq == 0 -> dq < 40 ->
      final_qualification q = COLD)
  /\ ((15 <= timing_score q)%Z -> final_qualification q = HOT)
  /\ (final_qualification q = COLD ->
      intent_level (intent_analysis q) <> "High"%string
      /\ (timing_score q < 15)%Z
      /\ exists dq, data_quality_score ld = Some dq /\ ~ dq == 0 /\ dq < 40)
  /\ (final_qualification q = HOT ->
      intent_level (intent_analysis q) = "High"%string \/ (15 <= timing_score q)%Z)
  /\ (final_qualification q = HOT \/ final_qualification q = WARM
      \/ final_qualification q = COLD).
Proof.
  intros Hq Hbase.
  apply qualify_lead_inv in Hq as (ls & final & priority & _ & Hfinal & _ & ->).
  cbn [qualifier.lead_score intent_analysis final_qualification timing_score] in *.
  rewrite (final_qualification_of_warm self ls _ _ ld Hbase) in Hfinal.
  injection Hfinal as <-.
  destruct (String.eqb (intent_level (analyze_intent (intent_analyzer self) now ld)) "High")
    eqn:Hintent.
  { apply String.eqb_eq in Hintent.
    refine (conj _ (conj _ (conj _ (conj _ (conj _ _))))).
    - reflexivity.
    - intros Hne. contradiction.
    - reflexivity.
    - discriminate.
    - intros _. left. exact Hintent.
    - left. reflexivity. }
  apply String.eqb_neq in Hintent.
  destruct (15 <=? _calculate_timing_score self now ld)%Z eqn:Htiming.
  { apply Z.leb_le in Htiming.
    refine (conj _ (conj _ (conj _ (conj _ (conj _ _))))).
    - reflexivity.
    - intros _ Hlt. lia.
    - reflexivity.
    - discriminate.
    - intros _. right. exact Htiming.
    - left. reflexivity. }
  apply Z.leb_gt in Htiming.
  destruct (data_quality_score ld) as [dq|] eqn:Hdq.
  - match goal with
    | |- context [if ?c then COLD else WARM] =>
        change c with (truthy_float (Some dq) && Qltb dq 40);
        destruct (truthy_float (Some dq) && Qltb dq 40) eqn:Hpoor
    end.
    + apply andb_true_iff in Hpoor as [Hnz Hlt].
      apply truthy_float_Some in Hnz. apply Qltb_true in Hlt.
      refine (conj _ (conj _ (conj _ (conj _ (conj _ _))))).
      * intros Hhigh. contradiction.
      * reflexivity.
      * intros Hge. lia.
      * intros _. split; [exact Hintent|]. split; [exact Htiming|].
        exists dq. split; [reflexivity|]. split; [exact Hnz | exact Hlt].
      * discriminate.
      * right. right. reflexivity.
    + refine (conj _ (conj _ (conj _ (conj _ (conj _ _))))).
      * intros Hhigh. contradiction.
      * intros _ _ dq' Hdq' Hnz Hlt. injection Hdq' as <-.
        apply truthy_float_Some in Hnz. apply Qltb_true in Hlt.
        rewrite Hnz, Hlt in Hpoor. discriminate.
      * intros Hge. lia.
      * discriminate.
      * discriminate.
      * right. left. reflexivity.
  - refine (conj _ (conj _ (conj _ (conj _ (conj _ _))))).
    + intros Hhigh. contradiction.
    + intros _ _ dq' Hdq'. discriminate.
    + intros Hge. lia.
    + discriminate.
    + discriminate.
    + right. left. reflexivity.
Qed.

Lemma warm_high_intent_is_hot_witness :
  exists q,
    qualify_lead (industry_qualifier 70) sample_now eager_lead = Ok q
    /\ final_qualification q = HOT.
Proof.
  destruct (qualify_lead (industry_qualifier 70) sample_now eager_lead) as [q|e] eqn:Hq;
    [|vm_compute in Hq; discriminate].
  exists q. split; [reflexivity|].
  assert (Hwarm_high : scoring.qualification_status (qualifier.lead_score q) = "Warm"%string
                       /\ intent_level (intent_analysis q) = "High"%string).
  { pose proof Hq as Hrun. vm_compute in Hrun. injection Hrun as <-. split; reflexivity. }
  exact (proj1 (warm_high_intent_is_hot (industry_qualifier 70) sample_now eager_lead q Hq
                  (proj1 Hwarm_high)) (proj2 Hwarm_high)).
Defined.

(** ** Data-quality penalty *)

Lemma penalty_magnitude (total dq : Q) :
  0 <= dq -> dq <= 100 ->
  Qabs (total * (1 - dq / 100) * 0.2) <= 0.2 * Qabs total.
Proof.
  intros H0 H100. qnorm.
  apply (Qabs_case total); intros Ht;
    apply (Qabs_case (total * (1 - dq * (1 # 100)) * 0.2)); intros Hi; nra.
Qed.

(** Two leads that pass the range checks, penalty enabled, data quality
    score present.  With a score of 0.0 nothing is subtracted from the
    pre-penalty total 1.8, where the formula gives 0.36.  With a negative
    pre-penalty total (a rule of impact -50) the penalty is -4.82, which is
    more than 20% of -48.2. *)
Lemma quality_penalty_exceptions :
  (exists total r,
     apply_data_quality_penalty (model (LeadScoringEngine_init None)) = true
     /\ data_quality_score (sample_lead (Some 0) [] []) = Some 0
     /\ pre_penalty_total (LeadScoringEngine_init None) sample_now (sample_lead (Some 0) [] []) = Ok total
     /\ score_lead (LeadScoringEngine_init None) sample_now (sample_lead (Some 0) [] []) = Ok r
     /\ total == 1.8
     /\ total * (1 - 0 / 100) * 0.2 == 0.36
     /\ data_quality_impact r == 0
     /\ total_score r == 1.8)
  /\ (exists total r,
        apply_data_quality_penalty (model (industry_engine (-50))) = true
        /\ data_quality_score (sample_lead (Some 50) [] []) = Some 50
        /\ pre_penalty_total (industry_engine (-50)) sample_now (sample_lead (Some 50) [] [])
           = Ok total
        /\ score_lead (industry_engine (-50)) sample_now (sample_lead (Some 50) [] []) = Ok r
        /\ total == -48.2
        /\ data_quality_impact r == -4.82
        /\ ~ data_quality_impact r <= 0.2 * total).
Proof.
  split.
  - do 2 eexists. split; [reflexivity|]. split; [reflexivity|].
    split; [vm_compute; reflexivity|]. split; [vm_compute; reflexivity|].
    repeat split; vm_compute; reflexivity.
  - do 2 eexists. split; [reflexivity|]. split; [reflexivity|].
    split; [vm_compute; reflexivity|]. split; [vm_compute; reflexivity|].
    split; [vm_compute; reflexivity|]. split; [vm_compute; reflexivity|].
    vm_compute. intros H. apply H. reflexivity.
Qed.

(** C3, as the code has it.  With the penalty enabled and a data quality
    score that is present and not zero, [score_lead] takes
    [total * (1 - data_quality_score/100) * 0.2] off the pre-penalty total
    and floors the difference at 0.  The magnitude of that penalty is at most
    20% of the magnitude of the pre-penalty total; for a pre-penalty total
    that is not negative the penalty lies between 0 and 20% of it; a data
    quality score of 100 gives a penalty of zero. *)
Theorem quality_penalty_amount (self : LeadScoringEngine) (now : datetime) (ld : Lead)
    (dq total : Q) :
  Lead_valid ld ->
  apply_data_quality_penalty (model self) = true ->
  data_quality_score ld = Some dq ->
  ~ dq == 0 ->
  pre_penalty_total self now ld = Ok total ->
  exists r,
    score_lead self now ld = Ok r
    /\ data_quality_impact r = total * (1 - dq / 100) * 0.2
    /\ total_score r = Qmin 100 (Qmax 0 (Qmax 0 (total - data_quality_impact r)))
    /\ Qabs (data_quality_impact r) <= 0.2 * Qabs total
    /\ (0 <= total -> 0 <= data_quality_impact r /\ data_quality_impact r <= 0.2 * total)
    /\ (dq == 100 -> data_quality_impact r == 0).
Proof.
  intros Hv Hpen Hdq Hnz Htotal.
  assert (Hrange : 0 <= dq /\ dq <= 100).
  { destruct Hv as (_ & _ & Hq & _). rewrite Hdq in Hq. exact Hq. }
  destruct Hrange as [H0 H100].
  unfold pre_penalty_total in Htotal.
  assert (Hn : naive_dates ld).
  { destruct (naive_dates_dec ld) as [Hn|Hn]; [exact Hn|].
    rewrite (subtract_dates_aware now ld Hn) in Htotal. discriminate. }
  rewrite (subtract_dates_naive now ld Hn) in Htotal.
  cbn [mbind result_bind Py.bind] in Htotal.
  destruct (_apply_scoring_rules self now ld []) as [ra|e] eqn:Hra;
    cbn [mbind result_bind Py.bind] in Htotal; [|discriminate].
  injection Htotal as Htotal.
  exists (scored self now ld ra).
  split; [apply score_lead_returns; assumption|].
  unfold scored. cbn [data_quality_impact total_score]. rewrite Htotal.
  unfold apply_quality_penalty. rewrite Hdq, Hpen.
  apply truthy_float_Some in Hnz. rewrite Hnz. cbn [andb fst snd].
  split; [reflexivity|]. split; [reflexivity|].
  split; [apply penalty_magnitude; assumption|].
  split.
  - intros Ht. qnorm. split; nra.
  - intros Hfull. rewrite Hfull. qnorm. ring.
Qed.

Lemma quality_penalty_amount_witness :
  exists r,
    score_lead (LeadScoringEngine_init None) sample_now (sample_lead (Some 30) [] []) = Ok r
    /\ data_quality_impact r == 0.252
    /\ total_score r == 1.548.
Proof.
  edestruct (quality_penalty_amount (LeadScoringEngine_init None) sample_now (sample_lead (Some 30) [] [])
               30) as (r & Hr & Himpact & Htotal & _).
  - vm_compute. intuition discriminate.
  - reflexivity.
  - reflexivity.
  - vm_compute. discriminate.
  - vm_compute. reflexivity.
  - exists r. rewrite Htotal, Himpact. split; [exact Hr|].
    split; vm_compute; reflexivity.
Defined.

(** ** Weights that do not sum to one *)

(** C7 at the weights 1.0 six times (sum 6).  Each weight passes the range
    check of its field and [validate_weights] raises on them, but building
    the engine does not call it: the engine is built, keeps the weights and
    scores with them (company fit 7.2 counts in full instead of a quarter). *)
Theorem unbalanced_weights_are_accepted :
  ScoringWeights_valid heavy_weights
  /\ validate_weights heavy_weights = Raise ValueError
  /\ weights (model (LeadScoringEngine_init (Some heavy_model))) = heavy_weights
  /\ (exists r,
        score_lead (LeadScoringEngine_init (Some heavy_model)) sample_now (sample_lead None [] []) = Ok r
        /\ total_score r == 7.2)
  /\ (exists r,
        score_lead (LeadScoringEngine_init None) sample_now (sample_lead None [] []) = Ok r
        /\ total_score r == 1.8).
Proof.
  split; [vm_compute; intuition discriminate|].
  split; [reflexivity|]. split; [reflexivity|].
  split; eexists; (split; [vm_compute; reflexivity|]); vm_compute; reflexivity.
Qed.

(** * Further properties *)

(** ** Caps of the category scores *)

Lemma growth_indicators_cap (self : LeadScoringEngine) (now : datetime) (ld : Lead) :
  0 <= _score_growth_indicators self now ld /\ _score_growth_indicators self now ld <= 20.
Proof. unfold _score_growth_indicators. cbv zeta. bound_mins. split_branches; lra. Qed.

Lemma technology_fit_cap (self : LeadScoringEngine) (ld : Lead) :
  0 <= _score_technology_fit self ld /\ _score_technology_fit self ld <= 15.
Proof.
  unfold _score_technology_fit. cbv zeta. bound_mins.
  repeat match goal with
         | |- context [if ?c then _ else _] => destruct c
         end; lra.
Qed.

Lemma engagement_signals_cap (self : LeadScoringEngine) (now : datetime) (ld : Lead) :
  0 <= _score_engagement_signals self now ld /\ _score_engagement_signals self now ld <= 15.
Proof. unfold _score_engagement_signals. cbv zeta. bound_mins. split_branches; lra. Qed.

Lemma timing_signals_cap (self : LeadScoringEngine) (now : datetime) (ld : Lead) :
  0 <= _score_timing_signals self now ld /\ _score_timing_signals self now ld <= 15.
Proof. unfold _score_timing_signals. cbv zeta. bound_mins. split_branches; lra. Qed.

Lemma buying_signals_cap (self : LeadScoringEngine) (ld : Lead) :
  0 <= _score_buying_signals self ld /\ _score_buying_signals self ld <= 10.
Proof.
  unfold _score_buying_signals. cbv zeta. bound_mins.
  repeat match goal with
         | |- context [if ?c then _ else _] => destruct c
         end; lra.
Qed.

Lemma partial_credit_bounds (n size_min : Z) :
  (0 <= n)%Z -> (n < size_min)%Z ->
  0 <= 8 * (inject_Z n / inject_Z size_min) /\ 8 * (inject_Z n / inject_Z size_min) < 8.
Proof.
  intros Hn Hlt.
  assert (Hmin : 0 < inject_Z size_min).
  { change 0 with (inject_Z 0). rewrite <- Zlt_Qlt. lia. }
  assert (Hn' : 0 <= inject_Z n).
  { change 0 with (inject_Z 0). rewrite <- Zle_Qle. lia. }
  assert (Hlt' : inject_Z n < inject_Z size_min) by (rewrite <- Zlt_Qlt; lia).
  assert (Hratio : 0 <= inject_Z n / inject_Z size_min /\ inject_Z n / inject_Z size_min < 1).
  { split.
    - apply Qle_shift_div_l; [exact Hmin | lra].
    - apply Qlt_shift_div_r; [exact Hmin | lra]. }
  lra.
Qed.

Lemma company_fit_cap (m : ScoringModel) (ld : Lead) :
  sane_sizes m ld ->
  0 <= _score_company_fit (LeadScoringEngine_init (Some m)) ld
  /\ _score_company_fit (LeadScoringEngine_init (Some m)) ld <= 25.
Proof.
  intros [Hmin Hcount].
  unfold _score_company_fit.
  assert (Hsize : forall n, employee_count (metrics ld) = Some n ->
            0 <= _score_company_size (LeadScoringEngine_init (Some m)) n
            /\ _score_company_size (LeadScoringEngine_init (Some m)) n <= 8).
  { intros n Hn. rewrite Hn in Hcount. unfold _score_company_size.
    replace (icp (model (LeadScoringEngine_init (Some m)))) with (icp m)
      by (unfold LeadScoringEngine_init; destruct (negb _); reflexivity).
    cbv zeta.
    destruct (company_size_min (icp m)) as [size_min|];
      [destruct (company_size_max (icp m)) as [size_max|]|].
    2,3: split_branches; lra.
    destruct (negb (size_min =? 0)%Z && negb (size_max =? 0)%Z).
    2: split_branches; lra.
    destruct ((size_min <=? n)%Z && (n <=? size_max)%Z); [lra|].
    destruct (n <? size_min)%Z eqn:Hlt; [|lra].
    apply Z.ltb_lt in Hlt.
    pose proof (partial_credit_bounds n size_min Hcount Hlt). lra. }
  destruct (employee_count (metrics ld)) as [n|].
  - specialize (Hsize n eq_refl).
    revert Hsize. generalize (_score_company_size (LeadScoringEngine_init (Some m)) n).
    intros size_points Hsize.
    unfold _score_geographic_fit.
    replace (industry_multipliers (LeadScoringEngine_init (Some m)))
      with (industry_multipliers (LeadScoringEngine_init None)) by reflexivity.
    cbn [LeadScoringEngine_init industry_multipliers assoc].
    cbv zeta. split_branches; lra.
  - unfold _score_geographic_fit.
    replace (industry_multipliers (LeadScoringEngine_init (Some m)))
      with (industry_multipliers (LeadScoringEngine_init None)) by reflexivity.
    cbn [LeadScoringEngine_init industry_multipliers assoc].
    cbv zeta. split_branches; lra.
Qed.

(** X1. Every category score stays within the cap of its category: growth
    indicators in [0, 20], technology fit, engagement signals and timing
    signals in [0, 15] and buying signals in [0, 10] for every engine and
    every lead; company fit in [0, 25] for the engine of a model [m],
    provided the ICP's lower size bound is positive and the lead's employee
    count is not negative (the partial credit [8 * count / size_min] leaves
    the range otherwise). *)
Theorem category_scores_within_caps (m : ScoringModel) (self : LeadScoringEngine)
    (now : datetime) (ld : Lead) :
  (sane_sizes m ld ->
   0 <= _score_company_fit (LeadScoringEngine_init (Some m)) ld
   /\ _score_company_fit (LeadScoringEngine_init (Some m)) ld <= 25)
  /\ (0 <= _score_growth_indicators self now ld /\ _score_growth_indicators self now ld <= 20)
  /\ (0 <= _score_technology_fit self ld /\ _score_technology_fit self ld <= 15)
  /\ (0 <= _score_engagement_signals self now ld
      /\ _score_engagement_signals self now ld <= 15)
  /\ (0 <= _score_timing_signals self now ld /\ _score_timing_signals self now ld <= 15)
  /\ (0 <= _score_buying_signals self ld /\ _score_buying_signals self ld <= 10).
Proof.
  split; [apply company_fit_cap|].
  split; [apply growth_indicators_cap|].
  split; [apply technology_fit_cap|].
  split; [apply engagement_signals_cap|].
  split; [apply timing_signals_cap | apply buying_signals_cap].
Qed.

(** A company of 20 employees against an ICP of 50 to 500: partial credit. *)
Lemma category_scores_within_caps_witness :
  0 <= _score_company_fit (LeadScoringEngine_init (Some targeting_model)) (sized_lead 20)
  /\ _score_company_fit (LeadScoringEngine_init (Some targeting_model)) (sized_lead 20) <= 25.
Proof.
  apply (category_scores_within_caps targeting_model (LeadScoringEngine_init None)
           sample_now (sized_lead 20)).
  unfold sane_sizes. cbn. lia.
Defined.

(** ** Substrings *)

Lemma append_cons (c : ascii) (a s : string) :
  (String c a ++ s = String c (a ++ s))%string.
Proof. reflexivity. Qed.

Lemma append_nil (s : string) : (EmptyString ++ s = s)%string.
Proof. reflexivity. Qed.

Lemma prefix_spec (a b : string) :
  String.prefix a b = true <-> exists s, b = (a ++ s)%string.
Proof.
  revert b. induction a as [|c a IH]; intros b.
  - destruct b; cbn [String.prefix];
      (split; [intros _; eexists; rewrite append_nil; reflexivity | reflexivity]).
  - destruct b as [|d b]; cbn [String.prefix].
    + split; [discriminate | intros [s Hs]; rewrite append_cons in Hs; discriminate].
    + destruct (Ascii.ascii_dec c d) as [->|Hne].
      * rewrite IH. split; intros [s Hs]; exists s; rewrite append_cons in *.
        -- rewrite Hs. reflexivity.
        -- injection Hs as ->. reflexivity.
      * split; [discriminate|].
        intros [s Hs]. rewrite append_cons in Hs. injection Hs as -> _. contradiction.
Qed.

Lemma str_in_spec (a b : string) :
  str_in a b = true <-> exists p s, b = (p ++ a ++ s)%string.
Proof.
  induction b as [|d b IH].
  - cbn [str_in]. rewrite orb_false_r, prefix_spec. split.
    + intros [s Hs]. exists EmptyString, s. rewrite append_nil. exact Hs.
    + intros (p & s & Hs). destruct p.
      * exists s. rewrite append_nil in Hs. exact Hs.
      * rewrite append_cons in Hs. discriminate.
  - cbn [str_in]. rewrite orb_true_iff, prefix_spec, IH. split.
    + intros [[s Hs] | (p & s & Hs)].
      * exists EmptyString, s. rewrite append_nil. exact Hs.
      * exists (String d p), s. rewrite append_cons, Hs. reflexivity.
    + intros (p & s & Hs). destruct p as [|e p].
      * left. exists s. rewrite append_nil in Hs. exact Hs.
      * right. rewrite append_cons in Hs. injection Hs as -> ->. exists p, s. reflexivity.
Qed.

Lemma str_app_assoc (a b c : string) : ((a ++ b) ++ c = a ++ b ++ c)%string.
Proof.
  induction a as [|x a IH]; [rewrite !append_nil; reflexivity|].
  rewrite !append_cons, IH. reflexivity.
Qed.

(** [a in b] and [b in c] give [a in c]. *)
Lemma str_in_trans (a b c : string) :
  str_in a b = true -> str_in b c = true -> str_in a c = true.
Proof.
  rewrite !str_in_spec. intros (p & s & ->) (p' & s' & ->).
  exists (p' ++ p)%string, (s ++ s')%string.
  rewrite !str_app_assoc. reflexivity.
Qed.

Lemma any_in_intro (k : string) (keywords : list string) (text : string) :
  In k keywords -> str_in k text = true -> any_in keywords text = true.
Proof.
  intros Hin Hk. unfold any_in. apply existsb_exists. exists k. split; assumption.
Qed.

Lemma any_in_elim (keywords : list string) (text : string) :
  any_in keywords text = true -> exists k, In k keywords /\ str_in k text = true.
Proof. unfold any_in. apply existsb_exists. Qed.

(** ** Geographic fit *)

(** X2. [_score_geographic_fit] returns 4, 3, 2 or 1, and a location that
    mentions Australia gets at least 3, never the 2 of its own branch: the
    keyword [us] of the first branch is a substring of [australia], so the
    first branch (or the second) takes it. *)
Theorem geographic_fit_values (self : LeadScoringEngine) (location : string) :
  (_score_geographic_fit self location == 4 \/ _score_geographic_fit self location == 3
   \/ _score_geographic_fit self location == 2 \/ _score_geographic_fit self location == 1)
  /\ (str_in "australia" (lower location) = true ->
      ~ _score_geographic_fit self location == 2
      /\ 3 <= _score_geographic_fit self location).
Proof.
  unfold _score_geographic_fit. cbv zeta. split.
  - repeat match goal with
           | |- context [if ?c then _ else _] => destruct c
           end; [left | right; left | right; right; left | right; right; right]; reflexivity.
  - intros Haus.
    assert (Hus : any_in ["usa"; "us"; "united states"; "canada"]%string (lower location) = true).
    { apply (any_in_intro "us"); [cbn; tauto|].
      apply (str_in_trans _ "australia"); [reflexivity | exact Haus]. }
    rewrite Hus. clear Hus. destruct (any_in _ (lower location)); split; lra.
Qed.

Lemma geographic_fit_values_witness :
  3 <= _score_geographic_fit (LeadScoringEngine_init None) "Sydney, Australia".
Proof.
  apply (geographic_fit_values (LeadScoringEngine_init None) "Sydney, Australia").
  vm_compute. reflexivity.
Defined.

(** ** The rule loop *)

Lemma apply_rules_from_returns (self : LeadScoringEngine) (now : datetime) (ld : Lead)
    (rules : list ScoringRule) (adjustment : Q) (applied : list string) :
  Forall (rule_returns self now ld) rules ->
  apply_rules_from self now ld rules adjustment applied
  = Ok (fold_left add_impact (matched_rules self now ld rules) adjustment,
        applied ++ map scoring.name (matched_rules self now ld rules)).
Proof.
  intros Hall. revert adjustment applied.
  induction Hall as [|rule rules [matches Hrule] _ IH]; intros adjustment applied.
  - cbn. rewrite app_nil_r. reflexivity.
  - cbn [apply_rules_from]. unfold matched_rules, fires. cbn [List.filter].
    rewrite Hrule. cbn [mbind result_bind Py.bind].
    destruct matches.
    + rewrite IH. cbn [fold_left map]. rewrite <- app_assoc. reflexivity.
    + apply IH.
Qed.

Lemma apply_rules_from_inv (self : LeadScoringEngine) (now : datetime) (ld : Lead)
    (rules : list ScoringRule) (adjustment : Q) (applied : list string)
    (r : Q * list string) :
  apply_rules_from self now ld rules adjustment applied = Ok r ->
  Forall (rule_returns self now ld) rules.
Proof.
  revert adjustment applied.
  induction rules as [|rule rules IH]; intros adjustment applied H; [constructor|].
  cbn [apply_rules_from] in H.
  destruct (_rule_matches self now ld rule) as [matches|e] eqn:Hrule;
    cbn [mbind result_bind Py.bind] in H; [|discriminate].
  constructor; [exists matches; exact Hrule|].
  destruct matches; exact (IH _ _ H).
Qed.

(** X3. The rule loop returns exactly when no rule of the model raises, and
    then the adjustment is the sum of [score_impact * weight] over the rules
    that match, taken in the order of the rule list, and the names of those
    rules are appended to [applied_rules] in that order.  One rule that
    raises loses the adjustments of all the others. *)
Theorem applied_rules_are_the_matching_rules (self : LeadScoringEngine) (now : datetime)
    (ld : Lead) (applied : list string) (r : Q * list string) :
  _apply_scoring_rules self now ld applied = Ok r
  <-> Forall (rule_returns self now ld) (global_rules (model self))
      /\ r = (fold_left add_impact
                (matched_rules self now ld (global_rules (model self))) 0,
              applied
              ++ map scoring.name (matched_rules self now ld (global_rules (model self)))).
Proof.
  unfold _apply_scoring_rules. split.
  - intros H. pose proof (apply_rules_from_inv _ _ _ _ _ _ _ H) as Hall.
    split; [exact Hall|].
    rewrite (apply_rules_from_returns _ _ _ _ _ _ Hall) in H. injection H as <-. reflexivity.
  - intros [Hall ->]. apply apply_rules_from_returns. exact Hall.
Qed.

Lemma applied_rules_are_the_matching_rules_witness :
  matched_rules three_rule_engine sample_now (sample_lead None [] [])
    (global_rules (model three_rule_engine))
  = [industry_rule 5; industry_rule 7]
  /\ exists r,
       _apply_scoring_rules three_rule_engine sample_now (sample_lead None [] []) [] = Ok r
       /\ fst r == 12
       /\ snd r = ["Technology industry"; "Technology industry"]%string.
Proof.
  split; [vm_compute; reflexivity|].
  destruct (_apply_scoring_rules three_rule_engine sample_now (sample_lead None [] []) [])
    as [r|e] eqn:H; [|vm_compute in H; discriminate].
  exists r. split; [reflexivity|].
  apply (applied_rules_are_the_matching_rules three_rule_engine sample_now
           (sample_lead None [] []) [] r) in H as [_ ->].
  split; vm_compute; reflexivity.
Defined.

Lemma no_applied_rule_no_adjustment (self : LeadScoringEngine) (now : datetime) (ld : Lead)
    (adjustment : Q) :
  _apply_scoring_rules self now ld [] = Ok (adjustment, []) -> adjustment = 0.
Proof.
  intros H. unfold _apply_scoring_rules in H.
  pose proof (apply_rules_from_inv _ _ _ _ _ _ _ H) as Hall.
  rewrite (apply_rules_from_returns _ _ _ _ _ _ Hall) in H.
  injection H as Hadj Hnames. cbn [app] in Hnames.
  apply map_eq_nil in Hnames. rewrite Hnames in Hadj. symmetry. exact Hadj.
Qed.

(** ** The default rules *)

(** X4. An engine built on a model without rules of its own runs the eight
    default rules, and of these only [Target Industry Match] is ever
    applied: a returned score lists that rule when the lead's industry is
    one of the ICP's target industries, letter for letter, and no rule
    otherwise.  The other seven rules name a field that the lead does not
    have at its top level or an operator that the matcher does not know. *)
Theorem only_target_industry_rule_fires (m : ScoringModel) (now : datetime) (ld : Lead)
    (r : LeadScore) :
  global_rules m = [] ->
  score_lead (LeadScoringEngine_init (Some m)) now ld = Ok r ->
  length (global_rules (model (LeadScoringEngine_init (Some m)))) = 8%nat
  /\ applied_rules r
     = (if industry_targeted m ld then ["Target Industry Match"%string] else []).
Proof.
  intros Hrules Hr. split.
  { unfold LeadScoringEngine_init. rewrite Hrules. reflexivity. }
  apply score_lead_inv in Hr as (ra & Hra & ->).
  rewrite (default_rules_result m now ld Hrules) in Hra.
  unfold scored. cbn [applied_rules].
  destruct (industry_targeted m ld); injection Hra as <-; reflexivity.
Qed.

Lemma only_target_industry_rule_fires_witness :
  exists r,
    score_lead (LeadScoringEngine_init (Some targeting_model)) sample_now
      (sample_lead None [] []) = Ok r
    /\ applied_rules r = ["Target Industry Match"%string].
Proof.
  destruct (score_lead (LeadScoringEngine_init (Some targeting_model)) sample_now
              (sample_lead None [] [])) as [r|e] eqn:H; [|vm_compute in H; discriminate].
  exists r. split; [reflexivity|].
  exact (proj2 (only_target_industry_rule_fires targeting_model sample_now
                  (sample_lead None [] []) r eq_refl H)).
Defined.

(** ** The data-quality step *)

Lemma penalised_between (self : LeadScoringEngine) (ld : Lead) (total : Q) :
  in_range 0 100 (data_quality_score ld) ->
  0 <= total ->
  0.8 * total <= fst (apply_quality_penalty self ld total)
  /\ fst (apply_quality_penalty self ld total) <= total.
Proof.
  intros Hq Ht. unfold apply_quality_penalty.
  destruct (data_quality_score ld) as [dq|]; cbn [in_range] in Hq; [|cbn [fst]; lra].
  destruct (_ && _); cbn [fst]; [|lra].
  destruct (Q.max_spec 0 (total - total * (1 - dq / 100) * 0.2)) as [[Hlt ->] | [Hle ->]];
    qnorm; split; nra.
Qed.

(** X5. The data-quality step is monotone in the data quality and takes at
    most a fifth: of two leads with non-zero data-quality scores the one
    with the better score keeps at least as much of the same total, and
    both keep between 80 % and all of it. *)
Theorem quality_penalty_monotone (self : LeadScoringEngine) (ld1 ld2 : Lead)
    (dq1 dq2 total : Q) :
  apply_data_quality_penalty (model self) = true ->
  data_quality_score ld1 = Some dq1 ->
  data_quality_score ld2 = Some dq2 ->
  0 < dq1 -> dq1 <= dq2 -> dq2 <= 100 ->
  0 <= total ->
  0.8 * total <= fst (apply_quality_penalty self ld1 total)
  /\ fst (apply_quality_penalty self ld1 total) <= fst (apply_quality_penalty self ld2 total)
  /\ fst (apply_quality_penalty self ld2 total) <= total.
Proof.
  intros Hpen H1 H2 Hpos Hle H100 Ht.
  assert (Hr1 : in_range 0 100 (data_quality_score ld1)) by (rewrite H1; cbn; lra).
  assert (Hr2 : in_range 0 100 (data_quality_score ld2)) by (rewrite H2; cbn; lra).
  split; [apply penalised_between; assumption|].
  split; [|apply penalised_between; assumption].
  unfold apply_quality_penalty. rewrite H1, H2, Hpen.
  assert (Hn1 : truthy_float (Some dq1) = true) by (apply truthy_float_Some; lra).
  assert (Hn2 : truthy_float (Some dq2) = true) by (apply truthy_float_Some; lra).
  rewrite Hn1, Hn2. cbn [andb fst].
  apply Q.max_le_compat_l. qnorm. nra.
Qed.

Lemma quality_penalty_monotone_witness :
  fst (apply_quality_penalty (LeadScoringEngine_init None) (sample_lead (Some 30) [] []) 50)
  <= fst (apply_quality_penalty (LeadScoringEngine_init None) (sample_lead (Some 90) [] []) 50).
Proof.
  apply (quality_penalty_monotone (LeadScoringEngine_init None)
           (sample_lead (Some 30) [] []) (sample_lead (Some 90) [] []) 30 90 50);
    try reflexivity; vm_compute; discriminate.
Defined.

(** ** Weights that pass [validate_weights] *)

Lemma validated_weights_sum (w : ScoringWeights) :
  validate_weights w = Ok tt ->
  company_fit w + growth_indicators w + technology_fit w + engagement_signals w
  + timing_signals w + scoring.buying_signals w <= 1.01.
Proof.
  unfold validate_weights, py_sum. cbn [fold_left].
  destruct (Qgtb _ _) eqn:Hgt; [discriminate|]. intros _.
  assert (Hle : Qabs (0 + company_fit w + growth_indicators w + technology_fit w
                      + engagement_signals w + timing_signals w + scoring.buying_signals w
                      - 1.0) <= 0.01).
  { unfold Qgtb in Hgt. apply negb_false_iff in Hgt. apply Qle_bool_iff in Hgt. exact Hgt. }
  apply Qabs_Qle_condition in Hle. lra.
Qed.

(** The weighted total between the rule adjustment alone and the caps of
    the categories, each times its weight, on top of it. *)
Lemma weighted_score_caps (m : ScoringModel) (now : datetime) (ld : Lead)
    (rule_adjustments : Q) :
  ScoringWeights_valid (weights m) ->
  sane_sizes m ld ->
  rule_adjustments
  <= _calculate_weighted_score (LeadScoringEngine_init (Some m))
       (score_categories (LeadScoringEngine_init (Some m)) now ld) rule_adjustments
  /\ _calculate_weighted_score (LeadScoringEngine_init (Some m))
       (score_categories (LeadScoringEngine_init (Some m)) now ld) rule_adjustments
     <= 25 * company_fit (weights m) + 20 * growth_indicators (weights m)
        + 15 * technology_fit (weights m) + 15 * engagement_signals (weights m)
        + 15 * timing_signals (weights m) + 10 * scoring.buying_signals (weights m)
        + rule_adjustments.
Proof.
  intros ([H1 _] & [H2 _] & [H3 _] & [H4 _] & [H5 _] & [H6 _]) Hsane.
  unfold _calculate_weighted_score.
  destruct (score_categories_get (LeadScoringEngine_init (Some m)) now ld)
    as (-> & -> & -> & -> & -> & ->).
  pose proof (company_fit_cap m ld Hsane) as [Hc0 Hc1].
  pose proof (growth_indicators_cap (LeadScoringEngine_init (Some m)) now ld) as [Hg0 Hg1].
  pose proof (technology_fit_cap (LeadScoringEngine_init (Some m)) ld) as [Ht0 Ht1].
  pose proof (engagement_signals_cap (LeadScoringEngine_init (Some m)) now ld) as [He0 He1].
  pose proof (timing_signals_cap (LeadScoringEngine_init (Some m)) now ld) as [Hi0 Hi1].
  pose proof (buying_signals_cap (LeadScoringEngine_init (Some m)) ld) as [Hb0 Hb1].
  replace (weights (model (LeadScoringEngine_init (Some m)))) with (weights m)
    by (unfold LeadScoringEngine_init; destruct (negb _); reflexivity).
  revert Hc0 Hc1 Hg0 Hg1 Ht0 Ht1 He0 He1 Hi0 Hi1 Hb0 Hb1.
  generalize (_score_company_fit (LeadScoringEngine_init (Some m)) ld)
    (_score_growth_indicators (LeadScoringEngine_init (Some m)) now ld)
    (_score_technology_fit (LeadScoringEngine_init (Some m)) ld)
    (_score_engagement_signals (LeadScoringEngine_init (Some m)) now ld)
    (_score_timing_signals (LeadScoringEngine_init (Some m)) now ld)
    (_score_buying_signals (LeadScoringEngine_init (Some m)) ld).
  revert H1 H2 H3 H4 H5 H6.
  generalize (company_fit (weights m)) (growth_indicators (weights m))
    (technology_fit (weights m)) (engagement_signals (weights m))
    (timing_signals (weights m)) (scoring.buying_signals (weights m)).
  intros w1 w2 w3 w4 w5 w6 H1 H2 H3 H4 H5 H6 c g t e i b.
  intros. split; nra.
Qed.

Lemma init_model_fields (m : ScoringModel) :
  weights (model (LeadScoringEngine_init (Some m))) = weights m
  /\ thresholds (model (LeadScoringEngine_init (Some m))) = thresholds m.
Proof. unfold LeadScoringEngine_init. destruct (negb _); split; reflexivity. Qed.

(** X6. With weights that pass [validate_weights] (a sum within 0.01 of 1)
    the category scores alone carry a lead to 25.25 points at most: a score
    that lists no applied rule is at most 25.25, and with the default
    thresholds its tier is Unqualified.  Only rule adjustments can lift a
    lead to Cold or above. *)
Theorem validated_weights_need_rules (m : ScoringModel) (now : datetime) (ld : Lead)
    (r : LeadScore) :
  ScoringWeights_valid (weights m) ->
  validate_weights (weights m) = Ok tt ->
  sane_sizes m ld ->
  in_range 0 100 (data_quality_score ld) ->
  score_lead (LeadScoringEngine_init (Some m)) now ld = Ok r ->
  applied_rules r = [] ->
  total_score r <= 25.25
  /\ (thresholds m = QualificationThresholds_default ->
      scoring.qualification_status r = "Unqualified"%string).
Proof.
  intros Hvalid Hsum Hsane Hq Hr Hnone.
  apply score_lead_inv in Hr as ([adjustment applied] & Hra & ->).
  cbn [scored applied_rules snd fst total_score scoring.qualification_status] in *.
  subst applied.
  pose proof (no_applied_rule_no_adjustment _ _ _ _ Hra) as ->.
  destruct (weighted_score_caps m now ld 0 Hvalid Hsane) as [H0 Hcap].
  pose proof (validated_weights_sum _ Hsum) as Hone.
  destruct Hvalid as ([H1 _] & [H2 _] & [H3 _] & [H4 _] & [H5 _] & [H6 _]).
  set (self := LeadScoringEngine_init (Some m)) in *.
  set (total := _calculate_weighted_score self (score_categories self now ld) 0) in *.
  assert (H25 : total <= 25.25) by lra.
  destruct (penalised_between self ld total Hq H0) as [Hlow Hhigh].
  split.
  - eapply Qle_trans; [apply Q.le_min_r|]. apply Q.max_lub; lra.
  - intros Hth.
    destruct (determine_qualification_spec self (fst (apply_quality_penalty self ld total)))
      as (_ & _ & _ & Hun).
    assert (Hself : thresholds (model self) = QualificationThresholds_default).
    { subst self. rewrite (proj2 (init_model_fields m)). exact Hth. }
    rewrite Hun; [reflexivity | | | ]; rewrite Hself;
      cbn [QualificationThresholds_default hot_threshold warm_threshold cold_threshold]; lra.
Qed.

Lemma validated_weights_need_rules_witness :
  exists r,
    score_lead (LeadScoringEngine_init (Some ScoringModel_default)) sample_now
      (sample_lead (Some 90) [] []) = Ok r
    /\ total_score r <= 25.25.
Proof.
  destruct (score_lead (LeadScoringEngine_init (Some ScoringModel_default)) sample_now
              (sample_lead (Some 90) [] [])) as [r|e] eqn:H; [|vm_compute in H; discriminate].
  exists r. split; [reflexivity|].
  assert (Hnone : applied_rules r = []).
  { vm_compute in H. injection H as <-. reflexivity. }
  apply (validated_weights_need_rules ScoringModel_default sample_now
           (sample_lead (Some 90) [] []) r); try assumption.
  - repeat split; vm_compute; discriminate.
  - vm_compute. reflexivity.
  - unfold sane_sizes. cbn. tauto.
  - cbn. lra.
Defined.

(** ** Default weights, thresholds and rules *)

(** X7. Whatever ideal customer profile a model holds, with the default
    weights, the default thresholds and no rules of its own every score that
    its engine returns is at most 38 and has the tier Unqualified: the
    categories give at most
    25 * 0.25 + 20 * 0.20 + 15 * 0.15 * 3 + 10 * 0.10 = 18 and the one default
    rule that can fire adds 20, which stays below the Cold threshold 40. *)
Theorem default_weights_never_qualify (m : ScoringModel) (now : datetime) (ld : Lead)
    (r : LeadScore) :
  weights m = ScoringWeights_default ->
  thresholds m = QualificationThresholds_default ->
  global_rules m = [] ->
  sane_sizes m ld ->
  in_range 0 100 (data_quality_score ld) ->
  score_lead (LeadScoringEngine_init (Some m)) now ld = Ok r ->
  total_score r <= 38
  /\ scoring.qualification_status r = "Unqualified"%string.
Proof.
  intros Hw Hth Hrules Hsane Hq Hr.
  apply score_lead_inv in Hr as (ra & Hok & ->).
  rewrite (default_rules_result m now ld Hrules) in Hok.
  assert (Hra : 0 <= fst ra /\ fst ra <= 20).
  { destruct (industry_targeted m ld); injection Hok as <-; cbn [fst]; lra. }
  destruct Hra as [Hra0 Hra20]. clear Hok.
  assert (Hvalid : ScoringWeights_valid (weights m)).
  { rewrite Hw. repeat split; vm_compute; discriminate. }
  destruct (weighted_score_caps m now ld (fst ra) Hvalid Hsane) as [Hlow Hcap].
  rewrite Hw in Hcap.
  cbn [ScoringWeights_default company_fit growth_indicators technology_fit
       engagement_signals timing_signals scoring.buying_signals] in Hcap.
  set (self := LeadScoringEngine_init (Some m)) in *.
  unfold scored. cbn [total_score scoring.qualification_status].
  set (total := _calculate_weighted_score self (score_categories self now ld) (fst ra)) in *.
  destruct (penalised_between self ld total Hq ltac:(lra)) as [Hpl Hph].
  split.
  - eapply Qle_trans; [apply Q.le_min_r|]. apply Q.max_lub; lra.
  - destruct (determine_qualification_spec self (fst (apply_quality_penalty self ld total)))
      as (_ & _ & _ & Hun).
    assert (Hself : thresholds (model self) = QualificationThresholds_default).
    { subst self. rewrite (proj2 (init_model_fields m)). exact Hth. }
    rewrite Hun; [reflexivity | | | ]; rewrite Hself;
      cbn [QualificationThresholds_default hot_threshold warm_threshold cold_threshold]; lra.
Qed.

(** A lead in the target industry and inside the ICP's size range. *)
Lemma default_weights_never_qualify_witness :
  exists r,
    score_lead (LeadScoringEngine_init (Some targeting_model)) sample_now (sized_lead 100)
    = Ok r
    /\ total_score r <= 38
    /\ scoring.qualification_status r = "Unqualified"%string.
Proof.
  destruct (score_lead (LeadScoringEngine_init (Some targeting_model)) sample_now
              (sized_lead 100)) as [r|e] eqn:H; [|vm_compute in H; discriminate].
  exists r. split; [reflexivity|].
  apply (default_weights_never_qualify targeting_model sample_now (sized_lead 100) r);
    first [reflexivity | exact H | exact I | unfold sane_sizes; cbn; lia].
Defined.

(** ** The tier and the returned score *)

(** X8. With the default thresholds the tier of a returned score can be
    read off its [total_score]: Hot from 80, Warm from 60, Cold from 40,
    Unqualified below.  The tier is taken before the total is clamped to
    [0, 100], and the clamp crosses none of the three thresholds. *)
Theorem tier_matches_total_score (self : LeadScoringEngine) (now : datetime) (ld : Lead)
    (r : LeadScore) :
  thresholds (model self) = QualificationThresholds_default ->
  score_lead self now ld = Ok r ->
  (scoring.qualification_status r = "Hot"%string <-> 80 <= total_score r)
  /\ (scoring.qualification_status r = "Warm"%string
      <-> 60 <= total_score r /\ total_score r < 80)
  /\ (scoring.qualification_status r = "Cold"%string
      <-> 40 <= total_score r /\ total_score r < 60)
  /\ (scoring.qualification_status r = "Unqualified"%string <-> total_score r < 40).
Proof.
  intros Hth Hr. apply score_lead_inv in Hr as (ra & _ & ->).
  cbn [scored total_score scoring.qualification_status].
  set (score := fst (apply_quality_penalty self ld _)).
  pose proof (clamp_ge_iff score 80) as H80.
  pose proof (clamp_ge_iff score 60) as H60.
  pose proof (clamp_ge_iff score 40) as H40.
  destruct (determine_qualification_spec self score) as (Hhot & Hwarm & Hcold & Hun).
  rewrite Hth in Hhot, Hwarm, Hcold, Hun.
  cbn [QualificationThresholds_default hot_threshold warm_threshold cold_threshold]
    in Hhot, Hwarm, Hcold, Hun.
  specialize (H80 ltac:(lra) ltac:(lra)). specialize (H60 ltac:(lra) ltac:(lra)).
  specialize (H40 ltac:(lra) ltac:(lra)).
  generalize dependent (Qmin 100 (Qmax 0 score)). intros clamped H80 H60 H40.
  assert (L80 : clamped < 80 <-> score < 80).
  { split; intros H; apply Qnot_le_lt; intros Hc; apply H80 in Hc; lra. }
  assert (L60 : clamped < 60 <-> score < 60).
  { split; intros H; apply Qnot_le_lt; intros Hc; apply H60 in Hc; lra. }
  assert (L40 : clamped < 40 <-> score < 40).
  { split; intros H; apply Qnot_le_lt; intros Hc; apply H40 in Hc; lra. }
  rewrite H80, H60, H40, L80, L60, L40. clear H80 H60 H40 L80 L60 L40 clamped.
  destruct (Qlt_le_dec score 80) as [B80|G80];
    [destruct (Qlt_le_dec score 60) as [B60|G60];
     [destruct (Qlt_le_dec score 40) as [B40|G40]|]|].
  - rewrite (Hun B80 B60 B40). cbn [value].
    repeat split; intros; first [discriminate | lra | reflexivity].
  - rewrite (Hcold B80 B60 G40). cbn [value].
    repeat split; intros; first [discriminate | lra | reflexivity].
  - rewrite (Hwarm B80 G60). cbn [value].
    repeat split; intros; first [discriminate | lra | reflexivity].
  - rewrite (Hhot G80). cbn [value].
    repeat split; intros; first [discriminate | lra | reflexivity].
Qed.

Lemma tier_matches_total_score_witness :
  exists r,
    score_lead (industry_engine 90) sample_now (sample_lead None [] []) = Ok r
    /\ scoring.qualification_status r = "Hot"%string.
Proof.
  destruct (score_lead (industry_engine 90) sample_now (sample_lead None [] []))
    as [r|e] eqn:H; [|vm_compute in H; discriminate].
  exists r. split; [reflexivity|].
  apply (tier_matches_total_score (industry_engine 90) sample_now (sample_lead None [] []) r
           eq_refl H).
  vm_compute in H. injection H as <-. vm_compute. discriminate.
Defined.

(** ** Outreach strategy *)

(** X9. [_suggest_outreach_strategy] cuts the score at 80, 60 and 40,
    whatever thresholds the model holds; for an engine with the default
    thresholds its timing and approach are those of the tier that
    [_determine_qualification] gives the same score. *)
Theorem outreach_strategy_follows_default_tier (self : LeadScoringEngine) (ld : Lead)
    (score : Q) :
  thresholds (model self) = QualificationThresholds_default ->
  _suggest_outreach_strategy self ld score
  = strategy_of_tier (_determine_qualification self score).
Proof.
  intros Hth. unfold _suggest_outreach_strategy, _determine_qualification. rewrite Hth.
  cbn [QualificationThresholds_default hot_threshold warm_threshold cold_threshold].
  destruct (Qgeb score 80), (Qgeb score 60), (Qgeb score 40); reflexivity.
Qed.

Lemma outreach_strategy_follows_default_tier_witness :
  _suggest_outreach_strategy (LeadScoringEngine_init None) (sample_lead None [] []) 72
  = ("Within 48 hours", "Personalized email with specific value proposition")%string.
Proof.
  rewrite (outreach_strategy_follows_default_tier (LeadScoringEngine_init None)
             (sample_lead None [] []) 72 eq_refl).
  reflexivity.
Defined.

(** ** Bounds of the intent analysis *)

Lemma fold_left_fst_mono {A S : Type} (f : Z * S -> A -> Z * S) (items : list A) :
  (forall acc a, (fst acc <= fst (f acc a))%Z) ->
  forall acc, (fst acc <= fst (fold_left f items acc))%Z.
Proof.
  intros Hf. induction items as [|a items IH]; intros acc; cbn [fold_left]; [lia|].
  specialize (IH (f acc a)). specialize (Hf acc a). lia.
Qed.

Ltac step_mono :=
  intros; cbv beta zeta;
  repeat match goal with
         | |- context [if ?c then _ else _] => destruct c
         end; cbn [fst]; lia.

Lemma job_posting_intent_cap (self : BuyerIntentAnalyzer) (postings : list string) :
  (0 <= score (_analyze_job_posting_intent self postings) <= 10)%Z.
Proof.
  unfold _analyze_job_posting_intent. cbn [score].
  pose proof (fold_left_fst_mono job_posting_step postings) as H.
  specialize (H ltac:(unfold job_posting_step; step_mono) (0%Z, [])). cbn [fst] in H. lia.
Qed.

Lemma technology_intent_cap (self : BuyerIntentAnalyzer) (ld : Lead) :
  (0 <= score (_analyze_technology_intent self ld) <= 8)%Z.
Proof.
  unfold _analyze_technology_intent. cbv zeta. cbn [score].
  match goal with
  | |- context [fold_left ?f ?l (fold_left ?g ?l' ?a)] =>
      pose proof (fold_left_fst_mono f l ltac:(step_mono) (fold_left g l' a)) as H2;
      pose proof (fold_left_fst_mono g l' ltac:(step_mono) a) as H1
  end.
  cbn [fst] in H1. destruct (len _ <? 3)%Z; cbn [fst]; lia.
Qed.

Lemma growth_intent_cap (self : BuyerIntentAnalyzer) (ld : Lead) :
  (0 <= score (_analyze_growth_intent self ld) <= 6)%Z.
Proof.
  unfold _analyze_growth_intent. cbv zeta. cbn [score].
  destruct (recent_hiring (lead.buying_signals ld)) as [n|];
    [destruct (truthy_int (Some n) && (5 <=? n)%Z)|];
    (destruct (growth_rate (metrics ld)) as [rate|];
     [destruct (truthy_float (Some rate) && Qgeb rate 25)|]);
    match goal with
    | |- context [fold_left ?f ?l ?a] =>
        pose proof (fold_left_fst_mono f l ltac:(step_mono) a) as H1
    end; cbn [fst] in *; lia.
Qed.

Lemma funding_intent_cap (self : BuyerIntentAnalyzer) (now : datetime) (ld : Lead) :
  (0 <= score (_analyze_funding_intent self now ld) <= 5)%Z.
Proof.
  unfold _analyze_funding_intent. cbv zeta. cbn [score].
  destruct (last_funding_date (metrics ld));
    repeat match goal with
           | |- context [if ?c then _ else _] => destruct c
           | |- context [match ?o with Some _ => _ | None => _ end] => destruct o
           end; cbn [fst]; lia.
Qed.

Lemma intent_score_bounds (self : BuyerIntentAnalyzer) (now : datetime) (ld : Lead) :
  (0 <= intent_score (analyze_intent self now ld) <= 29)%Z.
Proof.
  unfold analyze_intent. cbv zeta.
  pose proof (job_posting_intent_cap self (job_postings (lead.buying_signals ld))).
  pose proof (technology_intent_cap self ld).
  pose proof (growth_intent_cap self ld).
  pose proof (funding_intent_cap self now ld).
  destruct (truthy_list _); cbn [intent_score]; lia.
Qed.

(** X10. Each part of the intent analysis stays within its cap, whatever
    the lead holds: job postings in [0, 10], technology in [0, 8], growth in
    [0, 6], funding in [0, 5]; the intent score, their sum, lies in [0, 29],
    and the level follows it: High from 15, Medium from 8, Low from 3,
    Minimal below. *)
Theorem intent_scores_within_caps (self : BuyerIntentAnalyzer) (now : datetime) (ld : Lead) :
  (0 <= score (_analyze_job_posting_intent self (job_postings (lead.buying_signals ld))) <= 10)%Z
  /\ (0 <= score (_analyze_technology_intent self ld) <= 8)%Z
  /\ (0 <= score (_analyze_growth_intent self ld) <= 6)%Z
  /\ (0 <= score (_analyze_funding_intent self now ld) <= 5)%Z
  /\ (0 <= intent_score (analyze_intent self now ld) <= 29)%Z
  /\ intent_level (analyze_intent self now ld)
     = (if (15 <=? intent_score (analyze_intent self now ld))%Z then "High"
        else if (8 <=? intent_score (analyze_intent self now ld))%Z then "Medium"
        else if (3 <=? intent_score (analyze_intent self now ld))%Z then "Low"
        else "Minimal")%string.
Proof.
  split; [apply job_posting_intent_cap|]. split; [apply technology_intent_cap|].
  split; [apply growth_intent_cap|]. split; [apply funding_intent_cap|].
  split; [apply intent_score_bounds|].
  unfold analyze_intent. cbv zeta.
  destruct (truthy_list _); reflexivity.
Qed.

(** ** Senior titles in the job postings *)

Lemma posting_points_nonneg (posting : string) : (0 <= posting_points posting)%Z.
Proof.
  unfold posting_points. cbv zeta.
  repeat match goal with
         | |- context [if ?c then _ else _] => destruct c
         end; lia.
Qed.

Lemma sum_points_member (posting : string) (postings : list string) :
  In posting postings ->
  (posting_points posting <= sum_points posting_points postings)%Z.
Proof.
  unfold sum_points.
  induction postings as [|p postings IH]; intros Hin; [destruct Hin|].
  cbn [map fold_right]. destruct Hin as [->|Hin].
  - assert (0 <= fold_right Z.add 0 (map posting_points postings))%Z; [|lia].
    clear. induction postings as [|q postings IH]; cbn [map fold_right]; [lia|].
    pose proof (posting_points_nonneg q). lia.
  - specialize (IH Hin). pose proof (posting_points_nonneg p). lia.
Qed.

Lemma job_posting_step_keeps (acc : Z * list IntentSignal) (posting : string)
    (signal : IntentSignal) :
  In signal (snd acc) -> In signal (snd (job_posting_step acc posting)).
Proof.
  intros Hin. unfold job_posting_step. cbv zeta.
  repeat match goal with
         | |- context [if ?c then _ else _] => destruct c
         end; cbn [snd]; repeat (apply List.in_or_app; left); exact Hin.
Qed.

Lemma job_posting_loop_keeps (postings : list string) (acc : Z * list IntentSignal)
    (signal : IntentSignal) :
  In signal (snd acc) -> In signal (snd (fold_left job_posting_step postings acc)).
Proof.
  revert acc. induction postings as [|p postings IH]; intros acc Hin; [exact Hin|].
  cbn [fold_left]. apply IH. apply job_posting_step_keeps. exact Hin.
Qed.

Lemma senior_title_matches_twice (posting : string) :
  any_in ["vp marketing"; "marketing director"; "head of growth"]%string (lower posting)
  = true ->
  any_in high_intent_roles (lower posting) = true
  /\ any_in decision_maker_roles (lower posting) = true.
Proof.
  intros H. apply any_in_elim in H as (k & Hin & Hk). split.
  - apply (any_in_intro k); [|exact Hk].
    cbn in Hin. unfold high_intent_roles. cbn. tauto.
  - cbn in Hin. destruct Hin as [<- | [<- | [<- | []]]].
    + apply (any_in_intro "vp"); [cbn; tauto|].
      apply (str_in_trans _ "vp marketing"); [reflexivity | exact Hk].
    + apply (any_in_intro "director"); [cbn; tauto|].
      apply (str_in_trans _ "marketing director"); [reflexivity | exact Hk].
    + apply (any_in_intro "head of"); [cbn; tauto|].
      apply (str_in_trans _ "head of growth"); [reflexivity | exact Hk].
Qed.

(** X11. A posting for a VP Marketing, a Marketing Director or a Head of
    Growth is counted twice: each of these high-intent titles contains a
    decision-maker title ([vp], [director], [head of]), so the posting
    brings 5 + 2 points and both signals, and one such posting alone takes
    the job-posting score to 7 of its 10 points. *)
Theorem senior_titles_count_twice (self : BuyerIntentAnalyzer) (postings : list string)
    (posting : string) :
  In posting postings ->
  any_in ["vp marketing"; "marketing director"; "head of growth"]%string (lower posting)
  = true ->
  (7 <= score (_analyze_job_posting_intent self postings))%Z
  /\ In (HiringHighIntentRole posting) (signals (_analyze_job_posting_intent self postings))
  /\ In (HiringDecisionMaker posting) (signals (_analyze_job_posting_intent self postings)).
Proof.
  intros Hin Hsenior.
  destruct (senior_title_matches_twice posting Hsenior) as [Hhigh Hdm].
  split.
  - unfold _analyze_job_posting_intent. cbn [score].
    rewrite job_posting_loop_points. cbn [fst].
    pose proof (sum_points_member posting postings Hin) as Hsum.
    assert (7 <= posting_points posting)%Z; [|lia].
    unfold posting_points. cbv zeta. rewrite Hhigh, Hdm.
    destruct (any_in tech_keywords (lower posting)); lia.
  - unfold _analyze_job_posting_intent. cbn [signals].
    generalize (0%Z, @nil IntentSignal).
    induction postings as [|p postings IH]; intros acc; [destruct Hin|].
    cbn [fold_left]. destruct Hin as [->|Hin]; [|apply IH; exact Hin].
    split; apply job_posting_loop_keeps; unfold job_posting_step; cbv zeta;
      rewrite Hhigh, Hdm; destruct (any_in tech_keywords (lower posting)); cbn [snd fst];
      rewrite ?List.in_app_iff; cbn [In]; tauto.
Qed.

Lemma senior_titles_count_twice_witness :
  (7 <= score (_analyze_job_posting_intent BuyerIntentAnalyzer_init
                 ["Office Manager"; "VP Marketing"]%string))%Z.
Proof.
  refine (proj1 (senior_titles_count_twice BuyerIntentAnalyzer_init
                   ["Office Manager"; "VP Marketing"]%string "VP Marketing" _ _)).
  - right. left. reflexivity.
  - vm_compute. reflexivity.
Defined.

(** ** The buying committee *)

Lemma extended_cons (before : option (list string)) (x : string) (added : list string) :
  extended (Some (default [] before ++ [x])) added = extended before (x :: added).
Proof.
  destruct added as [|y added]; cbn [extended from_option].
  - reflexivity.
  - unfold Datatypes.id. rewrite <- app_assoc. reflexivity.
Qed.

Ltac committee_cases posting :=
  destruct (any_in ["ceo"; "cmo"; "vp marketing"; "head of growth"]%string (lower posting));
  destruct (any_in ["marketing manager"; "operations"; "analyst"]%string (lower posting));
  destruct (any_in ["cto"; "engineering"; "it"; "developer"]%string (lower posting));
  unfold committee_add.

Lemma committee_fold (postings : list string) (start : gmap string (list string))
    (key : string) :
  let step := fun (committee_signals : gmap string (list string)) (posting : string) =>
       let posting_lower := lower posting in
       let committee_signals :=
         if any_in ["ceo"; "cmo"; "vp marketing"; "head of growth"]%string posting_lower
         then committee_add "decision_makers" posting committee_signals
         else committee_signals in
       let committee_signals :=
         if any_in ["marketing manager"; "operations"; "analyst"]%string posting_lower
         then committee_add "influencers" posting committee_signals
         else committee_signals in
       let committee_signals :=
         if any_in ["cto"; "engineering"; "it"; "developer"]%string posting_lower
         then committee_add "technical_evaluators" posting committee_signals
         else committee_signals in
       committee_signals in
  fold_left step postings start !! key
  = match assoc key committee_roles with
    | Some roles => extended (start !! key) (postings_for roles postings)
    | None => start !! key
    end.
Proof.
  cbv zeta. revert start.
  induction postings as [|posting postings IH]; intros start.
  - cbn [fold_left postings_for List.filter extended].
    destruct (assoc key committee_roles); reflexivity.
  - cbn [fold_left]. rewrite IH. clear IH.
    unfold committee_roles, postings_for. cbn [assoc List.filter].
    destruct (String.eqb_spec key "decision_makers") as [->|Hd].
    { committee_cases posting;
        repeat (rewrite lookup_insert_ne by discriminate);
        try rewrite lookup_insert_eq;
        repeat (rewrite lookup_insert_ne by discriminate);
        try apply extended_cons; reflexivity. }
    destruct (String.eqb_spec key "influencers") as [->|Hi].
    { committee_cases posting;
        repeat (rewrite lookup_insert_ne by discriminate);
        try rewrite lookup_insert_eq;
        repeat (rewrite lookup_insert_ne by discriminate);
        try apply extended_cons; reflexivity. }
    destruct (String.eqb_spec key "technical_evaluators") as [->|Ht].
    { committee_cases posting;
        repeat (rewrite lookup_insert_ne by discriminate);
        try rewrite lookup_insert_eq;
        repeat (rewrite lookup_insert_ne by discriminate);
        try apply extended_cons; reflexivity. }
    committee_cases posting;
      repeat (rewrite lookup_insert_ne by congruence); reflexivity.
Qed.

(** X12. The buying committee has at most the three keys
    [decision_makers], [influencers] and [technical_evaluators]; under each
    it lists, in the order of the lead, exactly the job postings whose lower
    case contains one of the role words of that key, and a key without such
    a posting is absent rather than bound to an empty list. *)
Theorem buying_committee_lists_matching_postings (self : BuyerIntentAnalyzer) (ld : Lead)
    (key : string) :
  _identify_buying_committee self ld !! key
  = match assoc key committee_roles with
    | Some roles =>
        match postings_for roles (job_postings (lead.buying_signals ld)) with
        | [] => None
        | found => Some found
        end
    | None => None
    end.
Proof.
  unfold _identify_buying_committee. cbv zeta.
  rewrite (committee_fold (job_postings (lead.buying_signals ld)) ∅ key).
  rewrite lookup_empty.
  destruct (assoc key committee_roles) as [roles|]; [|reflexivity].
  destruct (postings_for roles _); reflexivity.
Qed.

(** ** Timing and priority *)

Lemma timing_score_bounds (self : LeadQualificationEngine) (now : datetime) (ld : Lead) :
  (0 <= _calculate_timing_score self now ld <= 20)%Z.
Proof.
  unfold _calculate_timing_score. cbv zeta.
  repeat match goal with
         | |- context [if ?c then _ else _] => destruct c
         | |- context [match ?o with Some _ => _ | None => _ end] => destruct o
         end; lia.
Qed.

Lemma quality_or_50_bounds (ld : Lead) :
  in_range 0 100 (data_quality_score ld) ->
  0 <= quality_or_50 ld /\ quality_or_50 ld <= 100.
Proof.
  unfold quality_or_50. destruct (data_quality_score ld) as [dq|]; cbn [in_range].
  - destruct (truthy_float (Some dq)); cbn [from_option]; unfold Datatypes.id; lra.
  - intros _. cbn. lra.
Qed.

(** X13. With the four qualification weights of the constructor (0.4, 0.3,
    0.2 and 0.1) every qualification that [qualify_lead] returns carries a
    priority score between 0 and 100 and a timing score between 0 and 20,
    whatever engine does the scoring. *)
Theorem priority_score_within_bounds (self : LeadQualificationEngine) (now : datetime)
    (ld : Lead) (q : Qualification) :
  qualification_weights self = qualification_weights LeadQualificationEngine_init ->
  in_range 0 100 (data_quality_score ld) ->
  qualify_lead self now ld = Ok q ->
  (0 <= priority_score q /\ priority_score q <= 100)
  /\ (0 <= timing_score q <= 20)%Z.
Proof.
  intros Hw Hq Hres.
  apply qualify_lead_inv in Hres as (ls & final & priority & Hls & _ & Hp & ->).
  cbn [priority_score timing_score].
  split; [|apply timing_score_bounds].
  apply score_lead_inv in Hls as (ra & _ & ->).
  pose proof (scored_total_bounds (qualifier.scorer self) now ld ra) as [Ht0 Ht100].
  pose proof (timing_score_bounds self now ld) as [Hm0 Hm20].
  pose proof (intent_score_bounds (intent_analyzer self) now ld) as [Hi0 _].
  pose proof (quality_or_50_bounds ld Hq) as [Hd0 Hd100].
  unfold _calculate_priority_score in Hp. rewrite Hw in Hp.
  cbn [mbind result_bind Py.bind] in Hp.
  change (getitem (qualification_weights LeadQualificationEngine_init) "lead_score")
    with (Ok 0.4) in Hp.
  change (getitem (qualification_weights LeadQualificationEngine_init) "intent_score")
    with (Ok 0.3) in Hp.
  change (getitem (qualification_weights LeadQualificationEngine_init) "data_quality")
    with (Ok 0.2) in Hp.
  change (getitem (qualification_weights LeadQualificationEngine_init) "timing_score")
    with (Ok 0.1) in Hp.
  cbn [Py.bind] in Hp. injection Hp as <-.
  rewrite Zle_Qle in Hm0, Hm20, Hi0.
  change (inject_Z 0) with 0 in Hm0, Hi0. change (inject_Z 20) with 20 in Hm20.
  unfold scored in Ht0, Ht100 |- *. cbn [total_score] in Ht0, Ht100 |- *.
  revert Ht0 Ht100 Hm0 Hm20 Hi0 Hd0 Hd100.
  generalize (Qmin 100 (Qmax 0 (fst (apply_quality_penalty (qualifier.scorer self) ld
                (_calculate_weighted_score (qualifier.scorer self)
                   (score_categories (qualifier.scorer self) now ld) (fst ra))))))
    (inject_Z (_calculate_timing_score self now ld))
    (inject_Z (intent_score (analyze_intent (intent_analyzer self) now ld)))
    (quality_or_50 ld).
  intros total timing intent quality Ht0 Ht100 Hm0 Hm20 Hi0 Hd0 Hd100.
  assert (Hmin : 0 <= Qmin (intent / 20) 1 /\ Qmin (intent / 20) 1 <= 1).
  { split; [apply Q.min_glb; qnorm; lra | apply Q.le_min_r]. }
  revert Hmin. generalize (Qmin (intent / 20) 1). intros capped [Hc0 Hc1].
  qnorm. split; lra.
Qed.

Lemma priority_score_within_bounds_witness :
  exists q,
    qualify_lead (industry_qualifier 70) sample_now eager_lead = Ok q
    /\ priority_score q <= 100.
Proof.
  destruct (qualify_lead (industry_qualifier 70) sample_now eager_lead) as [q|e] eqn:H;
    [|vm_compute in H; discriminate].
  exists q. split; [reflexivity|].
  apply (priority_score_within_bounds (industry_qualifier 70) sample_now eager_lead q);
    [reflexivity | vm_compute; split; discriminate | exact H].
Defined.

(** ** One step at most *)

(** X14. The reconciliation never raises on a tier that the scorer can
    return and moves it by one step at most: Unqualified stays Unqualified,
    Cold stays or becomes Warm, Warm goes to Hot, stays or goes to Cold, and
    Hot stays or becomes Warm. *)
Theorem reconciliation_moves_one_step (self : LeadQualificationEngine) (ls : LeadScore)
    (ia : IntentAnalysis) (t : Z) (ld : Lead) (base : QualificationStatus) :
  scoring.qualification_status ls = value base ->
  exists final,
    _determine_final_qualification self ls ia t ld = Ok final
    /\ (rank base - 1 <= rank final <= rank base + 1)%Z
    /\ (base = UNQUALIFIED -> final = UNQUALIFIED)
    /\ (base = COLD -> final = COLD \/ final = WARM)
    /\ (base = HOT -> final = HOT \/ final = WARM).
Proof.
  intros Hbase. unfold _determine_final_qualification. rewrite Hbase, of_value_value.
  cbn [mbind result_bind Py.bind]. cbv zeta.
  destruct base;
    destruct (String.eqb (intent_level ia) "High"),
      (String.eqb (intent_level ia) "Medium"), (15 <=? t)%Z,
      (data_quality_score ld) as [dq|];
    try destruct (truthy_float (Some dq) && Qltb dq 40);
    eexists; (split; [reflexivity|]); cbn [rank];
    (split; [lia|]); repeat split; intros; try discriminate; auto.
Qed.

Lemma reconciliation_moves_one_step_witness :
  exists final,
    _determine_final_qualification (industry_qualifier 70)
      (scored (industry_engine 70) sample_now eager_lead (70, []))
      (analyze_intent BuyerIntentAnalyzer_init sample_now eager_lead) 0 eager_lead
    = Ok final
    /\ (rank WARM - 1 <= rank final <= rank WARM + 1)%Z.
Proof.
  destruct (reconciliation_moves_one_step (industry_qualifier 70)
              (scored (industry_engine 70) sample_now eager_lead (70, []))
              (analyze_intent BuyerIntentAnalyzer_init sample_now eager_lead) 0 eager_lead
              WARM) as (final & Hfinal & Hrank & _).
  - vm_compute. reflexivity.
  - exists final. split; [exact Hfinal | exact Hrank].
Defined.

(** ** Scores written back to the lead *)

Lemma breakdown_keys (self : LeadScoringEngine) (now : datetime) (ld : Lead) :
  map fst (breakdown (score_categories self now ld)) = map category_value categories.
Proof.
  unfold breakdown, score_categories, categories. cbn [omap list_omap].
  repeat (rewrite lookup_insert_ne by discriminate).
  rewrite lookup_insert_eq.
  reflexivity.
Qed.

(** X15. What [enrich_lead] writes back after scoring is always
    acceptable: the [qualification_status] of a returned score is the value
    of a [QualificationStatus] member, so the constructor does not raise;
    the stored [lead_score] is the returned total, within the [0, 100] that
    the field declares although the assignment is not validated; the
    breakdown holds the six categories; and a lead that was valid stays
    valid. *)
Theorem stored_scores_are_valid (self : LeadScoringEngine) (now : datetime) (ld : Lead)
    (r : LeadScore) :
  Lead_valid ld ->
  score_lead self now ld = Ok r ->
  exists stored status,
    write_scores ld r = Ok stored
    /\ value status = scoring.qualification_status r
    /\ lead.qualification_status stored = Some status
    /\ lead.lead_score stored = Some (total_score r)
    /\ map fst (score_breakdown stored) = map category_value categories
    /\ Lead_valid stored.
Proof.
  intros (Hm & Hs & Hq & Hc) Hr. apply score_lead_inv in Hr as (ra & _ & ->).
  unfold write_scores, scored. cbn [scoring.qualification_status total_score category_scores].
  rewrite of_value_value. cbn [mbind result_bind Py.bind].
  eexists. eexists. split; [reflexivity|].
  cbn [lead.qualification_status lead.lead_score score_breakdown].
  split; [reflexivity|]. split; [reflexivity|]. split; [reflexivity|].
  split; [apply breakdown_keys|].
  unfold Lead_valid.
  cbn [metrics lead.lead_score data_quality_score completeness_percentage in_range].
  split; [exact Hm|]. split; [apply clamp_bounds|]. split; [exact Hq | exact Hc].
Qed.

Lemma stored_scores_are_valid_witness :
  exists r stored,
    score_lead (industry_engine 90) sample_now (sample_lead (Some 90) [] []) = Ok r
    /\ write_scores (sample_lead (Some 90) [] []) r = Ok stored
    /\ lead.qualification_status stored = Some HOT
    /\ Lead_valid stored.
Proof.
  destruct (score_lead (industry_engine 90) sample_now (sample_lead (Some 90) [] []))
    as [r|e] eqn:H; [|vm_compute in H; discriminate].
  destruct (stored_scores_are_valid (industry_engine 90) sample_now
              (sample_lead (Some 90) [] []) r)
    as (stored & status & Hstored & Hvalue & Hstatus & _ & _ & Hvalid);
    [vm_compute; intuition discriminate | exact H |].
  exists r, stored. split; [reflexivity|]. split; [exact Hstored|].
  split; [|exact Hvalid].
  rewrite Hstatus. f_equal.
  vm_compute in H. injection H as <-.
  destruct status; vm_compute in Hvalue; first [reflexivity | discriminate].
Defined.

(** X16. Scoring is stable under the write-back: for an engine built on a
    model without rules of its own, scoring the stored lead again returns
    the score that was stored.  The three fields written back are read by
    no category score and by no default rule. *)
Theorem rescoring_is_stable (m : ScoringModel) (now : datetime) (ld stored : Lead)
    (r : LeadScore) :
  global_rules m = [] ->
  score_lead (LeadScoringEngine_init (Some m)) now ld = Ok r ->
  write_scores ld r = Ok stored ->
  score_lead (LeadScoringEngine_init (Some m)) now stored = Ok r.
Proof.
  intros Hrules Hr Hstored. rewrite <- Hr.
  unfold write_scores in Hstored.
  destruct (of_value (scoring.qualification_status r)) as [status|e];
    cbn [mbind result_bind Py.bind] in Hstored; [|discriminate].
  injection Hstored as <-.
  unfold score_lead.
  rewrite !(default_rules_result m now _ Hrules).
  destruct ld. reflexivity.
Qed.

Lemma rescoring_is_stable_witness :
  exists r stored,
    score_lead (LeadScoringEngine_init (Some targeting_model)) sample_now (sized_lead 100)
    = Ok r
    /\ write_scores (sized_lead 100) r = Ok stored
    /\ score_lead (LeadScoringEngine_init (Some targeting_model)) sample_now stored = Ok r.
Proof.
  eexists. eexists. split; [vm_compute; reflexivity|]. split; [vm_compute; reflexivity|].
  apply (rescoring_is_stable targeting_model sample_now (sized_lead 100));
    [reflexivity | vm_compute; reflexivity | vm_compute; reflexivity].
Defined.

(** ** [get_leads] *)

Lemma insert_desc_perm (x : Lead) (sorted : list Lead) :
  Permutation (insert_desc x sorted) (x :: sorted).
Proof.
  induction sorted as [|y rest IH]; cbn [insert_desc]; [reflexivity|].
  destruct (Qltb (score_or_0 x) (score_or_0 y)); [|reflexivity].
  rewrite IH. apply perm_swap.
Qed.

Lemma sort_desc_perm (leads : list Lead) : Permutation (sort_desc leads) leads.
Proof.
  induction leads as [|x leads IH]; [reflexivity|].
  cbn [sort_desc fold_right]. fold (sort_desc leads).
  rewrite insert_desc_perm, IH. reflexivity.
Qed.

Lemma insert_desc_sorted (x : Lead) (sorted : list Lead) :
  StronglySorted by_score_desc sorted ->
  StronglySorted by_score_desc (insert_desc x sorted).
Proof.
  induction 1 as [|y rest Hrest IH Hy]; cbn [insert_desc].
  - constructor; constructor.
  - destruct (Qltb (score_or_0 x) (score_or_0 y)) eqn:Hlt.
    + constructor; [exact IH|].
      apply (Permutation_Forall (Permutation_sym (insert_desc_perm x rest))).
      constructor; [|exact Hy]. apply Qltb_true in Hlt. unfold by_score_desc. lra.
    + assert (Hge : score_or_0 y <= score_or_0 x).
      { apply Qnot_lt_le. intros Hc. apply Qltb_true in Hc. congruence. }
      constructor; [constructor; assumption|].
      constructor; [exact Hge|].
      eapply List.Forall_impl; [|exact Hy]. unfold by_score_desc. intros z Hz. lra.
Qed.

Lemma sort_desc_sorted (leads : list Lead) : StronglySorted by_score_desc (sort_desc leads).
Proof.
  induction leads as [|x leads IH]; [constructor|].
  cbn [sort_desc fold_right]. apply insert_desc_sorted. exact IH.
Qed.

(** Leads of equal score keep their order. *)
Lemma insert_desc_stable (k : Q) (x : Lead) (sorted : list Lead) :
  StronglySorted by_score_desc sorted ->
  List.filter (same_score k) (insert_desc x sorted)
  = List.filter (same_score k) (x :: sorted).
Proof.
  induction 1 as [|y rest Hrest IH Hy]; cbn [insert_desc]; [reflexivity|].
  destruct (Qltb (score_or_0 x) (score_or_0 y)) eqn:Hlt; [|reflexivity].
  apply Qltb_true in Hlt.
  cbn [List.filter] in IH |- *. rewrite IH.
  destruct (same_score k y) eqn:Hky; [|reflexivity].
  destruct (same_score k x) eqn:Hkx; [|reflexivity].
  unfold same_score in Hky, Hkx. apply Qeq_bool_iff in Hky, Hkx. lra.
Qed.

Lemma sort_desc_stable (k : Q) (leads : list Lead) :
  List.filter (same_score k) (sort_desc leads) = List.filter (same_score k) leads.
Proof.
  induction leads as [|x leads IH]; [reflexivity|].
  cbn [sort_desc fold_right]. fold (sort_desc leads).
  rewrite insert_desc_stable by apply sort_desc_sorted.
  cbn [List.filter]. rewrite IH. reflexivity.
Qed.

Lemma sorted_sublist {A : Type} (R : A -> A -> Prop) (k l : list A) :
  k `sublist_of` l -> StronglySorted R l -> StronglySorted R k.
Proof.
  induction 1 as [|x k l Hsub IH|x k l Hsub IH]; intros Hl.
  - constructor.
  - apply StronglySorted_inv in Hl as [Hl Hx]. constructor; [apply IH; exact Hl|].
    apply List.Forall_forall. intros y Hy. rewrite List.Forall_forall in Hx. apply Hx.
    apply list_elem_of_In. apply (elem_of_sublist k l); [|exact Hsub].
    apply list_elem_of_In. exact Hy.
  - apply StronglySorted_inv in Hl as [Hl _]. apply IH. exact Hl.
Qed.

Lemma kept_leads_sublist (leads : list Lead) (score_min score_max : option Q)
    (qualification industry_filter : option string) :
  kept_leads leads score_min score_max qualification industry_filter `sublist_of` leads.
Proof.
  unfold kept_leads, keep_industry, keep_qualification, keep_score_max, keep_score_min.
  destruct (truthy_str industry_filter), (truthy_str qualification), score_max, score_min;
    repeat (etrans; [apply sublist_filter|]); reflexivity.
Qed.

Lemma kept_leads_score_min (leads : list Lead) (bound : Q) (score_max : option Q)
    (qualification industry_filter : option string) (ld : Lead) :
  ld ∈ kept_leads leads (Some bound) score_max qualification industry_filter ->
  exists score, lead.lead_score ld = Some score /\ ~ score == 0 /\ bound <= score.
Proof.
  intros Hin.
  assert (Hmin : ld ∈ keep_score_min (Some bound) leads).
  { revert Hin. unfold kept_leads, keep_industry, keep_qualification, keep_score_max.
    generalize (keep_score_min (Some bound) leads). intros candidates.
    destruct (truthy_str industry_filter), (truthy_str qualification), score_max;
      intros Hin; repeat (apply list_elem_of_filter in Hin as [_ Hin]); exact Hin. }
  unfold keep_score_min in Hmin. apply list_elem_of_filter in Hmin as [Hp _].
  apply andb_true_iff in Hp as [Htruthy Hge].
  destruct (lead.lead_score ld) as [score|]; [|discriminate].
  exists score. split; [reflexivity|].
  split; [apply truthy_float_Some; exact Htruthy | apply Qgeb_true; exact Hge].
Qed.

Lemma filtered_leads_sorted_kept (leads : list Lead) (score_min score_max : option Q)
    (qualification industry_filter : option string) :
  StronglySorted by_score_desc
    (filtered_leads leads score_min score_max qualification industry_filter)
  /\ Permutation (filtered_leads leads score_min score_max qualification industry_filter)
       (kept_leads leads score_min score_max qualification industry_filter).
Proof.
  unfold filtered_leads. fold (kept_leads leads score_min score_max qualification industry_filter).
  split; [apply sort_desc_sorted | apply sort_desc_perm].
Qed.

(** X17. The list that [get_leads] pages through is the stable descending
    sort of the leads that pass the filters: it is ordered by score from
    the highest down, a lead without a score counting as 0; it holds
    exactly the leads kept by the filters; and leads of equal score stay in
    their stored order. *)
Theorem filtered_leads_stable_descending (leads : list Lead) (score_min score_max : option Q)
    (qualification industry_filter : option string) :
  StronglySorted by_score_desc
    (filtered_leads leads score_min score_max qualification industry_filter)
  /\ Permutation (filtered_leads leads score_min score_max qualification industry_filter)
       (kept_leads leads score_min score_max qualification industry_filter)
  /\ forall k,
       List.filter (same_score k)
         (filtered_leads leads score_min score_max qualification industry_filter)
       = List.filter (same_score k)
           (kept_leads leads score_min score_max qualification industry_filter).
Proof.
  unfold filtered_leads. fold (kept_leads leads score_min score_max qualification industry_filter).
  split; [apply sort_desc_sorted|]. split; [apply sort_desc_perm|].
  intros k. apply sort_desc_stable.
Qed.

(** X18. A page of [get_leads]: [total_count] never exceeds the number of
    stored leads; the page holds [min limit (total_count - offset)] leads,
    all of them stored leads, ordered by score from the highest down; and
    under a [score_min], 0 included, every lead of the page has a non-zero
    score of at least that bound, so leads scored 0.0 and leads never scored
    are left out although 0 >= 0. *)
Theorem get_leads_page (leads : list Lead) (score_min score_max : option Q)
    (qualification industry_filter : option string) (limit offset : nat) :
  let page := fst (get_leads leads score_min score_max qualification industry_filter
                     limit offset) in
  let total_count := snd (get_leads leads score_min score_max qualification industry_filter
                            limit offset) in
  (total_count <= length leads)%nat
  /\ length page = Nat.min limit (total_count - offset)
  /\ StronglySorted by_score_desc page
  /\ Forall (fun ld => ld ∈ leads) page
  /\ forall bound, score_min = Some bound ->
       Forall (fun ld => exists score,
                 lead.lead_score ld = Some score /\ ~ score == 0 /\ bound <= score) page.
Proof.
  cbv zeta. unfold get_leads. cbv zeta. cbn [fst snd].
  pose proof (kept_leads_sublist leads score_min score_max qualification industry_filter)
    as Hsub.
  destruct (filtered_leads_sorted_kept leads score_min score_max qualification
              industry_filter) as (Hsorted & Hperm).
  set (found := filtered_leads leads score_min score_max qualification industry_filter) in *.
  assert (Hpage : firstn limit (skipn offset found) `sublist_of` found).
  { etrans; [apply sublist_take | apply sublist_drop]. }
  split.
  { rewrite (Permutation_length Hperm). apply sublist_length. exact Hsub. }
  split.
  { rewrite length_take, length_drop. reflexivity. }
  split.
  { apply (sorted_sublist _ _ found); assumption. }
  assert (Hin : forall ld, ld ∈ firstn limit (skipn offset found) ->
            ld ∈ kept_leads leads score_min score_max qualification industry_filter).
  { intros ld Hld. rewrite <- Hperm.
    exact (elem_of_sublist _ _ _ Hld Hpage). }
  split.
  { apply Forall_forall. intros ld Hld.
    exact (elem_of_sublist _ _ _ (Hin ld Hld) Hsub). }
  intros bound ->. apply Forall_forall. intros ld Hld.
  apply (kept_leads_score_min leads bound score_max qualification industry_filter).
  apply Hin. exact Hld.
Qed.

Lemma get_leads_page_witness :
  map lead.lead_score (fst (get_leads stored_leads (Some 0) None None None 50 0))
  = [Some 72; Some 55; Some 20]
  /\ Forall (fun ld => exists score,
               lead.lead_score ld = Some score /\ ~ score == 0 /\ 0 <= score)
       (fst (get_leads stored_leads (Some 0) None None None 50 0)).
Proof.
  split; [vm_compute; reflexivity|].
  apply (get_leads_page stored_leads (Some 0) None None None 50 0). reflexivity.
Defined.

(** ** [_calculate_score_distribution] *)

Lemma bucket_count_cons (key : string) (score : Q) (scores : list Q) :
  bucket_count key (score :: scores)
  = ((if String.eqb (bucket score) key then 1 else 0) + bucket_count key scores)%Z.
Proof.
  unfold bucket_count, len. cbn [List.filter].
  destruct (String.eqb (bucket score) key); cbn [length]; lia.
Qed.

Lemma bucket_cases (score : Q) :
  bucket score = "0-20"%string \/ bucket score = "21-40"%string
  \/ bucket score = "41-60"%string \/ bucket score = "61-80"%string
  \/ bucket score = "81-100"%string.
Proof.
  unfold bucket.
  destruct (Qle_bool score 20), (Qle_bool score 40), (Qle_bool score 60), (Qle_bool score 80);
    tauto.
Qed.

Lemma bucket_is_key (score : Q) : In (bucket score) bucket_keys.
Proof.
  unfold bucket_keys. cbn [In].
  destruct (bucket_cases score) as [H | [H | [H | [H | H]]]]; rewrite H; tauto.
Qed.

Lemma count_scores_spec (scores : list Q) (distribution : gmap string Z) :
  (forall key, In key bucket_keys -> is_Some (distribution !! key)) ->
  exists counted,
    count_scores scores distribution = Ok counted
    /\ forall key,
         counted !! key = (fun n => (n + bucket_count key scores)%Z) <$> distribution !! key.
Proof.
  revert distribution. induction scores as [|score scores IH]; intros distribution Hkeys.
  - exists distribution. split; [reflexivity|]. intros key.
    unfold bucket_count, len. cbn [List.filter length Z.of_nat].
    destruct (distribution !! key) as [n|]; cbn [fmap option_fmap option_map];
      [rewrite Z.add_0_r|]; reflexivity.
  - cbn [count_scores]. unfold increment.
    destruct (Hkeys (bucket score) (bucket_is_key score)) as [n Hn]. rewrite Hn.
    cbn [mbind result_bind Py.bind].
    destruct (IH (<[bucket score := (n + 1)%Z]> distribution)) as (counted & Hcounted & Hspec).
    { intros key Hkey. destruct (decide (bucket score = key)) as [<-|Hne].
      - rewrite lookup_insert_eq. eexists. reflexivity.
      - rewrite lookup_insert_ne by exact Hne. apply Hkeys. exact Hkey. }
    exists counted. split; [exact Hcounted|]. intros key. rewrite Hspec.
    rewrite bucket_count_cons.
    destruct (String.eqb_spec (bucket score) key) as [<-|Hne].
    + rewrite lookup_insert_eq, Hn. cbn [fmap option_fmap option_map]. f_equal. lia.
    + rewrite lookup_insert_ne by exact Hne.
      destruct (distribution !! key); cbn [fmap option_fmap option_map]; [f_equal; lia|].
      reflexivity.
Qed.

Lemma bucket_counts_total (scores : list Q) :
  (bucket_count "0-20" scores + bucket_count "21-40" scores + bucket_count "41-60" scores
   + bucket_count "61-80" scores + bucket_count "81-100" scores)%Z = len scores.
Proof.
  induction scores as [|score scores IH]; [reflexivity|].
  rewrite !bucket_count_cons.
  replace (len (score :: scores)) with (1 + len scores)%Z by (unfold len; cbn [length]; lia).
  rewrite <- IH.
  destruct (bucket_cases score) as [H | [H | [H | [H | H]]]]; rewrite H;
    repeat match goal with
           | |- context [String.eqb ?a ?b] =>
               let v := eval vm_compute in (String.eqb a b) in
               change (String.eqb a b) with v
           end; cbv iota; lia.
Qed.

(** X19. [_calculate_score_distribution] never raises: it returns a dict
    with exactly the five bucket keys, each key bound to the number of
    non-zero scores in its bucket, and the five counts add up to the number
    of leads with a non-zero score.  Leads scored 0.0 are counted in no
    bucket. *)
Theorem score_distribution_counts_every_score (leads : list Lead) :
  exists distribution,
    _calculate_score_distribution leads = Ok distribution
    /\ (forall key, In key bucket_keys ->
         distribution !! key = Some (bucket_count key (truthy_scores leads)))
    /\ (forall key, ~ In key bucket_keys -> distribution !! key = None)
    /\ (bucket_count "0-20" (truthy_scores leads) + bucket_count "21-40" (truthy_scores leads)
        + bucket_count "41-60" (truthy_scores leads)
        + bucket_count "61-80" (truthy_scores leads)
        + bucket_count "81-100" (truthy_scores leads))%Z
       = len (truthy_scores leads).
Proof.
  assert (Hsome : forall key, In key bucket_keys -> empty_distribution !! key = Some 0%Z).
  { intros key Hkey. unfold bucket_keys in Hkey. cbn [In] in Hkey.
    destruct Hkey as [<- | [<- | [<- | [<- | [<- | []]]]]]; reflexivity. }
  assert (Hnone : forall key, ~ In key bucket_keys -> empty_distribution !! key = None).
  { intros key Hkey. unfold empty_distribution. apply not_elem_of_list_to_map_1.
    cbn [fmap list_fmap fst]. intros Hin. apply Hkey. apply list_elem_of_In. exact Hin. }
  destruct (count_scores_spec (truthy_scores leads) empty_distribution)
    as (counted & Hcounted & Hspec).
  { intros key Hkey. rewrite (Hsome key Hkey). eexists. reflexivity. }
  exists counted. split.
  { unfold _calculate_score_distribution. cbv zeta.
    destruct (truthy_scores leads) as [|score scores] eqn:Hscores.
    - cbn [truthy_list negb]. cbn [count_scores] in Hcounted. exact Hcounted.
    - cbn [truthy_list negb]. exact Hcounted. }
  split.
  { intros key Hkey. rewrite Hspec, (Hsome key Hkey). reflexivity. }
  split.
  { intros key Hkey. rewrite Hspec, (Hnone key Hkey). reflexivity. }
  apply bucket_counts_total.
Qed.

Lemma score_distribution_counts_every_score_witness :
  exists distribution,
    _calculate_score_distribution stored_leads = Ok distribution
    /\ distribution !! "0-20"%string = Some 1%Z
    /\ distribution !! "41-60"%string = Some 1%Z
    /\ distribution !! "61-80"%string = Some 1%Z.
Proof.
  destruct (score_distribution_counts_every_score stored_leads)
    as (distribution & Hd & Hin & _).
  exists distribution. split; [exact Hd|].
  rewrite !Hin by (cbn; tauto). repeat split; vm_compute; reflexivity.
Defined.

(** ** The default engines end to end *)

(** X20. With the engines that [app.py] builds, [LeadScoringEngine()] and
    [LeadQualificationEngine()], every run of scoring, qualifying and storing
    that returns for a lead whose data quality score is within its range
    ends the same way: a total of at most 18, the stored and the final
    qualification Unqualified, the next review 90 days on, and no meeting
    suggestion. *)
Theorem default_pipeline_never_qualifies (now : datetime) (ld stored : Lead)
    (r : LeadScore) (q : Qualification) :
  in_range 0 100 (data_quality_score ld) ->
  score_and_store (LeadScoringEngine_init None) LeadQualificationEngine_init now ld
  = Ok (stored, r, q) ->
  total_score r <= 18
  /\ lead.qualification_status stored = Some UNQUALIFIED
  /\ final_qualification q = UNQUALIFIED
  /\ next_review_date q = (now + 90 * us_per_day)%Z
  /\ _generate_meeting_suggestions stored = [].
Proof.
  intros Hrange. unfold score_and_store.
  destruct (score_lead (LeadScoringEngine_init None) now ld) as [r'|e] eqn:Hr;
    cbn [mbind result_bind Py.bind]; [|discriminate].
  destruct (qualify_lead LeadQualificationEngine_init now ld) as [q'|e] eqn:Hq;
    cbn [mbind result_bind Py.bind]; [|discriminate].
  destruct (default_engine_below_cold now ld r' Hrange Hr) as [H18 Hun].
  pose proof (default_qualification_is_unqualified now ld q' Hrange Hq) as Hfinal.
  unfold write_scores. rewrite Hun.
  change (of_value "Unqualified") with (Ok UNQUALIFIED).
  cbn [mbind result_bind Py.bind].
  intros H. injection H as <- <- <-.
  split; [exact H18|]. split; [reflexivity|]. split; [exact Hfinal|].
  split; [|reflexivity].
  apply qualify_lead_inv in Hq as (ls & final & priority & _ & _ & _ & ->).
  cbn [final_qualification next_review_date] in Hfinal |- *. rewrite Hfinal. reflexivity.
Qed.

Lemma default_pipeline_never_qualifies_witness :
  exists stored r q,
    score_and_store (LeadScoringEngine_init None) LeadQualificationEngine_init sample_now
      eager_lead = Ok (stored, r, q)
    /\ lead.qualification_status stored = Some UNQUALIFIED
    /\ final_qualification q = UNQUALIFIED.
Proof.
  destruct (score_and_store (LeadScoringEngine_init None) LeadQualificationEngine_init
              sample_now eager_lead) as [[[stored r] q]|e] eqn:Hrun;
    [|vm_compute in Hrun; discriminate].
  exists stored, r, q. split; [reflexivity|].
  destruct (default_pipeline_never_qualifies sample_now eager_lead stored r q)
    as (_ & Hstored & Hfinal & _).
  - vm_compute. intuition discriminate.
  - exact Hrun.
  - split; [exact Hstored | exact Hfinal].
Defined.
